(** * solxpect: solar panel orientation and production estimate

    A shallow embedding of the two entry points of the repository,
    [solar_optimizer_excel.py] (the standalone script, module [Excel]) and
    [solar_optimizer_app.py] (the dashboard, module [App]), and the
    properties of the orientation optimizer, the irradiance-to-power model
    and the time-series aggregation.

    Python floats are read as real numbers: arithmetic is exact.  The
    transcendental functions of Python's [math] module are an interface
    ([MathModule]), so that the properties which do not depend on their
    values hold for every implementation of it, rounded or not; [real_math]
    is the exact one.  [math.asin] and [math.acos] raise [ValueError]
    outside [-1, 1]: they are partial here. *)

From Stdlib Require Import Reals Lra Lia ZArith List Bool Sorted.
From Stdlib Require String.
Import String.StringSyntax.
Import ListNotations.

Local Open Scope string_scope.
Local Open Scope R_scope.

(** ** Python values and builtins *)

Module Py.

(** Comparison of two floats, as a boolean. *)
Definition Rltb (x y : R) : bool := if Rlt_dec x y then true else false.
Definition Rleb (x y : R) : bool := if Rle_dec x y then true else false.

Infix "<?" := Rltb (at level 70, no associativity) : R_scope.
Infix "<=?" := Rleb (at level 70, no associativity) : R_scope.
Notation "x >? y" := (Rltb y x) (at level 70, no associativity) : R_scope.
Notation "x >=? y" := (Rleb y x) (at level 70, no associativity) : R_scope.

(** [max(a, b)] and [min(a, b)] keep their first argument unless the second
    one is strictly larger (smaller). *)
Definition max (a b : R) : R := if b >? a then b else a.
Definition min (a b : R) : R := if b <? a then b else a.

Definition abs (x : R) : R := Rabs x.

(** [x / y] on floats: [None] is the [ZeroDivisionError]. *)
Definition truediv (x y : R) : option R :=
  if Req_dec_T y 0 then None else Some (x / y).

(** A [numpy.float64] result: dividing by zero gives an infinity or a NaN,
    with a warning and without raising. *)
Inductive npfloat := NpFinite (x : R) | NpInf | NpNegInf | NpNaN.

Definition np_truediv (x y : R) : npfloat :=
  if Req_dec_T y 0 then
    (if 0 <? x then NpInf else if x <? 0 then NpNegInf else NpNaN)
  else NpFinite (x / y).

Definition np_mul (a : npfloat) (c : R) : npfloat :=
  match a with
  | NpFinite x => NpFinite (x * c)
  | NpInf => if 0 <? c then NpInf else if c <? 0 then NpNegInf else NpNaN
  | NpNegInf => if 0 <? c then NpNegInf else if c <? 0 then NpInf else NpNaN
  | NpNaN => NpNaN
  end.

(** [math.radians] and [math.degrees]. *)
Definition radians (x : R) : R := x * (PI / 180).
Definition degrees (x : R) : R := x * (180 / PI).

(** [math.asin] and [math.acos]: [None] is the [ValueError] raised for an
    argument outside [-1, 1]. *)
Definition asin (x : R) : option R :=
  if (-1 <=? x) && (x <=? 1) then Some (Ratan.asin x) else None.
Definition acos (x : R) : option R :=
  if (-1 <=? x) && (x <=? 1) then Some (Ratan.acos x) else None.

(** The total functions of [math] that the program calls. *)
Class MathModule := {
  sin : R -> R;
  cos : R -> R;
  tan : R -> R;
  atan2 : R -> R -> R
}.

(** [math.atan2] over the reals, by quadrant. *)
Definition real_atan2 (y x : R) : R :=
  if 0 <? x then atan (y / x)
  else if x <? 0 then (if 0 <=? y then atan (y / x) + PI else atan (y / x) - PI)
  else if 0 <? y then PI / 2
  else if y <? 0 then - (PI / 2)
  else 0.

Definition real_math : MathModule :=
  {| sin := Rtrigo_def.sin; cos := Rtrigo_def.cos; tan := Rtrigo1.tan;
     atan2 := real_atan2 |}.

(** [datetime.date] and [datetime.datetime] (to the minute). *)
Record date := mkdate { d_year : Z; d_month : Z; d_day : Z }.

Record datetime := mkdatetime {
  year : Z; month : Z; day : Z; hour : Z; minute : Z
}.

Definition date_of (t : datetime) : date :=
  mkdate (year t) (month t) (day t).

Definition is_leap (y : Z) : bool :=
  ((y mod 4 =? 0) && (negb (y mod 100 =? 0) || (y mod 400 =? 0)))%Z.

Definition days_in_month (y m : Z) : Z :=
  (if m =? 2 then (if is_leap y then 29 else 28)
   else if (m =? 4) || (m =? 6) || (m =? 9) || (m =? 11) then 30 else 31)%Z.

Definition days_before_month (y m : Z) : Z :=
  (nth (Z.to_nat (m - 1)) [0; 31; 59; 90; 120; 151; 181; 212; 243; 273; 304; 334] 0
   + (if (2 <? m) && is_leap y then 1 else 0))%Z.

(** [timestamp.timetuple().tm_yday], 1 for the first of January. *)
Definition tm_yday (t : datetime) : Z :=
  (days_before_month (year t) (month t) + day t)%Z.

(** The values a [datetime] can hold. *)
Definition valid_datetime (t : datetime) : bool :=
  ((1 <=? year t) && (year t <=? 9999) && (1 <=? month t) && (month t <=? 12)
   && (1 <=? day t) && (day t <=? days_in_month (year t) (month t))
   && (0 <=? hour t) && (hour t <=? 23) && (0 <=? minute t) && (minute t <=? 59))%Z.

(** Dates compare as the tuples (year, month, day). *)
Definition date_ltb (a b : date) : bool :=
  ((d_year a <? d_year b)
   || ((d_year a =? d_year b)
       && ((d_month a <? d_month b)
           || ((d_month a =? d_month b) && (d_day a <? d_day b)))))%Z.

Definition date_eqb (a b : date) : bool :=
  ((d_year a =? d_year b) && (d_month a =? d_month b) && (d_day a =? d_day b))%Z.

Definition date_leb (a b : date) : bool := date_ltb a b || date_eqb a b.

(** Calendar months of a [pandas] period, [to_period('M')]: (year, month). *)
Definition period : Type := Z * Z.

Definition period_of (d : date) : period := (d_year d, d_month d).

Definition period_ltb (a b : period) : bool :=
  ((fst a <? fst b) || ((fst a =? fst b) && (snd a <? snd b)))%Z.

Definition period_eqb (a b : period) : bool :=
  ((fst a =? fst b) && (snd a =? snd b))%Z.

(** Sequencing of computations that may raise. *)
Definition bind {A B : Type} (m : option A) (k : A -> option B) : option B :=
  match m with Some a => k a | None => None end.


Definition sum (l : list R) : R := fold_left Rplus l 0.

(** [max(iterable, key=f)]: the first item is kept until a later one has a
    strictly larger key; [None] is the [ValueError] on an empty iterable.
    [Series.idxmax] selects the same position. *)
Definition max_by {A : Type} (key : A -> R) (l : list A) : option A :=
  match l with
  | [] => None
  | first :: rest =>
      Some (fold_left (fun maxitem item =>
                         if key item >? key maxitem then item else maxitem)
                      rest first)
  end.

(** [l[i] += v] on a list: a negative index counts from the end, [None] is
    the [IndexError]. *)
Fixpoint add_at (n : nat) (v : R) (l : list R) : list R :=
  match l, n with
  | [], _ => []
  | x :: l', O => (x + v) :: l'
  | x :: l', S n' => x :: add_at n' v l'
  end.

Definition list_iadd (l : list R) (i : Z) (v : R) : option (list R) :=
  let len := Z.of_nat (length l) in
  if ((0 <=? i) && (i <? len))%Z then Some (add_at (Z.to_nat i) v l)
  else if ((- len <=? i) && (i <? 0))%Z then Some (add_at (Z.to_nat (len + i)) v l)
  else None.

(** Containers keyed by [K]: a [dict] keeps its keys in insertion order, a
    [groupby] result keeps them sorted. *)
Section Keyed.
Context {K : Type} (eqb ltb : K -> K -> bool).

(** [d.get(k)], [None] when the key is absent. *)
Fixpoint assoc (k : K) (d : list (K * R)) : option R :=
  match d with
  | [] => None
  | (k', v') :: d' => if eqb k k' then Some v' else assoc k d'
  end.

(** [d.get(k, default)]. *)
Definition dict_get (k : K) (d : list (K * R)) (default : R) : R :=
  match assoc k d with Some v => v | None => default end.

(** [d[k] = v]: a present key keeps its place, a new key goes last. *)
Fixpoint dict_set (k : K) (v : R) (d : list (K * R)) : list (K * R) :=
  match d with
  | [] => [(k, v)]
  | (k', v') :: d' =>
      if eqb k k' then (k', v) :: d' else (k', v') :: dict_set k v d'
  end.

(** One row more in the groups of [groupby(key).sum()]. *)
Fixpoint group_add (k : K) (v : R) (g : list (K * R)) : list (K * R) :=
  match g with
  | [] => [(k, v)]
  | (k', v') :: g' =>
      if ltb k k' then (k, v) :: g
      else if ltb k' k then (k', v') :: group_add k v g'
      else (k', v' + v) :: g'
  end.

(** [groupby(key)[value].sum().reset_index()]: one row per key, keys in
    increasing order. *)
Definition groupby_sum (rows : list (K * R)) : list (K * R) :=
  fold_left (fun g r => group_add (fst r) (snd r) g) rows [].

End Keyed.

End Py.

Import Py.

Arguments Py.sum : simpl never.

Notation "x <- m ;; k" := (Py.bind m (fun x => k))
  (at level 61, m at next level, right associativity).

(** ** Weather input and production rows *)

(** The i-th entries of the provider's hourly arrays; [null] is [None]. *)
Record hourly_entry := mkhourly {
  time : datetime;
  temperature_2m : option R;
  diffuse_radiation : option R;
  direct_normal_irradiance : option R;
  shortwave_radiation : option R
}.

(** One element of [excel_data], a row of the frame [df]. *)
Record row := mkrow {
  Timestamp : datetime;
  Date : date;
  Hour : Z;
  Temperature : R;
  Direct_Normal_Irradiance : R;
  Diffuse_Radiation : R;
  Global_Horizontal_Irradiance : R;
  Power_Output : R;
  Energy_Wh : R
}.

(** [x if x is not None else default]. *)
Definition or_default (x : option R) (default : R) : R :=
  match x with Some v => v | None => default end.

(** ** The standalone script, [solar_optimizer_excel.py] *)

Module Excel.

Section WithMath.
Context {M : MathModule}.

(** [calculate_optimal_angles(latitude, longitude)]: (azimuth, tilt). *)
Definition calculate_optimal_angles (latitude longitude : R) : R * R :=
  let optimal_azimuth := if latitude >=? 0 then 180 else 0 in
  let abs_latitude := Py.abs latitude in
  let optimal_tilt :=
    if abs_latitude <? 25 then abs_latitude * 0.87
    else if abs_latitude <? 50 then abs_latitude
    else abs_latitude * 0.9 in
  (optimal_azimuth, optimal_tilt).

(** [calculate_angle_of_incidence]: angle between sun vector and panel
    normal, in degrees. *)
Definition calculate_angle_of_incidence
    (sun_azimuth sun_elevation panel_azimuth panel_tilt : R) : option R :=
  let sa := radians sun_azimuth in
  let se := radians sun_elevation in
  let pa := radians panel_azimuth in
  let pt := radians panel_tilt in
  let cos_incidence := sin se * cos pt + cos se * sin pt * cos (sa - pa) in
  let cos_incidence := Py.max (-1) (Py.min 1 cos_incidence) in
  a <- Py.acos cos_incidence ;;
  Some (degrees a).

(** The sun position at the head of [calculate_power]. *)
Definition day_hour (timestamp : datetime) : R :=
  IZR (hour timestamp) + IZR (minute timestamp) / 60.

Definition declination_at (timestamp : datetime) : R :=
  23.45 * sin (radians (IZR (284 + tm_yday timestamp) * 360 / 365)).

Definition hour_angle_at (timestamp : datetime) : R :=
  (day_hour timestamp - 12) * 15.

Definition elevation_at (lat : R) (timestamp : datetime) : option R :=
  let declination := declination_at timestamp in
  let hour_angle := hour_angle_at timestamp in
  e <- Py.asin (sin (radians declination) * sin (radians lat)
                + cos (radians declination) * cos (radians lat)
                  * cos (radians hour_angle)) ;;
  Some (degrees e).

(** [calculate_power]: instantaneous power output in watts. *)
Definition calculate_power
    (lat lon azimuth tilt direct_normal diffuse shortwave : R)
    (timestamp : datetime) (temperature : R) : option R :=
  let declination := declination_at timestamp in
  let hour_angle := hour_angle_at timestamp in
  elevation <- elevation_at lat timestamp ;;
  if elevation <=? 0 then Some 0
  else
    let solar_azimuth :=
      degrees (atan2 (- sin (radians hour_angle))
                     (tan (radians declination) * cos (radians lat)
                      - sin (radians lat) * cos (radians hour_angle))) in
    let solar_azimuth :=
      if solar_azimuth <? 0 then solar_azimuth + 360 else solar_azimuth in
    angle_of_incidence <-
      calculate_angle_of_incidence solar_azimuth elevation azimuth tilt ;;
    let cosine_factor := Py.max 0 (cos (radians angle_of_incidence)) in
    let total_radiation :=
      direct_normal * cosine_factor
      + diffuse * (1 + cos (radians tilt)) / 2
      + shortwave * 0.2 * (1 - cos (radians tilt)) / 2 in
    let temp_effect := 1 + (temperature - 25) * (-0.004) in
    let power := total_radiation * temp_effect * 0.95 in
    Some (Py.max 0 power).

(** The solar azimuth that [calculate_power] computes once the sun is up,
    normalised by its [if solar_azimuth < 0: solar_azimuth += 360]. *)
Definition solar_azimuth_at (lat : R) (timestamp : datetime) : R :=
  let declination := declination_at timestamp in
  let hour_angle := hour_angle_at timestamp in
  let solar_azimuth :=
    degrees (atan2 (- sin (radians hour_angle))
                   (tan (radians declination) * cos (radians lat)
                    - sin (radians lat) * cos (radians hour_angle))) in
  if solar_azimuth <? 0 then solar_azimuth + 360 else solar_azimuth.

(** [get_direction(azimuth)]: the compass direction of an azimuth. *)
Definition get_direction (azimuth : R) : String.string :=
  if (azimuth >=? 337.5) || (azimuth <? 22.5) then "North"
  else if (azimuth >=? 22.5) && (azimuth <? 67.5) then "Northeast"
  else if (azimuth >=? 67.5) && (azimuth <? 112.5) then "East"
  else if (azimuth >=? 112.5) && (azimuth <? 157.5) then "Southeast"
  else if (azimuth >=? 157.5) && (azimuth <? 202.5) then "South"
  else if (azimuth >=? 202.5) && (azimuth <? 247.5) then "Southwest"
  else if (azimuth >=? 247.5) && (azimuth <? 292.5) then "West"
  else if (azimuth >=? 292.5) && (azimuth <? 337.5) then "Northwest"
  else "Unknown".

(** The variables of [analyze_last_year_production] that the loop updates. *)
Record analysis := mkanalysis {
  total_energy : R;
  monthly_energy : list R;
  daily_energy : list (date * R);
  excel_data : list row
}.

Definition initial : analysis :=
  mkanalysis 0 (repeat 0 12) [] [].

(** One turn of the loop over the hours. *)
Definition loop_body (latitude longitude azimuth tilt : R)
    (h : hourly_entry) (st : analysis) : option analysis :=
  let timestamp := time h in
  let temp := or_default (temperature_2m h) 20 in
  let diffuse := or_default (diffuse_radiation h) 0 in
  let direct := or_default (direct_normal_irradiance h) 0 in
  let sw := or_default (shortwave_radiation h) 0 in
  power <- calculate_power latitude longitude azimuth tilt
                           direct diffuse sw timestamp temp ;;
  let excel_data :=
    excel_data st ++ [mkrow timestamp (date_of timestamp) (hour timestamp)
                            temp direct diffuse sw power power] in
  let total_energy := total_energy st + power in
  monthly_energy <- list_iadd (monthly_energy st) (month timestamp - 1) power ;;
  let date_key := date_of timestamp in
  let daily_energy :=
    dict_set date_eqb date_key
             (dict_get date_eqb date_key (daily_energy st) 0 + power)
             (daily_energy st) in
  Some (mkanalysis total_energy monthly_energy daily_energy excel_data).

Fixpoint loop (latitude longitude azimuth tilt : R)
    (hourly : list hourly_entry) (st : analysis) : option analysis :=
  match hourly with
  | [] => Some st
  | h :: hourly' =>
      st' <- loop_body latitude longitude azimuth tilt h st ;;
      loop latitude longitude azimuth tilt hourly' st'
  end.

(** [analyze_last_year_production], from the fetched hours to the figures
    it prints: the loop's variables, [peak_day] and [peak_energy]. *)
Definition analyze_last_year_production (latitude longitude azimuth tilt : R)
    (hourly : list hourly_entry) : option (analysis * date * R) :=
  st <- loop latitude longitude azimuth tilt hourly initial ;;
  peak_day <- max_by (fun k => dict_get date_eqb k (daily_energy st) 0)
                     (map fst (daily_energy st)) ;;
  peak_energy <- assoc date_eqb peak_day (daily_energy st) ;;
  Some (st, peak_day, peak_energy).

End WithMath.

End Excel.

(** ** The dashboard, [solar_optimizer_app.py] *)

Module App.

Inductive hemisphere := Northern | Southern.
Inductive direction := South | North.
Inductive zone := Tropical | Temperate | HighLatitude.

Section WithMath.
Context {M : MathModule}.

(** [calculate_optimal_angles(latitude)]:
    (azimuth, tilt, hemisphere, direction, zone). *)
Definition calculate_optimal_angles (latitude : R)
    : R * R * hemisphere * direction * zone :=
  let '(optimal_azimuth, hemisphere, direction) :=
    if latitude >=? 0 then (180, Northern, South) else (0, Southern, North) in
  let abs_latitude := Py.abs latitude in
  let '(optimal_tilt, zone) :=
    if abs_latitude <? 25 then (abs_latitude * 0.87, Tropical)
    else if abs_latitude <? 50 then (abs_latitude, Temperate)
    else (abs_latitude * 0.9, HighLatitude) in
  (optimal_azimuth, optimal_tilt, hemisphere, direction, zone).

(** The first two components, as the callers unpack them. *)
Definition optimal_azimuth (latitude : R) : R :=
  let '(azimuth, _, _, _, _) := calculate_optimal_angles latitude in azimuth.

Definition optimal_tilt (latitude : R) : R :=
  let '(_, tilt, _, _, _) := calculate_optimal_angles latitude in tilt.

(** [calculate_temperature_coefficient(latitude)], in %/°C. *)
Definition calculate_temperature_coefficient (latitude : R) : R :=
  let abs_latitude := Py.abs latitude in
  if abs_latitude <? 15 then -0.45
  else if abs_latitude <? 30 then -0.42
  else if abs_latitude <? 45 then -0.40
  else if abs_latitude <? 60 then -0.38
  else -0.35.

(** [calculate_panel_area(system_size_kw, efficiency_percent)]. *)
Definition calculate_panel_area (system_size_kw efficiency_percent : R)
    : option R :=
  Py.truediv (system_size_kw * 1000) (1000 * (efficiency_percent / 100)).

(** The sun position at the head of [calculate_solar_power]. *)
Definition day_hour (timestamp : datetime) : R :=
  IZR (hour timestamp) + IZR (minute timestamp) / 60.

Definition declination_at (timestamp : datetime) : R :=
  23.45 * sin (radians (IZR (284 + tm_yday timestamp) * 360 / 365)).

Definition hour_angle_at (timestamp : datetime) : R :=
  (day_hour timestamp - 12) * 15.

Definition elevation_at (lat : R) (timestamp : datetime) : option R :=
  let declination := declination_at timestamp in
  let hour_angle := hour_angle_at timestamp in
  e <- Py.asin (sin (radians declination) * sin (radians lat)
                + cos (radians declination) * cos (radians lat)
                  * cos (radians hour_angle)) ;;
  Some (degrees e).

(** The angle of incidence, computed inline in [calculate_solar_power]. *)
Definition incidence_angle (solar_azimuth elevation azimuth tilt : R)
    : option R :=
  let sa := radians solar_azimuth in
  let se := radians elevation in
  let pa := radians azimuth in
  let pt := radians tilt in
  let cos_incidence := sin se * cos pt + cos se * sin pt * cos (sa - pa) in
  let cos_incidence := Py.max (-1) (Py.min 1 cos_incidence) in
  a <- Py.acos cos_incidence ;;
  Some (degrees a).

(** [calculate_solar_power]: power output, before any system scaling. *)
Definition calculate_solar_power
    (lat lon azimuth tilt direct_normal diffuse shortwave : R)
    (timestamp : datetime) (temperature temp_coefficient : R) : option R :=
  let declination := declination_at timestamp in
  let hour_angle := hour_angle_at timestamp in
  elevation <- elevation_at lat timestamp ;;
  if elevation <=? 0 then Some 0
  else
    let solar_azimuth :=
      degrees (atan2 (- sin (radians hour_angle))
                     (tan (radians declination) * cos (radians lat)
                      - sin (radians lat) * cos (radians hour_angle))) in
    let solar_azimuth :=
      if solar_azimuth <? 0 then solar_azimuth + 360 else solar_azimuth in
    angle_of_incidence <- incidence_angle solar_azimuth elevation azimuth tilt ;;
    let cosine_factor := Py.max 0 (cos (radians angle_of_incidence)) in
    let total_radiation :=
      direct_normal * cosine_factor
      + diffuse * (1 + cos (radians tilt)) / 2
      + shortwave * 0.2 * (1 - cos (radians tilt)) / 2 in
    let temp_effect := 1 + (temperature - 25) * (temp_coefficient / 100) in
    let power := total_radiation * temp_effect in
    Some (Py.max 0 power).

(** The loop of the "Analyze Historical Data" button: the frame [df]. *)
Definition sample_row (latitude longitude system_size system_efficiency : R)
    (h : hourly_entry) : option row :=
  let '(azimuth, tilt, _, _, _) := calculate_optimal_angles latitude in
  let temp_coefficient := calculate_temperature_coefficient latitude in
  let timestamp := time h in
  let temp := or_default (temperature_2m h) 20 in
  let diffuse := or_default (diffuse_radiation h) 0 in
  let direct := or_default (direct_normal_irradiance h) 0 in
  let sw := or_default (shortwave_radiation h) 0 in
  power <- calculate_solar_power latitude longitude azimuth tilt
                                 direct diffuse sw timestamp temp
                                 temp_coefficient ;;
  let scaled_power := power * system_size * (system_efficiency / 100) in
  Some (mkrow timestamp (date_of timestamp) (hour timestamp)
              temp direct diffuse sw scaled_power scaled_power).

Fixpoint build_frame (latitude longitude system_size system_efficiency : R)
    (hourly : list hourly_entry) : option (list row) :=
  match hourly with
  | [] => Some []
  | h :: hourly' =>
      r <- sample_row latitude longitude system_size system_efficiency h ;;
      df <- build_frame latitude longitude system_size system_efficiency hourly' ;;
      Some (r :: df)
  end.

End WithMath.

(** The summary computed from the stored frame [df].  The frame is
    [pd.DataFrame(excel_data)]: built from no rows it has no columns, and
    [df['Energy (Wh)']], [df.groupby('Date')] and [monthly_df['Date']] raise
    [KeyError], which is [None] here. *)

(** [df[name]], the column of a field. *)
Definition column {A : Type} (field : row -> A) (df : list row)
    : option (list A) :=
  match df with [] => None | _ :: _ => Some (map field df) end.

(** [df['Energy (Wh)'].sum() / 1000], in kWh. *)
Definition total_energy (df : list row) : option R :=
  energy <- column Energy_Wh df ;;
  Some (Py.sum energy / 1000).

(** [daily_df]: (Date, Energy (Wh)) per date; the column Energy (kWh) is
    [daily_kWh] of a row. *)
Definition daily_df (df : list row) : option (list (date * R)) :=
  rows <- column (fun r => (Date r, Energy_Wh r)) df ;;
  Some (groupby_sum date_ltb rows).

Definition daily_kWh (r : date * R) : R := snd r / 1000.

(** [daily_df.loc[daily_df['Energy (kWh)'].idxmax()]]. *)
Definition peak_day (df : list row) : option (date * R) :=
  daily <- daily_df df ;;
  max_by daily_kWh daily.

(** [monthly_summary]: (Month, Energy (Wh)) per calendar month. *)
Definition monthly_summary (df : list row) : option (list (period * R)) :=
  rows <- column (fun r => (period_of (Date r), Energy_Wh r)) df ;;
  Some (groupby_sum period_ltb rows).

Definition monthly_kWh (r : period * R) : R := snd r / 1000.

(** A float that may be [float('inf')]. *)
Inductive xfloat := Finite (x : R) | Infinity.

Definition xlt (a : xfloat) (b : R) : bool :=
  match a with Finite x => x <? b | Infinity => false end.

(** A cell of the savings table: the formatted [payback_years], or the
    text N/A. *)
Inductive payback_cell := Years (y : xfloat) | NotApplicable.

Definition annual_savings (annual_production electricity_rate : R) : R :=
  annual_production * electricity_rate.

Definition cost_per_kw : R := 1000.

Definition system_cost (system_size : R) : R := system_size * cost_per_kw.

(** [payback_years], from the two branches on [annual_savings > 0]. *)
Definition payback_years (system_cost annual_savings : R) : xfloat :=
  if annual_savings >? 0 then Finite (system_cost / annual_savings)
  else Infinity.

(** The table cell of the simple payback period:
    [f'{payback_years:.1f} years' if payback_years < 100 else 'N/A']. *)
Definition payback_report (payback_years : xfloat) : payback_cell :=
  if xlt payback_years 100 then Years payback_years else NotApplicable.

Definition lifetime_savings (annual_savings system_cost : R) : R :=
  annual_savings * 25 - system_cost.

(** [monthly_savings] and [daily_avg]. *)
Definition monthly_savings (annual_savings : R) : R := annual_savings / 12.

Definition daily_avg (total_energy : R) : R := total_energy / 365.

(** The capacity factor of the fourth summary card, in percent;
    [total_energy] is the [numpy.float64] of the column sum. *)
Definition capacity_factor (total_energy system_size : R) : npfloat :=
  Py.np_mul (Py.np_truediv total_energy (system_size * 8760)) 100.

(** The rate of the sidebar's calculator: that of the last bill when both
    of its figures are positive, 0.12 otherwise. *)
Definition electricity_rate (last_bill last_kwh : R) : R :=
  if (last_bill >? 0) && (last_kwh >? 0) then last_bill / last_kwh else 0.12.

(** The text of a [direction]. *)
Definition direction_name (d : direction) : String.string :=
  match d with South => "South" | North => "North" end.

End App.

(** ** Vocabulary of the properties *)

Section Vocabulary.

Context {K : Type}.

Definition keys (d : list (K * R)) : list K := map fst d.
Definition values (d : list (K * R)) : list R := map snd d.

(** The sum of the values that a list of (key, value) rows gives to [k]. *)
Definition total_for (eqb : K -> K -> bool) (k : K) (rows : list (K * R)) : R :=
  Py.sum (map snd (filter (fun r => eqb (fst r) k) rows)).

(** The dictionary after [d[k] = d.get(k, 0) + v] for each row in turn. *)
Definition accumulate (eqb : K -> K -> bool) (rows : list (K * R))
    (d : list (K * R)) : list (K * R) :=
  fold_left (fun d r => dict_set eqb (fst r) (dict_get eqb (fst r) d 0 + snd r) d)
            rows d.

(** A container after [add] has taken the rows one by one. *)
Definition add_rows (add : K -> R -> list (K * R) -> list (K * R))
    (rows : list (K * R)) (d : list (K * R)) : list (K * R) :=
  fold_left (fun d r => add (fst r) (snd r) d) rows d.

(** The order of the keys, and containers whose keys increase. *)
Definition key_lt (ltb : K -> K -> bool) (a b : K) : Prop := ltb a b = true.
Definition key_le (ltb : K -> K -> bool) (a b : K) : Prop :=
  ltb a b = true \/ a = b.

Definition sorted_keys (ltb : K -> K -> bool) (g : list (K * R)) : Prop :=
  StronglySorted (key_lt ltb) (keys g).

End Vocabulary.

(** The energy of a date in a production series. *)
Definition daily_total (series : list row) (d : date) : R :=
  Py.sum (map Energy_Wh (filter (fun r => date_eqb (Date r) d) series)).

(** [d] is a date of the series with the largest daily total, and the
    earliest of the dates with that total. *)
Definition earliest_peak (series : list row) (d : date) : Prop :=
  In d (map Date series)
  /\ forall d', In d' (map Date series) ->
       daily_total series d' <= daily_total series d
       /\ (daily_total series d' = daily_total series d ->
           date_leb d d' = true).

(** The samples as (date, energy) and as (month, energy) rows. *)
Definition by_date (series : list row) : list (date * R) :=
  map (fun r => (Date r, Energy_Wh r)) series.

Definition by_month (series : list row) : list (period * R) :=
  map (fun r => (period_of (Date r), Energy_Wh r)) series.

(** What the loop adds to the variables: one row per hour, and the energy
    of the rows to the total, to the months and to the dates. *)
Definition extends (hourly : list hourly_entry) (st st' : Excel.analysis)
    (rows : list row) : Prop :=
  Excel.excel_data st' = Excel.excel_data st ++ rows
  /\ map Timestamp rows = map time hourly
  /\ map Date rows = map (fun h => date_of (time h)) hourly
  /\ Excel.total_energy st'
     = Excel.total_energy st + Py.sum (map Energy_Wh rows)
  /\ Excel.daily_energy st'
     = accumulate date_eqb (by_date rows) (Excel.daily_energy st)
  /\ length (Excel.monthly_energy st') = length (Excel.monthly_energy st)
  /\ Py.sum (Excel.monthly_energy st')
     = Py.sum (Excel.monthly_energy st) + Py.sum (map Energy_Wh rows).

(** The groups of a frame that has rows, by date and by calendar month. *)
Definition daily_groups (series : list row) : list (date * R) :=
  groupby_sum date_ltb (by_date series).

Definition monthly_groups (series : list row) : list (period * R) :=
  groupby_sum period_ltb (by_month series).

(** The energy of a month number, over all years, and of a calendar month. *)
Definition month_total (series : list row) (m : Z) : R :=
  Py.sum (map Energy_Wh
              (filter (fun r => (month (Timestamp r) =? m)%Z) series)).

Definition period_total (series : list row) (p : period) : R :=
  Py.sum (map Energy_Wh
              (filter (fun r => period_eqb (period_of (Date r)) p) series)).

(** The row that both loops build for an hour, given its power. *)
Definition hour_row (h : hourly_entry) (power : R) : row :=
  mkrow (time h) (date_of (time h)) (hour (time h))
        (or_default (temperature_2m h) 20)
        (or_default (direct_normal_irradiance h) 0)
        (or_default (diffuse_radiation h) 0)
        (or_default (shortwave_radiation h) 0)
        power power.

(** The derating factor of the dashboard, and the irradiance a tilted
    panel can receive at most. *)
Definition temp_effect (temperature temp_coefficient : R) : R :=
  1 + (temperature - 25) * (temp_coefficient / 100).

Definition irradiance_budget (direct_normal diffuse shortwave : R) : R :=
  direct_normal + diffuse + 0.2 * shortwave.

(** The day of the year 81, when the declination formula gives 0. *)
Definition equinox (h m : Z) : datetime := mkdatetime 2023 3 22 h m.

(** Two hours of the equinox, and a frame with two days of equal energy. *)
Definition sample_hours : list hourly_entry :=
  [ mkhourly (equinox 0 0) (Some 18) (Some 0) (Some 0) (Some 0);
    mkhourly (equinox 12 0) None (Some 120) (Some 800) (Some 900) ].

(** A [math] module whose cosine carries a relative error of 2^-53, less
    than half a unit in the last place of a binary64; its sine is exact. *)
Definition rounded_math : MathModule :=
  {| sin := Rtrigo_def.sin;
     cos := fun x => Rtrigo_def.cos x * (1 + / 2 ^ 53);
     tan := Rtrigo1.tan;
     atan2 := real_atan2 |}.

(** Two midnights of day 81 in chronological order, and the later year
    first. *)
Definition ordered_hours : list hourly_entry :=
  [ mkhourly (mkdatetime 2022 3 22 0 0) None None None None;
    mkhourly (mkdatetime 2023 3 22 0 0) None None None None ].

Definition unordered_hours : list hourly_entry :=
  [ mkhourly (mkdatetime 2023 3 22 0 0) None None None None;
    mkhourly (mkdatetime 2022 3 22 0 0) None None None None ].

Definition sample_frame : list row :=
  [ mkrow (mkdatetime 2023 3 23 12 0) (mkdate 2023 3 23) 12 20 800 120 900 500 500;
    mkrow (mkdatetime 2023 3 22 11 0) (mkdate 2023 3 22) 11 20 700 100 800 200 200;
    mkrow (mkdatetime 2023 3 22 12 0) (mkdate 2023 3 22) 12 20 800 120 900 300 300 ].

(** ** Comparisons, clamps and angles *)

Section Arith.

Lemma Rltb_true (x y : R) : (x <? y) = true <-> x < y.
Proof. unfold Rltb; destruct (Rlt_dec x y); split; intros; try easy; lra. Qed.

Lemma Rltb_false (x y : R) : (x <? y) = false <-> y <= x.
Proof. unfold Rltb; destruct (Rlt_dec x y); split; intros; try easy; lra. Qed.

Lemma Rleb_true (x y : R) : (x <=? y) = true <-> x <= y.
Proof. unfold Rleb; destruct (Rle_dec x y); split; intros; try easy; lra. Qed.

Lemma Rleb_false (x y : R) : (x <=? y) = false <-> y < x.
Proof. unfold Rleb; destruct (Rle_dec x y); split; intros; try easy; lra. Qed.

Lemma max_spec (a b : R) : Py.max a b = Rmax a b.
Proof.
  unfold Py.max, Rltb, Rmax.
  destruct (Rlt_dec a b), (Rle_dec a b); lra.
Qed.

Lemma min_spec (a b : R) : Py.min a b = Rmin a b.
Proof.
  unfold Py.min, Rltb, Rmin.
  destruct (Rlt_dec b a), (Rle_dec a b); lra.
Qed.

Lemma max_0_nonneg (x : R) : 0 <= Py.max 0 x.
Proof. rewrite max_spec. apply Rmax_l. Qed.

Lemma max_0_scale (c x : R) : 0 <= c -> Py.max 0 (x * c) = c * Py.max 0 x.
Proof.
  intros Hc. rewrite !max_spec. unfold Rmax.
  destruct (Rle_dec 0 (x * c)) as [H1 | H1], (Rle_dec 0 x) as [H2 | H2].
  - ring.
  - assert (x * c <= 0) by nra. lra.
  - assert (0 <= x * c) by nra. lra.
  - ring.
Qed.

Lemma clamp_bounds (x : R) : -1 <= Py.max (-1) (Py.min 1 x) <= 1.
Proof.
  rewrite max_spec, min_spec. unfold Rmax, Rmin.
  destruct (Rle_dec 1 x), (Rle_dec (-1) 1), (Rle_dec (-1) x); lra.
Qed.

Lemma asin_defined (x : R) : -1 <= x <= 1 -> Py.asin x = Some (Ratan.asin x).
Proof.
  intros [H1 H2]. unfold Py.asin.
  apply Rleb_true in H1, H2. now rewrite H1, H2.
Qed.

Lemma acos_defined (x : R) : -1 <= x <= 1 -> Py.acos x = Some (Ratan.acos x).
Proof.
  intros [H1 H2]. unfold Py.acos.
  apply Rleb_true in H1, H2. now rewrite H1, H2.
Qed.

Lemma degrees_acos_range (x : R) : 0 <= degrees (Ratan.acos x) <= 180.
Proof.
  pose proof (acos_bound x) as [H0 H1]. pose proof PI_RGT_0 as Hpi.
  unfold degrees. split.
  - apply Rmult_le_pos; [assumption|].
    apply Rlt_le, Rdiv_lt_0_compat; lra.
  - replace 180 with (PI * (180 / PI)) at 2 by (field; lra).
    apply Rmult_le_compat_r; [|assumption].
    apply Rlt_le, Rdiv_lt_0_compat; lra.
Qed.

(** The argument of the elevation's arcsine is a cosine of an angle on the
    sphere: with exact sines and cosines it stays within [-1, 1]. *)
Lemma elevation_sine_bounds (sa ca sb cb c : R) :
  sa * sa + ca * ca = 1 -> sb * sb + cb * cb = 1 -> -1 <= c <= 1 ->
  -1 <= sa * sb + ca * cb * c <= 1.
Proof.
  intros Ha Hb [Hc1 Hc2].
  pose proof (Rle_0_sqr (sa - sb)) as H1.
  pose proof (Rle_0_sqr (sa + sb)) as H2.
  pose proof (Rle_0_sqr (ca - cb)) as H3.
  pose proof (Rle_0_sqr (ca + cb)) as H4.
  unfold Rsqr in *.
  assert (Hs : -1 <= sa * sb + ca * cb /\ sa * sb + ca * cb <= 1
               /\ -1 <= sa * sb - ca * cb /\ sa * sb - ca * cb <= 1)
    by (repeat split; lra).
  destruct Hs as (Hs1 & Hs2 & Hs3 & Hs4).
  destruct (Rle_dec 0 (ca * cb)) as [Hp | Hn].
  - assert (- (ca * cb) <= ca * cb * c <= ca * cb) by (split; nra). lra.
  - assert (ca * cb <= ca * cb * c <= - (ca * cb)) by (split; nra). lra.
Qed.

End Arith.

(** ** The irradiance-to-power model *)

Section Power.
Context {M : MathModule}.

(** The two entry points compute the same sun position and incidence. *)
Lemma elevation_at_same (lat : R) (ts : datetime) :
  App.elevation_at lat ts = Excel.elevation_at lat ts.
Proof. reflexivity. Qed.

Lemma incidence_angle_same (sa se pa pt : R) :
  App.incidence_angle sa se pa pt
  = Excel.calculate_angle_of_incidence sa se pa pt.
Proof. reflexivity. Qed.

Lemma incidence_defined (sa se pa pt : R) :
  exists a, Excel.calculate_angle_of_incidence sa se pa pt = Some a
            /\ 0 <= a <= 180.
Proof.
  unfold Excel.calculate_angle_of_incidence. cbv zeta.
  set (c := Py.max (-1) (Py.min 1 _)).
  rewrite (acos_defined c) by apply clamp_bounds.
  eexists; split; [reflexivity | apply degrees_acos_range].
Qed.

(** The script's power is the dashboard's at the coefficient -0.4 %/°C,
    times 0.95. *)
Lemma script_power_scaled (lat lon azimuth tilt dn dh gh : R)
    (ts : datetime) (temp : R) :
  Excel.calculate_power lat lon azimuth tilt dn dh gh ts temp
  = option_map (Rmult 0.95)
      (App.calculate_solar_power lat lon azimuth tilt dn dh gh ts temp (-0.4)).
Proof.
  unfold Excel.calculate_power, App.calculate_solar_power. cbv zeta.
  change (App.elevation_at lat ts) with (Excel.elevation_at lat ts).
  destruct (Excel.elevation_at lat ts) as [e|]; [|reflexivity].
  cbn [Py.bind]. destruct (e <=? 0).
  - cbn. f_equal. lra.
  - change App.incidence_angle with Excel.calculate_angle_of_incidence.
    change App.hour_angle_at with Excel.hour_angle_at.
    change App.declination_at with Excel.declination_at.
    destruct (Excel.calculate_angle_of_incidence _ _ _ _) as [a|];
      [|reflexivity].
    cbn [Py.bind option_map]. f_equal.
    rewrite <- (max_0_scale 0.95) by lra. f_equal. lra.
Qed.

(** Whatever the sines and cosines are, a returned power is not negative. *)
Lemma returned_power_nonnegative (lat lon azimuth tilt dn dh gh : R)
    (ts : datetime) (temp coeff p : R) :
  App.calculate_solar_power lat lon azimuth tilt dn dh gh ts temp coeff
  = Some p -> 0 <= p.
Proof.
  unfold App.calculate_solar_power. cbv zeta.
  destruct (App.elevation_at lat ts) as [e|]; [|discriminate].
  cbn [Py.bind]. destruct (e <=? 0).
  - intros [= <-]. lra.
  - destruct (App.incidence_angle _ _ _ _) as [a|]; [|discriminate].
    cbn [Py.bind]. intros [= <-]. apply max_0_nonneg.
Qed.

Lemma script_power_below_horizon (lat lon azimuth tilt dn dh gh : R)
    (ts : datetime) (temp elevation : R) :
  Excel.elevation_at lat ts = Some elevation ->
  elevation <= 0 ->
  Excel.calculate_power lat lon azimuth tilt dn dh gh ts temp = Some 0.
Proof.
  intros He Hle. apply Rleb_true in Hle.
  unfold Excel.calculate_power. cbv zeta.
  rewrite He. cbn [Py.bind]. now rewrite Hle.
Qed.

(** C1: whenever the computed solar elevation is not positive, both power
    functions return exactly 0, whatever the orientation, the irradiance
    components, the temperature and the coefficient are. *)
Theorem power_zero_below_horizon
    (lat lon azimuth tilt dn dh gh : R) (ts : datetime)
    (temp coeff elevation : R) :
  Excel.elevation_at lat ts = Some elevation ->
  elevation <= 0 ->
  Excel.calculate_power lat lon azimuth tilt dn dh gh ts temp = Some 0
  /\ App.calculate_solar_power lat lon azimuth tilt dn dh gh ts temp coeff
     = Some 0.
Proof.
  intros He Hle. split.
  - now apply script_power_below_horizon with (elevation := elevation).
  - apply Rleb_true in Hle.
    unfold App.calculate_solar_power. cbv zeta.
    change (App.elevation_at lat ts) with (Excel.elevation_at lat ts).
    rewrite He. cbn [Py.bind]. now rewrite Hle.
Qed.

(** C3: for every sine and cosine the [math] module may return, the
    incidence cosine is clamped into [-1, 1], so the arccosine does not
    raise, and the angle of incidence lies in [0, 180] degrees, in the
    script's function and in the dashboard's inline computation. *)
Theorem angle_of_incidence_in_range (sun_azimuth sun_elevation azimuth tilt : R) :
  exists a,
    Excel.calculate_angle_of_incidence sun_azimuth sun_elevation azimuth tilt
    = Some a
    /\ App.incidence_angle sun_azimuth sun_elevation azimuth tilt = Some a
    /\ 0 <= a <= 180.
Proof.
  destruct (incidence_defined sun_azimuth sun_elevation azimuth tilt)
    as (a & Ha & Hr).
  exists a. change App.incidence_angle with Excel.calculate_angle_of_incidence.
  auto.
Qed.

(** The dashboard's frame holds the power at the optimizer's orientation
    and at the latitude's coefficient, scaled by the system parameters. *)
Lemma sample_row_energy (lat lon size eff : R) (h : hourly_entry) :
  option_map Energy_Wh (App.sample_row lat lon size eff h)
  = option_map (fun p => p * size * (eff / 100))
      (App.calculate_solar_power lat lon
         (App.optimal_azimuth lat) (App.optimal_tilt lat)
         (or_default (direct_normal_irradiance h) 0)
         (or_default (diffuse_radiation h) 0)
         (or_default (shortwave_radiation h) 0)
         (time h)
         (or_default (temperature_2m h) 20)
         (App.calculate_temperature_coefficient lat)).
Proof.
  unfold App.sample_row, App.optimal_azimuth, App.optimal_tilt.
  destruct (App.calculate_optimal_angles lat) as [[[[az ti] he] di] zo].
  cbv zeta.
  match goal with
  | |- context [Py.bind ?m _] => destruct m; reflexivity
  end.
Qed.

(** C7: on identical inputs, the script's power is exactly 0.95 times the
    dashboard's power at the coefficient -0.4; the dashboard scales by
    system size and efficiency only when it fills the frame. *)
Theorem script_is_scaled_dashboard (lat lon azimuth tilt dn dh gh : R)
    (ts : datetime) (temp : R) :
  Excel.calculate_power lat lon azimuth tilt dn dh gh ts temp
  = option_map (fun p => 0.95 * p)
      (App.calculate_solar_power lat lon azimuth tilt dn dh gh ts temp (-0.4))
  /\ forall size eff h,
       option_map Energy_Wh (App.sample_row lat lon size eff h)
       = option_map (fun p => p * size * (eff / 100))
           (App.calculate_solar_power lat lon
              (App.optimal_azimuth lat) (App.optimal_tilt lat)
              (or_default (direct_normal_irradiance h) 0)
              (or_default (diffuse_radiation h) 0)
              (or_default (shortwave_radiation h) 0)
              (time h)
              (or_default (temperature_2m h) 20)
              (App.calculate_temperature_coefficient lat)).
Proof.
  split; [apply script_power_scaled|].
  intros size eff h. apply sample_row_energy.
Qed.

End Power.

(** ** Exact trigonometry: totality, and an equinox at the equator *)

Section Exact.

Local Existing Instance real_math.

Lemma elevation_defined (lat : R) (ts : datetime) :
  exists e, Excel.elevation_at lat ts = Some e.
Proof.
  unfold Excel.elevation_at. cbv zeta. cbn [sin cos real_math].
  rewrite asin_defined; [eexists; reflexivity|].
  apply elevation_sine_bounds.
  - apply (sin2_cos2 (radians (Excel.declination_at ts))).
  - apply (sin2_cos2 (radians lat)).
  - apply COS_bound.
Qed.

Lemma power_defined (lat lon azimuth tilt dn dh gh : R) (ts : datetime)
    (temp coeff : R) :
  exists p,
    App.calculate_solar_power lat lon azimuth tilt dn dh gh ts temp coeff
    = Some p /\ 0 <= p.
Proof.
  unfold App.calculate_solar_power. cbv zeta.
  change (App.elevation_at lat ts) with (Excel.elevation_at lat ts).
  destruct (elevation_defined lat ts) as [e ->]. cbn [Py.bind].
  destruct (e <=? 0).
  - exists 0. split; [reflexivity | lra].
  - change App.incidence_angle with Excel.calculate_angle_of_incidence.
    match goal with
    | |- context [Excel.calculate_angle_of_incidence ?a ?b ?c ?d] =>
        destruct (incidence_defined a b c d) as (x & -> & _)
    end.
    cbn [Py.bind]. eexists; split; [reflexivity | apply max_0_nonneg].
Qed.

Lemma script_power_defined (lat lon azimuth tilt dn dh gh : R)
    (ts : datetime) (temp : R) :
  exists p,
    Excel.calculate_power lat lon azimuth tilt dn dh gh ts temp = Some p
    /\ 0 <= p.
Proof.
  rewrite script_power_scaled.
  destruct (power_defined lat lon azimuth tilt dn dh gh ts temp (-0.4))
    as (p & -> & Hp).
  exists (0.95 * p). split; [reflexivity | nra].
Qed.

(** Over the reals, with exact trigonometry, both power functions return,
    for every latitude, orientation, irradiance, timestamp, temperature and
    coefficient, a value that is not negative; and whatever the [math]
    module computes, a value they return is not negative. *)
Theorem power_nonnegative (lat lon azimuth tilt dn dh gh : R) (ts : datetime)
    (temp coeff : R) :
  (exists p, Excel.calculate_power lat lon azimuth tilt dn dh gh ts temp
             = Some p /\ 0 <= p)
  /\ (exists p, App.calculate_solar_power lat lon azimuth tilt dn dh gh ts
                  temp coeff = Some p /\ 0 <= p)
  /\ (forall (M : MathModule) p,
        Excel.calculate_power lat lon azimuth tilt dn dh gh ts temp = Some p ->
        0 <= p)
  /\ (forall (M : MathModule) p,
        App.calculate_solar_power lat lon azimuth tilt dn dh gh ts temp coeff
        = Some p -> 0 <= p).
Proof.
  split; [apply script_power_defined|split; [apply power_defined|split]].
  - intros M p. rewrite script_power_scaled.
    destruct (App.calculate_solar_power _ _ _ _ _ _ _ _ _ _) as [q|] eqn:E;
      [|discriminate].
    apply returned_power_nonnegative in E. cbn. intros [= <-]. nra.
  - intros M p. apply returned_power_nonnegative.
Qed.

Lemma radians_0 : radians 0 = 0.
Proof. unfold radians. lra. Qed.

Lemma degrees_0 : degrees 0 = 0.
Proof. unfold degrees. lra. Qed.

Lemma declination_equinox (h m : Z) : Excel.declination_at (equinox h m) = 0.
Proof.
  unfold Excel.declination_at. cbn [sin real_math].
  change (284 + tm_yday (equinox h m))%Z with 365%Z.
  replace (radians (365 * 360 / 365)) with (2 * PI)
    by (unfold radians; field).
  rewrite sin_2PI. lra.
Qed.

Lemma hour_angle_noon : Excel.hour_angle_at (equinox 12 0) = 0.
Proof. unfold Excel.hour_angle_at, Excel.day_hour. cbn. lra. Qed.

Lemma hour_angle_midnight : Excel.hour_angle_at (equinox 0 0) = -180.
Proof. unfold Excel.hour_angle_at, Excel.day_hour. cbn. lra. Qed.

Lemma elevation_noon : Excel.elevation_at 0 (equinox 12 0) = Some 90.
Proof.
  unfold Excel.elevation_at. cbv zeta.
  rewrite declination_equinox, hour_angle_noon. cbn [sin cos real_math].
  rewrite radians_0, sin_0, cos_0.
  replace (0 * 0 + 1 * 1 * 1) with 1 by lra.
  rewrite asin_defined by lra. cbn [Py.bind]. rewrite asin_1.
  f_equal. unfold degrees. field. apply PI_neq0.
Qed.

Lemma elevation_midnight : Excel.elevation_at 0 (equinox 0 0) = Some (-90).
Proof.
  unfold Excel.elevation_at. cbv zeta.
  rewrite declination_equinox, hour_angle_midnight. cbn [sin cos real_math].
  replace (radians (-180)) with (- PI) by (unfold radians; field).
  rewrite radians_0, sin_0, cos_0, cos_neg, cos_PI.
  replace (0 * 0 + 1 * 1 * -1) with (- (1)) by lra.
  rewrite asin_defined by lra. cbn [Py.bind]. rewrite asin_opp, asin_1.
  f_equal. unfold degrees. field. apply PI_neq0.
Qed.

Lemma power_midnight_day81 (ts : datetime) (lon azimuth tilt dn dh gh temp : R) :
  tm_yday ts = 81%Z -> hour ts = 0%Z -> minute ts = 0%Z ->
  Excel.calculate_power 0 lon azimuth tilt dn dh gh ts temp = Some 0.
Proof.
  intros Hd Hh Hm.
  apply script_power_below_horizon with (elevation := -90); [|lra].
  unfold Excel.elevation_at, Excel.declination_at, Excel.hour_angle_at,
    Excel.day_hour.
  cbv zeta. rewrite Hd, Hh, Hm. cbn [sin cos real_math].
  change (284 + 81)%Z with 365%Z.
  replace (radians (365 * 360 / 365)) with (2 * PI)
    by (unfold radians; field).
  rewrite sin_2PI.
  replace (radians ((0 + 0 / 60 - 12) * 15)) with (- PI)
    by (unfold radians; field).
  replace (radians (23.45 * 0)) with 0 by (unfold radians; lra).
  rewrite radians_0, sin_0, cos_0, cos_neg, cos_PI.
  replace (0 * 0 + 1 * 1 * -1) with (- (1)) by lra.
  rewrite asin_defined by lra. cbn [Py.bind]. rewrite asin_opp, asin_1.
  f_equal. unfold degrees. field. apply PI_neq0.
Qed.

Lemma incidence_zenith_flat :
  Excel.calculate_angle_of_incidence 0 90 180 0 = Some 0.
Proof.
  unfold Excel.calculate_angle_of_incidence. cbv zeta.
  cbn [sin cos real_math].
  replace (radians 90) with (PI / 2) by (unfold radians; field).
  rewrite radians_0, sin_PI2, cos_PI2, sin_0, cos_0.
  replace (1 * 1 + 0 * 0 * _) with 1 by lra.
  rewrite min_spec, max_spec.
  replace (Rmax (-1) (Rmin 1 1)) with 1
    by (unfold Rmin, Rmax; repeat destruct (Rle_dec _ _); lra).
  rewrite acos_defined by lra. cbn [Py.bind]. rewrite acos_1.
  now rewrite degrees_0.
Qed.

Lemma real_atan2_origin : real_atan2 0 0 = 0.
Proof.
  unfold real_atan2.
  assert (H : (0 <? 0) = false) by (apply Rltb_false; lra).
  now rewrite H.
Qed.

(** The dashboard's power at the equator, at noon of the equinox, panel
    flat: the direct beam derated by temperature. *)
Lemma power_zenith_flat (dn temp coeff : R) :
  App.calculate_solar_power 0 0 180 0 dn 0 0 (equinox 12 0) temp coeff
  = Some (Py.max 0 (dn * (1 + (temp - 25) * (coeff / 100)))).
Proof.
  unfold App.calculate_solar_power. cbv zeta.
  change (App.elevation_at 0 (equinox 12 0))
    with (Excel.elevation_at 0 (equinox 12 0)).
  rewrite elevation_noon. cbn [Py.bind].
  assert (H90 : (90 <=? 0) = false) by (apply Rleb_false; lra).
  rewrite H90.
  change App.hour_angle_at with Excel.hour_angle_at.
  change App.declination_at with Excel.declination_at.
  change App.incidence_angle with Excel.calculate_angle_of_incidence.
  rewrite declination_equinox, hour_angle_noon.
  cbn [sin cos tan atan2 real_math].
  rewrite radians_0, sin_0, cos_0, tan_0.
  replace (- 0) with 0 by lra.
  replace (0 * 1 - 0 * 1) with 0 by lra.
  rewrite real_atan2_origin, degrees_0.
  assert (H0 : (0 <? 0) = false) by (apply Rltb_false; lra).
  rewrite H0, incidence_zenith_flat. cbn [Py.bind].
  rewrite radians_0, cos_0.
  replace (Py.max 0 1) with 1
    by (rewrite max_spec; unfold Rmax; destruct (Rle_dec 0 1); lra).
  do 2 f_equal. lra.
Qed.

End Exact.

Lemma power_zero_below_horizon_witness :
  @Excel.elevation_at real_math 0 (equinox 0 0) = Some (-90)
  /\ -90 <= 0
  /\ @Excel.calculate_power real_math 0 0 180 0 800 120 900 (equinox 0 0) 20
     = Some 0
  /\ @App.calculate_solar_power real_math 0 0 180 0 800 120 900 (equinox 0 0)
       20 (-0.45) = Some 0.
Proof.
  split; [apply elevation_midnight|]. split; [lra|].
  apply (@power_zero_below_horizon real_math 0 0 180 0 800 120 900
           (equinox 0 0) 20 (-0.45) (-90)).
  - apply elevation_midnight.
  - lra.
Defined.

(** ** The orientation optimizer *)

Section Orientation.

Ltac bands :=
  unfold Py.abs, Rabs, Rltb, Rleb in *;
  repeat match goal with
         | |- context [Rcase_abs ?x] => destruct (Rcase_abs x)
         | |- context [Rlt_dec ?x ?y] => destruct (Rlt_dec x y)
         | |- context [Rle_dec ?x ?y] => destruct (Rle_dec x y)
         end;
  cbn [fst snd]; try lra.

Lemma optimal_angles_agree (L lon : R) :
  App.optimal_azimuth L = fst (Excel.calculate_optimal_angles L lon)
  /\ App.optimal_tilt L = snd (Excel.calculate_optimal_angles L lon).
Proof.
  unfold App.optimal_azimuth, App.optimal_tilt, App.calculate_optimal_angles,
    Excel.calculate_optimal_angles.
  cbv zeta.
  destruct (L >=? 0), (Py.abs L <? 25), (Py.abs L <? 50); split; reflexivity.
Qed.

(** C4: for a latitude in [-90, 90] the optimizer's tilt lies in [0, 90];
    the azimuth is exactly 180 when the latitude is not negative and exactly
    0 when it is negative; the longitude (an argument of the script's
    function only) does not change the result. *)
Theorem optimal_orientation_range (L lon : R) :
  -90 <= L <= 90 ->
  0 <= snd (Excel.calculate_optimal_angles L lon) <= 90
  /\ 0 <= App.optimal_tilt L <= 90
  /\ (0 <= L -> fst (Excel.calculate_optimal_angles L lon) = 180
                /\ App.optimal_azimuth L = 180)
  /\ (L < 0 -> fst (Excel.calculate_optimal_angles L lon) = 0
               /\ App.optimal_azimuth L = 0)
  /\ forall lon', Excel.calculate_optimal_angles L lon'
                  = Excel.calculate_optimal_angles L lon.
Proof.
  intros HL.
  destruct (optimal_angles_agree L lon) as [-> ->].
  unfold Excel.calculate_optimal_angles. cbv zeta. cbn [fst snd].
  repeat split; try reflexivity; intros; bands.
Qed.

Lemma optimal_orientation_range_witness :
  -90 <= 37.7749 <= 90
  /\ 0 <= App.optimal_tilt 37.7749 <= 90
  /\ App.optimal_azimuth 37.7749 = 180
  /\ App.optimal_azimuth (-33.87) = 0.
Proof.
  split; [lra|]. split.
  - apply (optimal_orientation_range 37.7749 (-122.4194)). lra.
  - split.
    + apply (optimal_orientation_range 37.7749 (-122.4194)); lra.
    + apply (optimal_orientation_range (-33.87) 151.21); lra.
Defined.

(** C5: the tilt bands are half-open, 25 and 50 belong to the higher band:
    the tilt is |lat| * 0.87 below 25, |lat| from 25 up to 50 excluded, and
    |lat| * 0.9 from 50 on; at 25 it is 25 and at 24.999 it is
    24.999 * 0.87. *)
Theorem tilt_bands (L lon : R) :
  let tilt := snd (Excel.calculate_optimal_angles L lon) in
  App.optimal_tilt L = tilt
  /\ (Rabs L < 25 -> tilt = Rabs L * 0.87)
  /\ (25 <= Rabs L < 50 -> tilt = Rabs L)
  /\ (50 <= Rabs L -> tilt = Rabs L * 0.9)
  /\ App.optimal_tilt 25 = 25
  /\ App.optimal_tilt 24.999 = 24.999 * 0.87
  /\ App.optimal_tilt 50 = 50 * 0.9.
Proof.
  cbv zeta. split; [apply optimal_angles_agree|].
  rewrite (proj2 (optimal_angles_agree 25 0)),
    (proj2 (optimal_angles_agree 24.999 0)), (proj2 (optimal_angles_agree 50 0)).
  unfold Excel.calculate_optimal_angles. cbv zeta. cbn [fst snd].
  repeat split; intros; bands.
Qed.

Lemma tilt_bands_witness :
  snd (Excel.calculate_optimal_angles 10 0) = Rabs 10 * 0.87
  /\ snd (Excel.calculate_optimal_angles (-33.87) 151.21) = Rabs (-33.87)
  /\ snd (Excel.calculate_optimal_angles 64.1 (-21.9)) = Rabs 64.1 * 0.9.
Proof.
  split; [|split].
  - apply (tilt_bands 10 0). unfold Rabs. destruct (Rcase_abs 10); lra.
  - apply (tilt_bands (-33.87) 151.21).
    unfold Rabs. destruct (Rcase_abs (-33.87)); lra.
  - apply (tilt_bands 64.1 (-21.9)).
    unfold Rabs. destruct (Rcase_abs 64.1); lra.
Defined.

End Orientation.

(** ** The temperature coefficient *)

Section Coefficient.

Ltac steps :=
  unfold App.calculate_temperature_coefficient, Py.abs, Rltb in *; cbv zeta;
  repeat match goal with
         | |- context [Rlt_dec ?x ?y] => destruct (Rlt_dec x y)
         end;
  try lra.

Lemma coefficient_equator : App.calculate_temperature_coefficient 0 = -0.45.
Proof.
  unfold App.calculate_temperature_coefficient, Py.abs. cbv zeta.
  rewrite Rabs_R0.
  assert (H : (0 <? 15) = true) by (apply Rltb_true; lra).
  now rewrite H.
Qed.

(** The script's power at the equator, at noon of the equinox, 35 °C,
    under a beam of 1000 W/m2: the derating is that of -0.4 %/°C, not of
    the -0.45 %/°C of the latitude. *)
Lemma script_power_equator :
  @Excel.calculate_power real_math 0 0 180 0 1000 0 0 (equinox 12 0) 35
  = Some 912.
Proof.
  rewrite script_power_scaled, power_zenith_flat. cbn [option_map].
  f_equal. rewrite max_spec. unfold Rmax.
  destruct (Rle_dec 0 _); lra.
Qed.

Lemma dashboard_power_equator :
  @App.calculate_solar_power real_math 0 0 180 0 1000 0 0 (equinox 12 0) 35
    (App.calculate_temperature_coefficient 0)
  = Some 955.
Proof.
  rewrite coefficient_equator, power_zenith_flat.
  f_equal. rewrite max_spec. unfold Rmax.
  destruct (Rle_dec 0 _); lra.
Qed.

(** The script does not derate by the coefficient of the latitude: at the
    equator its power is 912 W where the latitude's -0.45 %/°C, with the
    script's 0.95 scaling, gives 907.25 W. *)
Lemma script_applies_fixed_coefficient :
  ~ (forall lat lon azimuth tilt dn dh gh ts temp,
       @Excel.calculate_power real_math lat lon azimuth tilt dn dh gh ts temp
       = option_map (fun p => 0.95 * p)
           (@App.calculate_solar_power real_math lat lon azimuth tilt dn dh gh
              ts temp (App.calculate_temperature_coefficient lat))).
Proof.
  intros H.
  specialize (H 0 0 180 0 1000 0 0 (equinox 12 0) 35).
  rewrite script_power_equator, dashboard_power_equator in H.
  cbn [option_map] in H. injection H as H. lra.
Qed.

(** C6, amended: the coefficient the dashboard passes to its power function
    is the five-band step function of |latitude| and is negative; the
    script's power function derates by the fixed -0.4 %/°C at every
    latitude. *)
Theorem temperature_coefficient_per_entry_point (lat : R) :
  let c := App.calculate_temperature_coefficient lat in
  (Rabs lat < 15 -> c = -0.45)
  /\ (15 <= Rabs lat < 30 -> c = -0.42)
  /\ (30 <= Rabs lat < 45 -> c = -0.40)
  /\ (45 <= Rabs lat < 60 -> c = -0.38)
  /\ (60 <= Rabs lat -> c = -0.35)
  /\ c < 0
  /\ (forall (M : MathModule) lon size eff h,
        option_map Energy_Wh (App.sample_row lat lon size eff h)
        = option_map (fun p => p * size * (eff / 100))
            (App.calculate_solar_power lat lon
               (App.optimal_azimuth lat) (App.optimal_tilt lat)
               (or_default (direct_normal_irradiance h) 0)
               (or_default (diffuse_radiation h) 0)
               (or_default (shortwave_radiation h) 0)
               (time h)
               (or_default (temperature_2m h) 20) c))
  /\ (forall (M : MathModule) lon azimuth tilt dn dh gh ts temp,
        Excel.calculate_power lat lon azimuth tilt dn dh gh ts temp
        = option_map (fun p => 0.95 * p)
            (App.calculate_solar_power lat lon azimuth tilt dn dh gh ts temp
               (-0.4))).
Proof.
  cbv zeta.
  repeat match goal with |- _ /\ _ => split end;
    try (intros; steps; fail).
  - intros M lon size eff h. apply sample_row_energy.
  - intros M lon azimuth tilt dn dh gh ts temp. apply script_power_scaled.
Qed.

Lemma temperature_coefficient_per_entry_point_witness :
  App.calculate_temperature_coefficient 37.7749 = -0.40
  /\ App.calculate_temperature_coefficient (-33.87) = -0.40
  /\ App.calculate_temperature_coefficient 64.1 = -0.35.
Proof.
  split; [|split].
  - apply (temperature_coefficient_per_entry_point 37.7749).
    unfold Rabs. destruct (Rcase_abs 37.7749); lra.
  - apply (temperature_coefficient_per_entry_point (-33.87)).
    unfold Rabs. destruct (Rcase_abs (-33.87)); lra.
  - apply (temperature_coefficient_per_entry_point 64.1).
    unfold Rabs. destruct (Rcase_abs 64.1); lra.
Defined.

End Coefficient.

(** ** The payback period *)

Section Payback.

(** C9: with positive annual savings the payback is the system cost divided
    by the annual savings; with zero savings the table shows N/A; whatever
    the inputs, the table never shows infinity: what it shows is a finite
    quotient below 100 years. *)
Theorem payback_period_reported (system_cost annual_savings : R) :
  (0 < annual_savings ->
     App.payback_years system_cost annual_savings
     = App.Finite (system_cost / annual_savings))
  /\ (annual_savings = 0 ->
        App.payback_report (App.payback_years system_cost annual_savings)
        = App.NotApplicable)
  /\ App.payback_report (App.payback_years system_cost annual_savings)
     <> App.Years App.Infinity
  /\ (forall y,
        App.payback_report (App.payback_years system_cost annual_savings)
        = App.Years y ->
        0 < annual_savings
        /\ y = App.Finite (system_cost / annual_savings)
        /\ system_cost / annual_savings < 100).
Proof.
  unfold App.payback_years, App.payback_report.
  split; [|split; [|split]].
  - intros H. apply Rltb_true in H. now rewrite H.
  - intros ->. assert (H : (0 <? 0) = false) by (apply Rltb_false; lra).
    now rewrite H.
  - destruct (annual_savings >? 0); cbn; [|discriminate].
    destruct (system_cost / annual_savings <? 100); discriminate.
  - intros y. destruct (annual_savings >? 0) eqn:E; cbn; [|discriminate].
    apply Rltb_true in E.
    destruct (system_cost / annual_savings <? 100) eqn:E'; [|discriminate].
    apply Rltb_true in E'. intros [= <-]. auto.
Qed.

Lemma payback_period_reported_witness :
  0 < App.annual_savings 7500 0.12
  /\ App.payback_years (App.system_cost 5) (App.annual_savings 7500 0.12)
     = App.Finite (App.system_cost 5 / App.annual_savings 7500 0.12)
  /\ App.payback_report (App.payback_years (App.system_cost 5) 0)
     = App.NotApplicable.
Proof.
  assert (H : 0 < App.annual_savings 7500 0.12)
    by (unfold App.annual_savings; lra).
  split; [exact H|]. split.
  - exact (proj1 (payback_period_reported (App.system_cost 5)
                    (App.annual_savings 7500 0.12)) H).
  - exact (proj1 (proj2 (payback_period_reported (App.system_cost 5) 0))
             eq_refl).
Defined.

End Payback.

(** ** Sums, lists and keyed containers *)

Section Sums.

Lemma fold_Rplus_acc (l : list R) (a : R) :
  fold_left Rplus l a = a + fold_left Rplus l 0.
Proof.
  revert a. induction l as [|x l IH]; intros a; cbn.
  - lra.
  - rewrite (IH (a + x)), (IH (0 + x)). lra.
Qed.

Lemma sum_nil : Py.sum [] = 0.
Proof. reflexivity. Qed.

Lemma sum_cons (x : R) (l : list R) : Py.sum (x :: l) = x + Py.sum l.
Proof. unfold Py.sum. cbn. rewrite fold_Rplus_acc. lra. Qed.

Lemma sum_app (l1 l2 : list R) : Py.sum (l1 ++ l2) = Py.sum l1 + Py.sum l2.
Proof.
  induction l1 as [|x l1 IH]; cbn [app].
  - rewrite sum_nil. lra.
  - rewrite !sum_cons, IH. lra.
Qed.

Lemma sum_map_scale {A : Type} (f : A -> R) (c : R) (l : list A) :
  Py.sum (map (fun a => f a / c) l) = Py.sum (map f l) / c.
Proof.
  induction l as [|x l IH]; cbn [map].
  - rewrite sum_nil. unfold Rdiv. ring.
  - rewrite !sum_cons, IH. unfold Rdiv. ring.
Qed.

Lemma sum_repeat_0 (n : nat) : Py.sum (repeat 0 n) = 0.
Proof.
  induction n as [|n IH]; cbn [repeat].
  - apply sum_nil.
  - rewrite sum_cons, IH. lra.
Qed.

Lemma add_at_length (n : nat) (v : R) (l : list R) :
  length (add_at n v l) = length l.
Proof.
  revert n. induction l as [|x l IH]; intros [|n]; cbn; auto.
Qed.

Lemma add_at_sum (n : nat) (v : R) (l : list R) :
  (n < length l)%nat -> Py.sum (add_at n v l) = Py.sum l + v.
Proof.
  revert n. induction l as [|x l IH]; intros [|n] Hn;
    cbn [add_at length] in *; try lia.
  - rewrite !sum_cons. lra.
  - rewrite !sum_cons, IH by lia. lra.
Qed.

Lemma list_iadd_spec (l l' : list R) (i : Z) (v : R) :
  list_iadd l i v = Some l' ->
  length l' = length l /\ Py.sum l' = Py.sum l + v.
Proof.
  unfold list_iadd. cbv zeta.
  destruct ((0 <=? i) && (i <? Z.of_nat (length l)))%Z eqn:E1.
  - intros [= <-]. apply andb_true_iff in E1 as [H1 H2].
    apply Z.leb_le in H1. apply Z.ltb_lt in H2.
    split; [apply add_at_length | apply add_at_sum; lia].
  - destruct ((- Z.of_nat (length l) <=? i) && (i <? 0))%Z eqn:E2;
      [|discriminate].
    intros [= <-]. apply andb_true_iff in E2 as [H1 H2].
    apply Z.leb_le in H1. apply Z.ltb_lt in H2.
    split; [apply add_at_length | apply add_at_sum; lia].
Qed.

Lemma list_iadd_month (l : list R) (t : datetime) (v : R) :
  valid_datetime t = true -> length l = 12%nat ->
  exists l', list_iadd l (month t - 1) v = Some l'.
Proof.
  unfold valid_datetime, list_iadd. intros Hv Hl. cbv zeta.
  repeat (apply andb_true_iff in Hv as [Hv ?]).
  rewrite Hl.
  assert (E : ((0 <=? month t - 1) && (month t - 1 <? Z.of_nat 12))%Z = true).
  { apply andb_true_iff. split; [apply Z.leb_le | apply Z.ltb_lt]; lia. }
  rewrite E. eexists; reflexivity.
Qed.

End Sums.

Section KeyedTheory.

Context {K : Type} (eqb : K -> K -> bool).
Hypothesis eqb_spec : forall a b, eqb a b = true <-> a = b.

Lemma eqb_refl (a : K) : eqb a a = true.
Proof. now apply eqb_spec. Qed.

Lemma eqb_neq (a b : K) : eqb a b = false <-> a <> b.
Proof.
  split.
  - intros H ->. rewrite eqb_refl in H. discriminate.
  - intros H. destruct (eqb a b) eqn:E; [|reflexivity].
    apply eqb_spec in E. contradiction.
Qed.

Lemma eqb_sym (a b : K) : eqb a b = eqb b a.
Proof.
  destruct (eqb a b) eqn:E1, (eqb b a) eqn:E2; try reflexivity.
  - apply eqb_spec in E1. subst. now rewrite eqb_refl in E2.
  - apply eqb_spec in E2. subst. now rewrite eqb_refl in E1.
Qed.

Lemma total_for_nil (k : K) : total_for eqb k [] = 0.
Proof. reflexivity. Qed.

Lemma total_for_cons (k : K) (r : K * R) (rows : list (K * R)) :
  total_for eqb k (r :: rows)
  = (if eqb (fst r) k then snd r else 0) + total_for eqb k rows.
Proof.
  unfold total_for. cbn [filter]. destruct (eqb (fst r) k); cbn [map].
  - now rewrite sum_cons.
  - lra.
Qed.

Lemma total_for_absent (k : K) (rows : list (K * R)) :
  ~ In k (map fst rows) -> total_for eqb k rows = 0.
Proof.
  induction rows as [|r rows IH]; intros H; [reflexivity|].
  rewrite total_for_cons. cbn in H.
  assert (E : eqb (fst r) k = false) by (apply eqb_neq; tauto).
  rewrite E, IH by tauto. lra.
Qed.

Lemma assoc_in (k : K) (v : R) (d : list (K * R)) :
  assoc eqb k d = Some v -> In (k, v) d.
Proof.
  induction d as [|[k' v'] d IH]; cbn; [discriminate|].
  destruct (eqb k k') eqn:E.
  - intros [= ->]. apply eqb_spec in E. subst. now left.
  - intros H. right. auto.
Qed.

Lemma assoc_none (k : K) (d : list (K * R)) :
  assoc eqb k d = None <-> ~ In k (keys d).
Proof.
  induction d as [|[k' v'] d IH]; cbn; [tauto|].
  destruct (eqb k k') eqn:E.
  - apply eqb_spec in E. subst. split; [discriminate | tauto].
  - apply eqb_neq in E. rewrite IH. split; intros H; [intros [?|?]|]; auto.
Qed.

Lemma assoc_some_key (k : K) (d : list (K * R)) :
  In k (keys d) -> exists v, assoc eqb k d = Some v.
Proof.
  intros H. destruct (assoc eqb k d) as [v|] eqn:E; [eauto|].
  apply assoc_none in E. contradiction.
Qed.

Lemma assoc_dict_set (k k0 : K) (v : R) (d : list (K * R)) :
  assoc eqb k (dict_set eqb k0 v d)
  = if eqb k k0 then Some v else assoc eqb k d.
Proof.
  induction d as [|[k' v'] d IH]; cbn.
  - reflexivity.
  - destruct (eqb k0 k') eqn:E0; cbn.
    + apply eqb_spec in E0. subst k'. now destruct (eqb k k0).
    + destruct (eqb k k') eqn:E1.
      * apply eqb_spec in E1. subst k'.
        rewrite eqb_sym in E0. now rewrite E0.
      * exact IH.
Qed.

Lemma keys_dict_set_present (k : K) (v : R) (d : list (K * R)) :
  In k (keys d) -> keys (dict_set eqb k v d) = keys d.
Proof.
  induction d as [|[k' v'] d IH]; cbn; [tauto|].
  intros H. destruct (eqb k k') eqn:E; cbn; [reflexivity|].
  apply eqb_neq in E. f_equal. apply IH.
  destruct H as [H|H]; [|exact H]. cbn in H. subst. contradiction.
Qed.

Lemma keys_dict_set_absent (k : K) (v : R) (d : list (K * R)) :
  ~ In k (keys d) -> keys (dict_set eqb k v d) = keys d ++ [k].
Proof.
  induction d as [|[k' v'] d IH]; cbn; [reflexivity|].
  intros H. destruct (eqb k k') eqn:E; cbn.
  - apply eqb_spec in E. subst. tauto.
  - f_equal. apply IH. tauto.
Qed.

Lemma values_dict_set (k : K) (v : R) (d : list (K * R)) :
  Py.sum (values (dict_set eqb k (dict_get eqb k d 0 + v) d))
  = Py.sum (values d) + v.
Proof.
  unfold dict_get. induction d as [|[k' v'] d IH]; cbn.
  - rewrite sum_cons, sum_nil. lra.
  - destruct (eqb k k') eqn:E; cbn.
    + rewrite !sum_cons. lra.
    + rewrite !sum_cons. unfold values in IH. rewrite IH. lra.
Qed.

Lemma assoc_of_in (k : K) (v : R) (d : list (K * R)) :
  NoDup (keys d) -> In (k, v) d -> assoc eqb k d = Some v.
Proof.
  induction d as [|[k' v'] d IH]; cbn; [tauto|].
  intros N [E|I]; apply NoDup_cons_iff in N as [N1 N2].
  - injection E as -> ->. now rewrite eqb_refl.
  - assert (E : eqb k k' = false).
    { apply eqb_neq. intros ->. apply N1.
      apply in_map_iff. exists (k', v). auto. }
    rewrite E. auto.
Qed.

Lemma nodup_snoc (l : list K) (a : K) :
  NoDup l -> ~ In a l -> NoDup (l ++ [a]).
Proof.
  induction 1 as [|x l Hx N IH]; cbn; intros Ha.
  - repeat constructor. tauto.
  - constructor.
    + intros I. apply in_app_or in I as [I|[<-|[]]]; tauto.
    + apply IH. tauto.
Qed.

Lemma accumulate_nodup (rows : list (K * R)) (d : list (K * R)) :
  NoDup (keys d) -> NoDup (keys (accumulate eqb rows d)).
Proof.
  revert d. induction rows as [|r rows IH]; intros d N; cbn; [exact N|].
  apply IH.
  destruct (assoc eqb (fst r) d) as [v0|] eqn:A.
  - rewrite keys_dict_set_present; [exact N|].
    apply assoc_in in A. apply in_map_iff.
    exists (fst r, v0). split; [reflexivity | exact A].
  - apply assoc_none in A.
    rewrite keys_dict_set_absent by assumption. now apply nodup_snoc.
Qed.

End KeyedTheory.

(** Adding the rows one by one to a keyed container, whatever the way the
    container places its keys. *)
Section Folding.

Context {K : Type} (eqb : K -> K -> bool).
Hypothesis eqb_spec : forall a b, eqb a b = true <-> a = b.

Variable add : K -> R -> list (K * R) -> list (K * R).
Variable inv : list (K * R) -> Prop.

Hypothesis add_inv : forall k v d, inv d -> inv (add k v d).
Hypothesis add_assoc : forall x k v d, inv d ->
  assoc eqb x (add k v d)
  = if eqb x k then Some (dict_get eqb k d 0 + v) else assoc eqb x d.
Hypothesis add_values : forall k v d,
  Py.sum (values (add k v d)) = Py.sum (values d) + v.

Lemma add_keys (x k : K) (v : R) (d : list (K * R)) :
  inv d -> In x (keys (add k v d)) <-> x = k \/ In x (keys d).
Proof.
  intros Hd. pose proof (add_assoc x k v d Hd) as H.
  pose proof (assoc_none eqb eqb_spec x (add k v d)) as N1.
  pose proof (assoc_none eqb eqb_spec x d) as N2.
  destruct (eqb x k) eqn:E.
  - apply eqb_spec in E. split; [auto|]. intros _.
    destruct (assoc eqb x (add k v d)) eqn:A; [|discriminate].
    apply (assoc_in eqb eqb_spec) in A.
    apply in_map_iff. exists (x, r). auto.
  - apply (eqb_neq eqb eqb_spec) in E. rewrite H in N1. split.
    + intros I. right.
      destruct (assoc eqb x d) eqn:A.
      * apply (assoc_in eqb eqb_spec) in A.
        apply in_map_iff. exists (x, r). auto.
      * exfalso. apply N1; auto.
    + intros [?|I]; [contradiction|].
      destruct (assoc eqb x d) eqn:A.
      * destruct (assoc eqb x (add k v d)) eqn:B; [|congruence].
        apply (assoc_in eqb eqb_spec) in B.
        apply in_map_iff. exists (x, r0). auto.
      * exfalso. apply N2; auto.
Qed.

Lemma add_rows_inv (rows : list (K * R)) (d : list (K * R)) :
  inv d -> inv (add_rows add rows d).
Proof.
  revert d. induction rows as [|r rows IH]; intros d Hd; cbn; [exact Hd|].
  apply IH. now apply add_inv.
Qed.

Lemma add_rows_get (x : K) (rows : list (K * R)) (d : list (K * R)) :
  inv d ->
  dict_get eqb x (add_rows add rows d) 0 = dict_get eqb x d 0 + total_for eqb x rows.
Proof.
  revert d. induction rows as [|r rows IH]; intros d Hd; cbn [add_rows fold_left].
  - rewrite total_for_nil. lra.
  - fold (add_rows add rows (add (fst r) (snd r) d)).
    rewrite IH by auto. rewrite total_for_cons.
    unfold dict_get at 1. rewrite add_assoc by assumption.
    rewrite (eqb_sym eqb eqb_spec (fst r) x).
    destruct (eqb x (fst r)) eqn:E.
    + apply eqb_spec in E. subst x. lra.
    + fold (dict_get eqb x d 0). lra.
Qed.

Lemma add_rows_keys (x : K) (rows : list (K * R)) (d : list (K * R)) :
  inv d ->
  In x (keys (add_rows add rows d)) <-> In x (keys d) \/ In x (map fst rows).
Proof.
  revert d. induction rows as [|r rows IH]; intros d Hd; cbn [add_rows fold_left].
  - cbn. tauto.
  - fold (add_rows add rows (add (fst r) (snd r) d)).
    rewrite IH by auto. rewrite add_keys by assumption. cbn [map In].
    intuition congruence.
Qed.

Lemma add_rows_values (rows : list (K * R)) (d : list (K * R)) :
  Py.sum (values (add_rows add rows d)) = Py.sum (values d) + Py.sum (map snd rows).
Proof.
  revert d. induction rows as [|r rows IH]; intros d; cbn [add_rows fold_left map].
  - rewrite sum_nil. lra.
  - fold (add_rows add rows (add (fst r) (snd r) d)).
    rewrite IH, add_values, sum_cons. lra.
Qed.

End Folding.

(** Keys under a strict total order: sorted groups, chronological
    dictionaries. *)
Section Ordered.

Context {K : Type} (eqb ltb : K -> K -> bool).
Hypothesis eqb_spec : forall a b, eqb a b = true <-> a = b.
Hypothesis ltb_irrefl : forall a, ltb a a = false.
Hypothesis ltb_trans : forall a b c,
  ltb a b = true -> ltb b c = true -> ltb a c = true.
Hypothesis ltb_total : forall a b, ltb a b = false -> ltb b a = false -> a = b.

Lemma lt_neq (a b : K) : key_lt ltb a b -> a <> b.
Proof. intros H ->. unfold key_lt in H. rewrite ltb_irrefl in H. discriminate. Qed.

Lemma sorted_snoc (l : list K) (a : K) :
  StronglySorted (key_lt ltb) l -> (forall x, In x l -> key_lt ltb x a) ->
  StronglySorted (key_lt ltb) (l ++ [a]).
Proof.
  induction 1 as [|x l S IH F]; intros H; cbn.
  - repeat constructor.
  - constructor.
    + apply IH. intros y Hy. apply H. now right.
    + apply Forall_app. split; [exact F|].
      constructor; [|constructor]. apply H. now left.
Qed.

Lemma sorted_split (l1 l2 : list K) (x : K) :
  StronglySorted (key_lt ltb) (l1 ++ x :: l2) ->
  (forall y, In y l1 -> key_lt ltb y x) /\ (forall y, In y l2 -> key_lt ltb x y).
Proof.
  induction l1 as [|a l1 IH]; cbn; intros S.
  - apply StronglySorted_inv in S as [_ F].
    split; [tauto|]. now apply Forall_forall.
  - apply StronglySorted_inv in S as [S F].
    destruct (IH S) as [H1 H2]. split; [|exact H2].
    intros y [<-|Hy]; [|auto].
    rewrite Forall_forall in F. apply F. apply in_elt.
Qed.

Lemma sorted_nodup (l : list K) : StronglySorted (key_lt ltb) l -> NoDup l.
Proof.
  induction 1 as [|x l S IH F]; constructor; [|exact IH].
  intros I. rewrite Forall_forall in F. exact (lt_neq _ _ (F _ I) eq_refl).
Qed.

Lemma group_add_keys (x k : K) (v : R) (g : list (K * R)) :
  In x (keys (group_add ltb k v g)) -> x = k \/ In x (keys g).
Proof.
  induction g as [|[k' v'] g IH]; cbn.
  - intros [<-|[]]. now left.
  - destruct (ltb k k'); [cbn; intros [<-|H]; auto|].
    destruct (ltb k' k); cbn; [|tauto].
    intros [?|?]; [tauto|]. destruct IH; auto.
Qed.

Lemma group_add_sorted (k : K) (v : R) (g : list (K * R)) :
  sorted_keys ltb g -> sorted_keys ltb (group_add ltb k v g).
Proof.
  unfold sorted_keys. induction g as [|[k' v'] g IH]; cbn; intros S.
  - repeat constructor.
  - apply StronglySorted_inv in S as [S F].
    destruct (ltb k k') eqn:E1; [|destruct (ltb k' k) eqn:E2]; cbn.
    + constructor; [now constructor|].
      constructor; [exact E1|].
      rewrite Forall_forall in *. intros y Hy.
      exact (ltb_trans _ _ _ E1 (F _ Hy)).
    + constructor; [auto|].
      rewrite Forall_forall in *. intros y Hy.
      destruct (group_add_keys _ _ _ _ Hy) as [->|Hy']; [exact E2|auto].
    + now constructor.
Qed.

Lemma group_add_assoc (x k : K) (v : R) (g : list (K * R)) :
  sorted_keys ltb g ->
  assoc eqb x (group_add ltb k v g)
  = if eqb x k then Some (dict_get eqb k g 0 + v) else assoc eqb x g.
Proof.
  unfold sorted_keys, dict_get.
  induction g as [|[k' v'] g IH]; cbn; intros S.
  - destruct (eqb x k); [f_equal; lra | reflexivity].
  - apply StronglySorted_inv in S as [S F].
    destruct (ltb k k') eqn:E1; [|destruct (ltb k' k) eqn:E2]; cbn.
    + assert (N : eqb k k' = false)
        by (apply (eqb_neq eqb eqb_spec); now apply lt_neq).
      rewrite N.
      assert (A : assoc eqb k g = None).
      { apply (assoc_none eqb eqb_spec). intros I.
        rewrite Forall_forall in F.
        pose proof (ltb_trans _ _ _ E1 (F _ I)) as C.
        rewrite ltb_irrefl in C. discriminate. }
      rewrite A. destruct (eqb x k); [f_equal; lra | reflexivity].
    + assert (N : eqb k k' = false).
      { apply (eqb_neq eqb eqb_spec). intros ->.
        rewrite ltb_irrefl in E2. discriminate. }
      rewrite N, (IH S).
      destruct (eqb x k') eqn:X; [|reflexivity].
      apply eqb_spec in X. subst x.
      rewrite (eqb_sym eqb eqb_spec), N. reflexivity.
    + pose proof (ltb_total _ _ E1 E2) as ->.
      rewrite (eqb_refl eqb eqb_spec). now destruct (eqb x k').
Qed.

Lemma group_add_values (k : K) (v : R) (g : list (K * R)) :
  Py.sum (values (group_add ltb k v g)) = Py.sum (values g) + v.
Proof.
  unfold values. induction g as [|[k' v'] g IH]; cbn.
  - rewrite sum_cons, sum_nil. lra.
  - destruct (ltb k k'); [|destruct (ltb k' k)]; cbn; rewrite !sum_cons.
    + lra.
    + rewrite IH. lra.
    + lra.
Qed.

(** A dictionary filled in chronological order has its keys in order. *)
Lemma accumulate_sorted (rows : list (K * R)) (d : list (K * R)) :
  StronglySorted (key_le ltb) (map fst rows) ->
  sorted_keys ltb d ->
  (forall k k', In k (keys d) -> In k' (map fst rows) -> key_le ltb k k') ->
  sorted_keys ltb (accumulate eqb rows d).
Proof.
  unfold sorted_keys.
  revert d. induction rows as [|r rows IH]; intros d Sr Sd H; cbn; [exact Sd|].
  cbn [map] in Sr. apply StronglySorted_inv in Sr as [Sr F].
  rewrite Forall_forall in F.
  set (v := dict_get eqb (fst r) d 0 + snd r).
  destruct (assoc eqb (fst r) d) as [v0|] eqn:A.
  - assert (I : In (fst r) (keys d)).
    { apply (assoc_in eqb eqb_spec) in A. apply in_map_iff.
      exists (fst r, v0). split; [reflexivity | exact A]. }
    apply IH; [exact Sr | now rewrite keys_dict_set_present |].
    rewrite keys_dict_set_present by assumption.
    intros k k' Hk Hk'. apply H; [exact Hk | now right].
  - apply (assoc_none eqb eqb_spec) in A.
    apply IH; [exact Sr | |]; rewrite (keys_dict_set_absent eqb eqb_spec) by assumption.
    + apply sorted_snoc; [exact Sd|]. intros x Hx.
      destruct (H x (fst r) Hx (or_introl eq_refl)) as [L|E]; [exact L|].
      subst x. contradiction.
    + intros k k' Hk Hk'. apply in_app_or in Hk as [Hk|[<-|[]]].
      * apply H; [exact Hk | now right].
      * apply F. exact Hk'.
Qed.

End Ordered.

(** The first maximum: [max(..., key=...)] and [idxmax]. *)
Section FirstMaximum.

Context {A : Type} (key : A -> R).

Lemma fold_max_split (rest pre mid : list A) (best : A) :
  (forall y, In y pre -> key y < key best) ->
  (forall y, In y mid -> key y <= key best) ->
  exists l1 l2,
    pre ++ best :: mid ++ rest
    = l1 ++ fold_left (fun maxitem item =>
                         if key item >? key maxitem then item else maxitem)
                      rest best :: l2
    /\ (forall y, In y l1 ->
          key y < key (fold_left (fun maxitem item =>
                         if key item >? key maxitem then item else maxitem)
                                 rest best))
    /\ (forall y, In y l2 ->
          key y <= key (fold_left (fun maxitem item =>
                          if key item >? key maxitem then item else maxitem)
                                  rest best)).
Proof.
  revert pre mid best. induction rest as [|y rest IH]; intros pre mid best Hp Hm.
  - exists pre, mid. rewrite app_nil_r. auto.
  - cbn [fold_left]. destruct (key y >? key best) eqn:E.
    + apply Rltb_true in E.
      destruct (IH (pre ++ best :: mid) [] y) as (l1 & l2 & Heq & H1 & H2).
      * intros z Hz. apply in_app_or in Hz as [Hz|[<-|Hz]].
        -- specialize (Hp _ Hz). lra.
        -- exact E.
        -- specialize (Hm _ Hz). lra.
      * intros z [].
      * exists l1, l2. split; [|auto].
        rewrite <- Heq. rewrite <- app_assoc. reflexivity.
    + apply Rltb_false in E.
      destruct (IH pre (mid ++ [y]) best) as (l1 & l2 & Heq & H1 & H2).
      * exact Hp.
      * intros z Hz. apply in_app_or in Hz as [Hz|[<-|[]]]; auto.
      * exists l1, l2. split; [|auto].
        rewrite <- Heq. rewrite <- app_assoc. reflexivity.
Qed.

Lemma max_by_split (l : list A) (x : A) :
  max_by key l = Some x ->
  exists l1 l2, l = l1 ++ x :: l2
    /\ (forall y, In y l1 -> key y < key x)
    /\ (forall y, In y l2 -> key y <= key x).
Proof.
  destruct l as [|first rest]; cbn; [discriminate|].
  intros [= <-].
  destruct (fold_max_split rest [] [] first) as (l1 & l2 & Heq & H1 & H2);
    [intros ? [] | intros ? [] |].
  exists l1, l2. auto.
Qed.

Lemma max_by_defined (l : list A) : l <> [] -> exists x, max_by key l = Some x.
Proof. destruct l; [congruence|]. intros _. cbn. eauto. Qed.

End FirstMaximum.

(** ** Dates and calendar months as keys *)

Section Calendar.

Ltac zcases :=
  repeat match goal with
         | |- context [(?x <? ?y)%Z] => destruct (Z.ltb_spec x y)
         | |- context [(?x =? ?y)%Z] => destruct (Z.eqb_spec x y)
         end;
  cbn; try congruence; try lia.

Lemma date_eqb_spec (a b : date) : date_eqb a b = true <-> a = b.
Proof.
  destruct a as [y1 m1 d1], b as [y2 m2 d2]. unfold date_eqb. cbn.
  split.
  - zcases; try (intros _; congruence).
  - intros [= -> -> ->]. now rewrite !Z.eqb_refl.
Qed.

Lemma date_ltb_irrefl (a : date) : date_ltb a a = false.
Proof. destruct a as [y m d]. unfold date_ltb. cbn. zcases. Qed.

Lemma date_ltb_trans (a b c : date) :
  date_ltb a b = true -> date_ltb b c = true -> date_ltb a c = true.
Proof.
  destruct a as [y1 m1 d1], b as [y2 m2 d2], c as [y3 m3 d3].
  unfold date_ltb. cbn. zcases.
Qed.

Lemma date_ltb_total (a b : date) :
  date_ltb a b = false -> date_ltb b a = false -> a = b.
Proof.
  destruct a as [y1 m1 d1], b as [y2 m2 d2].
  unfold date_ltb. cbn. zcases; try (intros _ _; f_equal; lia).
Qed.

Lemma date_leb_le (a b : date) :
  date_leb a b = true <-> key_le date_ltb a b.
Proof.
  unfold date_leb, key_le. rewrite orb_true_iff, date_eqb_spec. tauto.
Qed.

Lemma period_eqb_spec (a b : period) : period_eqb a b = true <-> a = b.
Proof.
  destruct a as [y1 m1], b as [y2 m2]. unfold period_eqb. cbn.
  split.
  - zcases; try (intros _; congruence).
  - intros [= -> ->]. now rewrite !Z.eqb_refl.
Qed.

Lemma period_ltb_irrefl (a : period) : period_ltb a a = false.
Proof. destruct a as [y m]. unfold period_ltb. cbn. zcases. Qed.

Lemma period_ltb_trans (a b c : period) :
  period_ltb a b = true -> period_ltb b c = true -> period_ltb a c = true.
Proof.
  destruct a as [y1 m1], b as [y2 m2], c as [y3 m3].
  unfold period_ltb. cbn. zcases.
Qed.

Lemma period_ltb_total (a b : period) :
  period_ltb a b = false -> period_ltb b a = false -> a = b.
Proof.
  destruct a as [y1 m1], b as [y2 m2].
  unfold period_ltb. cbn. zcases; try (intros _ _; f_equal; lia).
Qed.

End Calendar.

Section Series.

Lemma by_date_total (series : list row) (d : date) :
  total_for date_eqb d (by_date series) = daily_total series d.
Proof.
  unfold total_for, daily_total, by_date.
  induction series as [|r series IH]; cbn [map filter fst]; [reflexivity|].
  destruct (date_eqb (Date r) d); cbn [map snd]; [|exact IH].
  rewrite !sum_cons, IH. reflexivity.
Qed.

Lemma by_date_keys (series : list row) : map fst (by_date series) = map Date series.
Proof. unfold by_date. rewrite map_map. reflexivity. Qed.

Lemma by_date_values (series : list row) :
  map snd (by_date series) = map Energy_Wh series.
Proof. unfold by_date. rewrite map_map. reflexivity. Qed.

Lemma by_month_values (series : list row) :
  map snd (by_month series) = map Energy_Wh series.
Proof. unfold by_month. rewrite map_map. reflexivity. Qed.

(** A container whose keys are the dates of the series, in increasing
    order, each with its daily total: its first maximum is the earliest
    peak. *)
Variable series : list row.
Variable g : list (date * R).
Hypothesis g_sorted : sorted_keys date_ltb g.
Hypothesis g_get : forall d, dict_get date_eqb d g 0 = daily_total series d.
Hypothesis g_keys : forall d, In d (keys g) <-> In d (map Date series).

Lemma g_value (d : date) (v : R) : In (d, v) g -> v = daily_total series d.
Proof.
  intros I. rewrite <- g_get. unfold dict_get.
  rewrite (assoc_of_in date_eqb date_eqb_spec d v g); [reflexivity| |exact I].
  apply (sorted_nodup date_ltb date_ltb_irrefl). exact g_sorted.
Qed.

Lemma first_max_key_is_peak (d : date) :
  max_by (fun k => dict_get date_eqb k g 0) (keys g) = Some d ->
  earliest_peak series d.
Proof.
  intros H. apply max_by_split in H as (l1 & l2 & Heq & H1 & H2).
  pose proof g_sorted as S. unfold sorted_keys in S. rewrite Heq in S.
  apply sorted_split in S as [S1 S2].
  split.
  - apply g_keys. rewrite Heq. apply in_elt.
  - intros d' Hd'. apply g_keys in Hd'. rewrite Heq in Hd'.
    rewrite <- !g_get.
    apply in_app_or in Hd' as [I|[<-|I]].
    + specialize (H1 _ I). split; [lra|]. intros E. lra.
    + split; [lra|]. intros _. apply date_leb_le. now right.
    + specialize (H2 _ I). split; [lra|]. intros _.
      apply date_leb_le. left. apply S2. exact I.
Qed.

Lemma first_max_row_is_peak (d : date) (v : R) :
  max_by App.daily_kWh g = Some (d, v) ->
  v = daily_total series d /\ earliest_peak series d.
Proof.
  intros H. apply max_by_split in H as (l1 & l2 & Heq & H1 & H2).
  pose proof g_sorted as S. unfold sorted_keys, keys in S.
  rewrite Heq, map_app in S. cbn [map fst] in S.
  apply sorted_split in S as [S1 S2].
  assert (Iv : In (d, v) g) by (rewrite Heq; apply in_elt).
  pose proof (g_value _ _ Iv) as Ev.
  split; [exact Ev|]. split.
  - apply g_keys. apply in_map_iff. exists (d, v). auto.
  - intros d' Hd'. apply g_keys in Hd'.
    apply in_map_iff in Hd' as ([k v'] & Ek & I). cbn in Ek. subst k.
    pose proof (g_value _ _ I) as Ev'.
    rewrite Heq in I. unfold App.daily_kWh in H1, H2.
    apply in_app_or in I as [I|[I|I]].
    + specialize (H1 _ I). cbn [snd] in H1. split; [lra|]. intros E. lra.
    + injection I as <- <-. split; [lra|]. intros _.
      apply date_leb_le. now right.
    + specialize (H2 _ I). cbn [snd] in H2. split; [lra|]. intros _.
      apply date_leb_le. left. apply S2.
      apply in_map_iff. exists (d', v'). auto.
Qed.

End Series.

(** ** The time-series aggregation *)

(** The dashboard's grouped frames. *)
Section Frames.

Lemma groupby_sorted {K : Type} (ltb : K -> K -> bool)
    (irrefl : forall a, ltb a a = false)
    (trans : forall a b c, ltb a b = true -> ltb b c = true -> ltb a c = true)
    (total : forall a b, ltb a b = false -> ltb b a = false -> a = b)
    (rows : list (K * R)) :
  sorted_keys ltb (groupby_sum ltb rows).
Proof.
  apply (add_rows_inv (group_add ltb) (sorted_keys ltb)).
  - intros k v d. now apply group_add_sorted.
  - constructor.
Qed.

Lemma groupby_values {K : Type} (ltb : K -> K -> bool) (rows : list (K * R)) :
  Py.sum (values (groupby_sum ltb rows)) = Py.sum (map snd rows).
Proof.
  change (groupby_sum ltb rows) with (add_rows (group_add ltb) rows []).
  rewrite (add_rows_values (group_add ltb) (group_add_values ltb) rows []).
  cbn. rewrite sum_nil. lra.
Qed.

Lemma daily_df_sorted (df : list row) : sorted_keys date_ltb (daily_groups df).
Proof.
  apply groupby_sorted;
    [apply date_ltb_irrefl | apply date_ltb_trans | apply date_ltb_total].
Qed.

Lemma daily_df_get (df : list row) (d : date) :
  dict_get date_eqb d (daily_groups df) 0 = daily_total df d.
Proof.
  unfold daily_groups.
  change (groupby_sum date_ltb (by_date df))
    with (add_rows (group_add date_ltb) (by_date df) []).
  rewrite (add_rows_get date_eqb date_eqb_spec (group_add date_ltb)
             (sorted_keys date_ltb)).
  - rewrite by_date_total. cbn. lra.
  - intros k v g. apply group_add_sorted;
      [apply date_ltb_irrefl | apply date_ltb_trans | apply date_ltb_total].
  - intros x k v g. apply group_add_assoc;
      [apply date_eqb_spec | apply date_ltb_irrefl | apply date_ltb_trans
      | apply date_ltb_total].
  - constructor.
Qed.

Lemma daily_df_keys (df : list row) (d : date) :
  In d (keys (daily_groups df)) <-> In d (map Date df).
Proof.
  unfold daily_groups.
  change (groupby_sum date_ltb (by_date df))
    with (add_rows (group_add date_ltb) (by_date df) []).
  rewrite (add_rows_keys date_eqb date_eqb_spec (group_add date_ltb)
             (sorted_keys date_ltb)).
  - rewrite by_date_keys. cbn. tauto.
  - intros k v g. apply group_add_sorted;
      [apply date_ltb_irrefl | apply date_ltb_trans | apply date_ltb_total].
  - intros x k v g. apply group_add_assoc;
      [apply date_eqb_spec | apply date_ltb_irrefl | apply date_ltb_trans
      | apply date_ltb_total].
  - constructor.
Qed.

Lemma daily_df_energy (df : list row) :
  Py.sum (map App.daily_kWh (daily_groups df))
  = Py.sum (map Energy_Wh df) / 1000.
Proof.
  unfold App.daily_kWh.
  rewrite (sum_map_scale snd 1000).
  unfold daily_groups.
  change (map snd (groupby_sum date_ltb (by_date df)))
    with (values (groupby_sum date_ltb (by_date df))).
  now rewrite groupby_values, by_date_values.
Qed.

Lemma monthly_summary_energy (df : list row) :
  Py.sum (map App.monthly_kWh (monthly_groups df))
  = Py.sum (map Energy_Wh df) / 1000.
Proof.
  unfold App.monthly_kWh.
  rewrite (sum_map_scale snd 1000).
  unfold monthly_groups.
  change (map snd (groupby_sum period_ltb (by_month df)))
    with (values (groupby_sum period_ltb (by_month df))).
  now rewrite groupby_values, by_month_values.
Qed.

(** On a frame that has rows, hence columns, the summary is defined. *)
Lemma total_energy_defined (df : list row) :
  df <> [] -> App.total_energy df = Some (Py.sum (map Energy_Wh df) / 1000).
Proof. destruct df; [congruence | reflexivity]. Qed.

Lemma daily_df_defined (df : list row) :
  df <> [] -> App.daily_df df = Some (daily_groups df).
Proof. destruct df; [congruence | reflexivity]. Qed.

Lemma monthly_summary_defined (df : list row) :
  df <> [] -> App.monthly_summary df = Some (monthly_groups df).
Proof. destruct df; [congruence | reflexivity]. Qed.

Lemma peak_day_defined (df : list row) :
  df <> [] -> App.peak_day df = max_by App.daily_kWh (daily_groups df).
Proof. destruct df; [congruence | reflexivity]. Qed.

End Frames.

(** The script's loop. *)
Section ScriptLoop.

Context {M : MathModule}.

Lemma loop_extends (lat lon azimuth tilt : R) (hourly : list hourly_entry)
    (st st' : Excel.analysis) :
  Excel.loop lat lon azimuth tilt hourly st = Some st' ->
  exists rows, extends hourly st st' rows.
Proof.
  revert st. induction hourly as [|h hourly IH]; intros st H.
  - cbn in H. injection H as <-. exists []. unfold extends. cbn.
    rewrite app_nil_r, sum_nil. repeat split; try reflexivity; lra.
  - cbn [Excel.loop] in H.
    destruct (Excel.loop_body lat lon azimuth tilt h st) as [st1|] eqn:B;
      [|discriminate].
    cbn [Py.bind] in H. apply IH in H as (rows & H).
    unfold Excel.loop_body in B. cbv zeta in B.
    destruct (Excel.calculate_power _ _ _ _ _ _ _ _ _) as [power|];
      [|discriminate].
    cbn [Py.bind] in B.
    destruct (list_iadd _ _ _) as [monthly|] eqn:L; [|discriminate].
    cbn [Py.bind] in B. injection B as <-.
    apply list_iadd_spec in L as [L1 L2].
    destruct H as (E1 & E2 & E3 & E4 & E5 & E6 & E7).
    cbn [Excel.excel_data Excel.total_energy Excel.daily_energy
         Excel.monthly_energy] in *.
    exists (mkrow (time h) (date_of (time h)) (hour (time h))
              (or_default (temperature_2m h) 20)
              (or_default (direct_normal_irradiance h) 0)
              (or_default (diffuse_radiation h) 0)
              (or_default (shortwave_radiation h) 0) power power :: rows).
    unfold extends. cbn [map Timestamp Date Energy_Wh by_date].
    repeat split.
    + rewrite E1, <- app_assoc. reflexivity.
    + now rewrite E2.
    + now rewrite E3.
    + rewrite E4, sum_cons. lra.
    + exact E5.
    + congruence.
    + rewrite E7, L2, sum_cons. lra.
Qed.

End ScriptLoop.

Section ScriptTotals.

Lemma accumulate_is_add_rows (rows d : list (date * R)) :
  accumulate date_eqb rows d
  = add_rows (fun k v d => dict_set date_eqb k (dict_get date_eqb k d 0 + v) d)
             rows d.
Proof. reflexivity. Qed.

Lemma script_daily_get (rows : list row) (d : date) :
  dict_get date_eqb d (accumulate date_eqb (by_date rows) []) 0
  = daily_total rows d.
Proof.
  rewrite accumulate_is_add_rows.
  rewrite (add_rows_get date_eqb date_eqb_spec _ (fun _ => True)); auto.
  - rewrite by_date_total. cbn. lra.
  - intros x k v g _. apply (assoc_dict_set date_eqb date_eqb_spec).
Qed.

Lemma script_daily_keys (rows : list row) (d : date) :
  In d (keys (accumulate date_eqb (by_date rows) [])) <-> In d (map Date rows).
Proof.
  rewrite accumulate_is_add_rows.
  rewrite (add_rows_keys date_eqb date_eqb_spec _ (fun _ => True)); auto.
  - rewrite by_date_keys. cbn. tauto.
  - intros x k v g _. apply (assoc_dict_set date_eqb date_eqb_spec).
Qed.

Lemma script_daily_values (rows : list row) :
  Py.sum (values (accumulate date_eqb (by_date rows) []))
  = Py.sum (map Energy_Wh rows).
Proof.
  rewrite accumulate_is_add_rows.
  rewrite add_rows_values.
  - rewrite by_date_values. cbn. rewrite sum_nil. lra.
  - intros k v g. apply values_dict_set.
Qed.

Lemma chronological_le (dates : list date) :
  StronglySorted (fun a b => date_leb a b = true) dates ->
  StronglySorted (key_le date_ltb) dates.
Proof.
  induction 1 as [|a l S IH F]; constructor; [exact IH|].
  eapply Forall_impl; [|exact F]. intros b. apply date_leb_le.
Qed.

Lemma script_daily_sorted (rows : list row) :
  StronglySorted (fun a b => date_leb a b = true) (map Date rows) ->
  sorted_keys date_ltb (accumulate date_eqb (by_date rows) []).
Proof.
  intros S. apply (accumulate_sorted date_eqb date_ltb date_eqb_spec).
  - rewrite by_date_keys. now apply chronological_le.
  - constructor.
  - intros k k' [].
Qed.

Local Existing Instance real_math.

Lemma loop_defined (lat lon azimuth tilt : R) (hourly : list hourly_entry)
    (st : Excel.analysis) :
  Forall (fun h => valid_datetime (time h) = true) hourly ->
  length (Excel.monthly_energy st) = 12%nat ->
  exists st', Excel.loop lat lon azimuth tilt hourly st = Some st'.
Proof.
  intros V. revert st. induction V as [|h hourly Vh V IH]; intros st L.
  - cbn. eauto.
  - cbn [Excel.loop]. unfold Excel.loop_body. cbv zeta.
    destruct (script_power_defined lat lon azimuth tilt
                (or_default (direct_normal_irradiance h) 0)
                (or_default (diffuse_radiation h) 0)
                (or_default (shortwave_radiation h) 0)
                (time h) (or_default (temperature_2m h) 20))
      as (p & -> & _).
    cbn [Py.bind].
    destruct (list_iadd_month (Excel.monthly_energy st) (time h) p Vh L)
      as [monthly E].
    rewrite E. cbn [Py.bind]. apply IH. cbn.
    apply list_iadd_spec in E as [-> _]. exact L.
Qed.

(** The variables after the loop, started from their initial values. *)
Lemma loop_totals (lat lon azimuth tilt : R) (hourly : list hourly_entry) :
  Forall (fun h => valid_datetime (time h) = true) hourly ->
  exists st,
    Excel.loop lat lon azimuth tilt hourly Excel.initial = Some st
    /\ map Date (Excel.excel_data st) = map (fun h => date_of (time h)) hourly
    /\ Excel.daily_energy st
       = accumulate date_eqb (by_date (Excel.excel_data st)) []
    /\ Excel.total_energy st = Py.sum (map Energy_Wh (Excel.excel_data st))
    /\ length (Excel.monthly_energy st) = 12%nat
    /\ Py.sum (Excel.monthly_energy st) = Excel.total_energy st.
Proof.
  intros V.
  destruct (loop_defined lat lon azimuth tilt hourly Excel.initial V eq_refl)
    as [st H].
  exists st. split; [exact H|].
  apply loop_extends in H as (rows & E1 & E2 & E3 & E4 & E5 & E6 & E7).
  cbn [Excel.initial Excel.excel_data Excel.total_energy Excel.daily_energy
       Excel.monthly_energy app] in *.
  rewrite E1. rewrite sum_repeat_0 in E7. cbn [repeat length] in E6.
  repeat split; try assumption; lra.
Qed.

End ScriptTotals.

(** ** The rows of the two frames *)

Section Rows.

Context {M : MathModule}.

(** The row the script appends for an hour, and the one of the dashboard. *)
Lemma script_rows (lat lon azimuth tilt : R) (hourly : list hourly_entry)
    (st st' : Excel.analysis) :
  Excel.loop lat lon azimuth tilt hourly st = Some st' ->
  exists rows,
    Excel.excel_data st' = Excel.excel_data st ++ rows
    /\ Forall2 (fun h r =>
                  exists p,
                    Excel.calculate_power lat lon azimuth tilt
                      (or_default (direct_normal_irradiance h) 0)
                      (or_default (diffuse_radiation h) 0)
                      (or_default (shortwave_radiation h) 0)
                      (time h) (or_default (temperature_2m h) 20) = Some p
                    /\ r = hour_row h p)
               hourly rows.
Proof.
  revert st. induction hourly as [|h hourly IH]; intros st H.
  - cbn in H. injection H as <-. exists []. rewrite app_nil_r.
    split; [reflexivity | constructor].
  - cbn [Excel.loop] in H.
    destruct (Excel.loop_body lat lon azimuth tilt h st) as [st1|] eqn:B;
      [|discriminate].
    cbn [Py.bind] in H. apply IH in H as (rows & E & F).
    unfold Excel.loop_body in B. cbv zeta in B.
    destruct (Excel.calculate_power _ _ _ _ _ _ _ _ _) as [power|] eqn:P;
      [|discriminate].
    cbn [Py.bind] in B.
    destruct (list_iadd _ _ _) as [monthly|]; [|discriminate].
    cbn [Py.bind] in B. injection B as <-.
    cbn [Excel.excel_data] in E.
    exists (hour_row h power :: rows). split.
    + rewrite E, <- app_assoc. reflexivity.
    + constructor; [|exact F]. exists power. auto.
Qed.

Lemma frame_rows (lat lon size eff : R) (hourly : list hourly_entry)
    (df : list row) :
  App.build_frame lat lon size eff hourly = Some df ->
  Forall2 (fun h r =>
             exists q,
               App.calculate_solar_power lat lon
                 (App.optimal_azimuth lat) (App.optimal_tilt lat)
                 (or_default (direct_normal_irradiance h) 0)
                 (or_default (diffuse_radiation h) 0)
                 (or_default (shortwave_radiation h) 0)
                 (time h) (or_default (temperature_2m h) 20)
                 (App.calculate_temperature_coefficient lat) = Some q
               /\ r = hour_row h (q * size * (eff / 100)))
          hourly df.
Proof.
  revert df. induction hourly as [|h hourly IH]; intros df H.
  - cbn in H. injection H as <-. constructor.
  - cbn [App.build_frame] in H.
    destruct (App.sample_row lat lon size eff h) as [r|] eqn:S;
      [|discriminate].
    cbn [Py.bind] in H.
    destruct (App.build_frame lat lon size eff hourly) as [df'|];
      [|discriminate].
    cbn [Py.bind] in H. injection H as <-.
    constructor; [|now apply IH].
    unfold App.sample_row, App.optimal_azimuth, App.optimal_tilt in *.
    destruct (App.calculate_optimal_angles lat) as [[[[az ti] he] di] zo].
    cbv zeta in S.
    destruct (App.calculate_solar_power _ _ _ _ _ _ _ _ _ _) as [q|];
      [|discriminate].
    cbn [Py.bind] in S. injection S as <-. exists q. auto.
Qed.

End Rows.

Section Summary.

Local Existing Instance real_math.

(** C10: the script's annual total is the sum of the hourly samples, of
    the per-date totals of its dictionary (one entry per date, holding the
    energy of that date) and of its twelve per-month totals; the
    dashboard's annual total, on a frame that has rows, is the sum of its
    daily and of its monthly frame. *)
Theorem aggregation_conserves_energy (lat lon azimuth tilt : R)
    (hourly : list hourly_entry) (df : list row) :
  Forall (fun h => valid_datetime (time h) = true) hourly ->
  (exists st,
     Excel.loop lat lon azimuth tilt hourly Excel.initial = Some st
     /\ length (Excel.excel_data st) = length hourly
     /\ Excel.total_energy st = Py.sum (map Energy_Wh (Excel.excel_data st))
     /\ Py.sum (values (Excel.daily_energy st)) = Excel.total_energy st
     /\ NoDup (keys (Excel.daily_energy st))
     /\ (forall d, dict_get date_eqb d (Excel.daily_energy st) 0
                   = daily_total (Excel.excel_data st) d)
     /\ length (Excel.monthly_energy st) = 12%nat
     /\ Py.sum (Excel.monthly_energy st) = Excel.total_energy st)
  /\ (df <> [] ->
      exists total daily monthly,
        App.total_energy df = Some total
        /\ App.daily_df df = Some daily
        /\ App.monthly_summary df = Some monthly
        /\ total = Py.sum (map Energy_Wh df) / 1000
        /\ Py.sum (map App.daily_kWh daily) = total
        /\ NoDup (keys daily)
        /\ (forall d, dict_get date_eqb d daily 0 = daily_total df d)
        /\ Py.sum (map App.monthly_kWh monthly) = total).
Proof.
  intros V. split.
  - destruct (loop_totals lat lon azimuth tilt hourly V)
      as (st & H & Hd & Hg & Ht & Hl & Hm).
    exists st. split; [exact H|]. rewrite Hg.
    repeat split.
    + rewrite <- (length_map Date), Hd. apply length_map.
    + exact Ht.
    + rewrite script_daily_values. now rewrite Ht.
    + apply (accumulate_nodup date_eqb date_eqb_spec). constructor.
    + apply script_daily_get.
    + exact Hl.
    + exact Hm.
  - intros Hdf.
    exists (Py.sum (map Energy_Wh df) / 1000), (daily_groups df),
      (monthly_groups df).
    split; [now apply total_energy_defined|].
    split; [now apply daily_df_defined|].
    split; [now apply monthly_summary_defined|].
    split; [reflexivity|].
    split; [apply daily_df_energy|].
    split; [apply (sorted_nodup date_ltb date_ltb_irrefl), daily_df_sorted|].
    split; [apply daily_df_get | apply monthly_summary_energy].
Qed.

(** C8: the dashboard's peak day is a date of the frame with the largest
    daily total, the earliest one when several dates have that total; so is
    the script's, on the series that its loop builds hour by hour from
    hours that come in chronological order. *)
Theorem peak_day_earliest_maximum (lat lon azimuth tilt : R)
    (hourly : list hourly_entry) (df : list row) :
  hourly <> [] ->
  Forall (fun h => valid_datetime (time h) = true) hourly ->
  StronglySorted (fun a b => date_leb a b = true)
                 (map (fun h => date_of (time h)) hourly) ->
  df <> [] ->
  (exists st peak_day peak_energy,
     Excel.loop lat lon azimuth tilt hourly Excel.initial = Some st
     /\ Forall2 (fun h r =>
                   exists p,
                     Excel.calculate_power lat lon azimuth tilt
                       (or_default (direct_normal_irradiance h) 0)
                       (or_default (diffuse_radiation h) 0)
                       (or_default (shortwave_radiation h) 0)
                       (time h) (or_default (temperature_2m h) 20) = Some p
                     /\ r = hour_row h p)
                hourly (Excel.excel_data st)
     /\ Excel.analyze_last_year_production lat lon azimuth tilt hourly
        = Some (st, peak_day, peak_energy)
     /\ peak_energy = daily_total (Excel.excel_data st) peak_day
     /\ earliest_peak (Excel.excel_data st) peak_day)
  /\ (exists peak_day energy,
        App.peak_day df = Some (peak_day, energy)
        /\ energy = daily_total df peak_day
        /\ earliest_peak df peak_day).
Proof.
  intros Hne V Chr Hdf. split.
  - destruct (loop_totals lat lon azimuth tilt hourly V)
      as (st & H & Hd & Hg & _).
    assert (Rows : Forall2 (fun h r =>
                   exists p,
                     Excel.calculate_power lat lon azimuth tilt
                       (or_default (direct_normal_irradiance h) 0)
                       (or_default (diffuse_radiation h) 0)
                       (or_default (shortwave_radiation h) 0)
                       (time h) (or_default (temperature_2m h) 20) = Some p
                     /\ r = hour_row h p)
                hourly (Excel.excel_data st)).
    { destruct (script_rows _ _ _ _ _ _ _ H) as (rows & E & F).
      cbn in E. now rewrite E. }
    unfold Excel.analyze_last_year_production. rewrite H. cbn [Py.bind].
    set (series := Excel.excel_data st) in *.
    rewrite <- Hd in Chr.
    pose proof (script_daily_sorted series Chr) as S.
    pose proof (script_daily_get series) as G.
    pose proof (script_daily_keys series) as Ks.
    rewrite <- Hg in S, G, Ks.
    assert (Kne : map fst (Excel.daily_energy st) <> []).
    { destruct hourly as [|h hourly]; [congruence|].
      destruct series as [|r series]; [discriminate|].
      intros E. assert (I : In (Date r) (keys (Excel.daily_energy st)))
        by (apply Ks; now left).
      unfold keys in I. rewrite E in I. destruct I. }
    destruct (max_by_defined
                (fun k => dict_get date_eqb k (Excel.daily_energy st) 0)
                _ Kne) as [d Hmax].
    rewrite Hmax. cbn [Py.bind].
    pose proof (first_max_key_is_peak series _ S G Ks d Hmax) as P.
    destruct (assoc_some_key date_eqb date_eqb_spec d (Excel.daily_energy st))
      as [e He].
    { apply Ks. apply P. }
    rewrite He. cbn [Py.bind]. exists st, d, e.
    split; [reflexivity|]. split; [exact Rows|].
    split; [reflexivity|]. split; [|exact P].
    rewrite <- G. unfold dict_get. now rewrite He.
  - rewrite (peak_day_defined df Hdf).
    assert (Gne : daily_groups df <> []).
    { destruct df as [|r df]; [congruence|]. intros E.
      assert (I : In (Date r) (keys (daily_groups (r :: df))))
        by (apply daily_df_keys; now left).
      rewrite E in I. destruct I. }
    destruct (max_by_defined App.daily_kWh _ Gne) as [[d v] Hmax].
    exists d, v. split; [exact Hmax|].
    apply (first_max_row_is_peak df (daily_groups df)).
    + apply daily_df_sorted.
    + apply daily_df_get.
    + apply daily_df_keys.
    + exact Hmax.
Qed.

End Summary.

Lemma aggregation_conserves_energy_witness :
  Forall (fun h => valid_datetime (time h) = true) sample_hours
  /\ sample_frame <> []
  /\ (exists st,
        @Excel.loop real_math 0 0 180 0 sample_hours Excel.initial = Some st
        /\ Py.sum (values (Excel.daily_energy st)) = Excel.total_energy st
        /\ Py.sum (Excel.monthly_energy st) = Excel.total_energy st)
  /\ (exists total daily,
        App.total_energy sample_frame = Some total
        /\ App.daily_df sample_frame = Some daily
        /\ Py.sum (map App.daily_kWh daily) = total).
Proof.
  assert (V : Forall (fun h => valid_datetime (time h) = true) sample_hours)
    by (repeat constructor).
  assert (F : sample_frame <> []) by discriminate.
  split; [exact V|]. split; [exact F|].
  destruct (aggregation_conserves_energy 0 0 180 0 sample_hours sample_frame V)
    as [(st & H & _ & _ & Hd & _ & _ & _ & Hm) Hf].
  destruct (Hf F) as (total & daily & monthly & Ht & Hdf & _ & _ & Hs & _).
  split.
  - exists st. auto.
  - exists total, daily. auto.
Defined.

(** Two tied dates in chronological order: the earliest peak of the rows
    the loop builds from them is the first date. *)
Lemma ordered_hours_peak (st : Excel.analysis) (d : date) :
  Forall2 (fun h r =>
             exists p,
               @Excel.calculate_power real_math 0 0 180 0
                 (or_default (direct_normal_irradiance h) 0)
                 (or_default (diffuse_radiation h) 0)
                 (or_default (shortwave_radiation h) 0)
                 (time h) (or_default (temperature_2m h) 20) = Some p
               /\ r = hour_row h p)
          ordered_hours (Excel.excel_data st) ->
  earliest_peak (Excel.excel_data st) d ->
  d = mkdate 2022 3 22
  /\ daily_total (Excel.excel_data st) (mkdate 2023 3 22)
     = daily_total (Excel.excel_data st) (mkdate 2022 3 22).
Proof.
  unfold ordered_hours. intros F [I T].
  inversion F as [|h1 r1 l1 rs1 (p1 & Hp1 & E1) F1 Q1 Q2]. subst.
  inversion F1 as [|h2 r2 l2 rs2 (p2 & Hp2 & E2) F2 Q3 Q4]. subst.
  inversion F2. subst.
  cbn [direct_normal_irradiance diffuse_radiation shortwave_radiation
       temperature_2m time or_default] in Hp1, Hp2.
  rewrite power_midnight_day81 in Hp1, Hp2 by reflexivity.
  injection Hp1 as <-. injection Hp2 as <-.
  match goal with Q : _ = Excel.excel_data st |- _ => rewrite <- Q in * end.
  assert (Tie : daily_total
                  [hour_row (mkhourly (mkdatetime 2022 3 22 0 0)
                                      None None None None) 0;
                   hour_row (mkhourly (mkdatetime 2023 3 22 0 0)
                                      None None None None) 0]
                  (mkdate 2023 3 22)
                = daily_total
                    [hour_row (mkhourly (mkdatetime 2022 3 22 0 0)
                                        None None None None) 0;
                     hour_row (mkhourly (mkdatetime 2023 3 22 0 0)
                                        None None None None) 0]
                    (mkdate 2022 3 22))
    by (unfold daily_total; cbn; reflexivity).
  split; [|exact Tie].
  cbn in I. destruct I as [<-|[<-|[]]]; [reflexivity|]. exfalso.
  destruct (T (mkdate 2022 3 22)) as [_ Le]; [cbn; now left|].
  assert (E : date_leb (mkdate 2023 3 22) (mkdate 2022 3 22) = true)
    by (apply Le; symmetry; exact Tie).
  discriminate E.
Qed.

Lemma peak_day_earliest_maximum_witness :
  ordered_hours <> []
  /\ Forall (fun h => valid_datetime (time h) = true) ordered_hours
  /\ StronglySorted (fun a b => date_leb a b = true)
       (map (fun h => date_of (time h)) ordered_hours)
  /\ sample_frame <> []
  /\ (exists st peak_energy,
        @Excel.analyze_last_year_production real_math 0 0 180 0 ordered_hours
        = Some (st, mkdate 2022 3 22, peak_energy)
        /\ daily_total (Excel.excel_data st) (mkdate 2023 3 22)
           = daily_total (Excel.excel_data st) (mkdate 2022 3 22))
  /\ (exists peak_day energy,
        App.peak_day sample_frame = Some (peak_day, energy)
        /\ earliest_peak sample_frame peak_day).
Proof.
  assert (N : ordered_hours <> []) by discriminate.
  assert (V : Forall (fun h => valid_datetime (time h) = true) ordered_hours)
    by (repeat constructor).
  assert (C : StronglySorted (fun a b => date_leb a b = true)
                (map (fun h => date_of (time h)) ordered_hours))
    by (repeat constructor).
  assert (F : sample_frame <> []) by discriminate.
  repeat (split; [assumption|]).
  destruct (peak_day_earliest_maximum 0 0 180 0 ordered_hours sample_frame
              N V C F)
    as [(st & d & e & L & R & H & _ & P) (d' & v & H' & _ & P')].
  split.
  - destruct (ordered_hours_peak st d R P) as [-> Tie].
    exists st, e. split; [exact H | exact Tie].
  - exists d', v. auto.
Defined.

Lemma power_nonnegative_witness :
  @App.calculate_solar_power real_math 0 0 180 0 1000 0 0 (equinox 12 0) 35
    (-0.45) = Some 955
  /\ 0 <= 955.
Proof.
  assert (H : @App.calculate_solar_power real_math 0 0 180 0 1000 0 0
                (equinox 12 0) 35 (-0.45) = Some 955)
    by (rewrite <- coefficient_equator; apply dashboard_power_equator).
  split; [exact H|].
  exact (proj2 (proj2 (proj2
           (power_nonnegative 0 0 180 0 1000 0 0 (equinox 12 0) 35 (-0.45))))
           real_math 955 H).
Defined.

(** ** Ties, on examples *)

Section Ties.

Local Existing Instance real_math.

(** Two dates of 500 Wh each: the dashboard selects the earlier one, though
    its rows come second in the frame. *)
Lemma dashboard_tie_earlier_date :
  App.peak_day sample_frame = Some (mkdate 2023 3 22, 200 + 300).
Proof.
  rewrite peak_day_defined by discriminate.
  replace (daily_groups sample_frame)
    with [(mkdate 2023 3 22, 200 + 300); (mkdate 2023 3 23, 500)]
    by reflexivity.
  unfold max_by. cbn [fold_left]. unfold App.daily_kWh. cbn [snd].
  assert (H : (500 / 1000 >? (200 + 300) / 1000) = false)
    by (apply Rltb_false; lra).
  now rewrite H.
Qed.

(** Two dates of equal energy met in the order 2023, 2022: the script
    selects the one it met first. *)
Lemma script_tie_first_met :
  exists st e,
    Excel.analyze_last_year_production 0 0 180 0 unordered_hours
    = Some (st, mkdate 2023 3 22, e)
    /\ daily_total (Excel.excel_data st) (mkdate 2022 3 22)
       = daily_total (Excel.excel_data st) (mkdate 2023 3 22)
    /\ date_ltb (mkdate 2022 3 22) (mkdate 2023 3 22) = true.
Proof.
  unfold Excel.analyze_last_year_production, unordered_hours.
  cbn [Excel.loop]. unfold Excel.loop_body. cbv zeta.
  cbn [time temperature_2m diffuse_radiation direct_normal_irradiance
       shortwave_radiation or_default].
  rewrite !power_midnight_day81 by reflexivity.
  cbn. change (Pos.to_nat 2) with 2%nat. cbn.
  unfold dict_get. cbn.
  assert (H : (0 + 0 >? 0 + 0) = false) by (apply Rltb_false; lra).
  rewrite H. cbn.
  eexists. eexists. split; [reflexivity|]. split; [|reflexivity].
  unfold daily_total. cbn. reflexivity.
Qed.

End Ties.

(** ** Compass directions and the optimizer's bands *)

Section Directions.

Ltac to_prop :=
  repeat match goal with
         | H : (_ || _) = true |- _ => apply orb_true_iff in H as [H|H]
         | H : (_ && _) = true |- _ => apply andb_true_iff in H as [? H]
         | H : (_ || _) = false |- _ => apply orb_false_iff in H as [? H]
         | H : (_ && _) = false |- _ => apply andb_false_iff in H as [H|H]
         | H : (_ <=? _) = true |- _ => apply Rleb_true in H
         | H : (_ <=? _) = false |- _ => apply Rleb_false in H
         | H : (_ <? _) = true |- _ => apply Rltb_true in H
         | H : (_ <? _) = false |- _ => apply Rltb_false in H
         end.

Ltac sectors :=
  unfold Excel.get_direction;
  repeat match goal with
         | |- context [if ?b then _ else _] =>
             let E := fresh "E" in destruct b eqn:E
         end.

Lemma get_direction_south (azimuth : R) :
  157.5 <= azimuth < 202.5 -> Excel.get_direction azimuth = "South".
Proof. intros H. sectors; try reflexivity; exfalso; to_prop; lra. Qed.

Lemma get_direction_north (azimuth : R) :
  337.5 <= azimuth \/ azimuth < 22.5 -> Excel.get_direction azimuth = "North".
Proof. intros H. sectors; try reflexivity; exfalso; to_prop; lra. Qed.

(** X1: The sectors cover the line: the script never answers Unknown; South is
    the sector [157.5, 202.5) and North is what lies at or beyond 337.5 or
    below 22.5. *)
Theorem get_direction_sectors (azimuth : R) :
  Excel.get_direction azimuth <> "Unknown"
  /\ (Excel.get_direction azimuth = "South" <-> 157.5 <= azimuth < 202.5)
  /\ (Excel.get_direction azimuth = "North"
      <-> 337.5 <= azimuth \/ azimuth < 22.5).
Proof.
  split; [|split].
  - sectors; try discriminate. exfalso. to_prop; lra.
  - split.
    + sectors; try discriminate; intros _; to_prop; lra.
    + apply get_direction_south.
  - split.
    + sectors; try discriminate; intros _; to_prop; lra.
    + apply get_direction_north.
Qed.

Lemma get_direction_sectors_witness :
  157.5 <= 180 < 202.5 /\ Excel.get_direction 180 = "South".
Proof.
  assert (H : 157.5 <= 180 < 202.5) by lra.
  split; [exact H|].
  exact (proj2 (proj1 (proj2 (get_direction_sectors 180))) H).
Defined.

(** X2: The direction the script prints for the azimuth it recommends is the
    direction label of the dashboard: South from the equator northwards,
    North in the southern hemisphere. *)
Theorem recommended_direction_agrees (latitude longitude : R) :
  Excel.get_direction (fst (Excel.calculate_optimal_angles latitude longitude))
  = (let '(_, _, _, direction, _) := App.calculate_optimal_angles latitude in
     App.direction_name direction)
  /\ (0 <= latitude ->
      Excel.get_direction
        (fst (Excel.calculate_optimal_angles latitude longitude)) = "South")
  /\ (latitude < 0 ->
      Excel.get_direction
        (fst (Excel.calculate_optimal_angles latitude longitude)) = "North").
Proof.
  assert (HS : Excel.get_direction 180 = "South")
    by (apply get_direction_south; lra).
  assert (HN : Excel.get_direction 0 = "North")
    by (apply get_direction_north; lra).
  unfold Excel.calculate_optimal_angles, App.calculate_optimal_angles.
  cbv zeta. cbn [fst].
  destruct (latitude >=? 0) eqn:E.
  - apply Rleb_true in E.
    destruct (Py.abs latitude <? 25); [|destruct (Py.abs latitude <? 50)];
      cbn [App.direction_name]; rewrite HS;
      (split; [reflexivity|]); (split; intros H; [reflexivity | lra]).
  - apply Rleb_false in E.
    destruct (Py.abs latitude <? 25); [|destruct (Py.abs latitude <? 50)];
      cbn [App.direction_name]; rewrite HN;
      (split; [reflexivity|]); (split; intros H; [lra | reflexivity]).
Qed.

Lemma recommended_direction_agrees_witness :
  0 <= 37.7749
  /\ Excel.get_direction
       (fst (Excel.calculate_optimal_angles 37.7749 (-122.4194))) = "South"
  /\ -33.87 < 0
  /\ Excel.get_direction
       (fst (Excel.calculate_optimal_angles (-33.87) 151.21)) = "North".
Proof.
  assert (H1 : 0 <= 37.7749) by lra.
  assert (H2 : -33.87 < 0) by lra.
  split; [exact H1|]. split.
  - exact (proj1 (proj2 (recommended_direction_agrees 37.7749 (-122.4194))) H1).
  - split; [exact H2|].
    exact (proj2 (proj2 (recommended_direction_agrees (-33.87) 151.21)) H2).
Defined.

(** X3: The tilt never exceeds the distance to the equator and never falls
    below 0.87 of it; it is the same in both hemispheres, where the azimuths
    are opposite. *)
Theorem tilt_between_bounds (latitude longitude : R) :
  Rabs latitude * 0.87 <= snd (Excel.calculate_optimal_angles latitude longitude)
                       <= Rabs latitude
  /\ snd (Excel.calculate_optimal_angles (- latitude) longitude)
     = snd (Excel.calculate_optimal_angles latitude longitude)
  /\ App.optimal_tilt (- latitude) = App.optimal_tilt latitude
  /\ (0 < latitude ->
      App.optimal_azimuth latitude = 180
      /\ App.optimal_azimuth (- latitude) = 0).
Proof.
  rewrite (proj2 (optimal_angles_agree (- latitude) longitude)),
    (proj2 (optimal_angles_agree latitude longitude)),
    (proj1 (optimal_angles_agree (- latitude) longitude)),
    (proj1 (optimal_angles_agree latitude longitude)).
  unfold Excel.calculate_optimal_angles. cbv zeta. cbn [fst snd].
  unfold Py.abs. rewrite Rabs_Ropp.
  pose proof (Rabs_pos latitude) as Hp.
  repeat split.
  - destruct (Rabs latitude <? 25); [|destruct (Rabs latitude <? 50)]; lra.
  - destruct (Rabs latitude <? 25); [|destruct (Rabs latitude <? 50)]; lra.
  - assert (E : (latitude >=? 0) = true) by (apply Rleb_true; lra).
    now rewrite E.
  - assert (E : (- latitude >=? 0) = false) by (apply Rleb_false; lra).
    now rewrite E.
Qed.

Lemma tilt_between_bounds_witness :
  0 < 33.87
  /\ App.optimal_azimuth 33.87 = 180 /\ App.optimal_azimuth (- (33.87)) = 0.
Proof.
  assert (H : 0 < 33.87) by lra.
  split; [exact H|].
  exact (proj2 (proj2 (proj2 (tilt_between_bounds 33.87 0))) H).
Defined.

(** X4: The temperature coefficient is the same in both hemispheres, lies in
    [-0.45, -0.35], and never gets worse away from the equator. *)
Theorem temperature_coefficient_monotone (lat1 lat2 : R) :
  App.calculate_temperature_coefficient (- lat1)
  = App.calculate_temperature_coefficient lat1
  /\ -0.45 <= App.calculate_temperature_coefficient lat1 <= -0.35
  /\ (Rabs lat1 <= Rabs lat2 ->
      App.calculate_temperature_coefficient lat1
      <= App.calculate_temperature_coefficient lat2).
Proof.
  unfold App.calculate_temperature_coefficient, Py.abs. cbv zeta.
  rewrite Rabs_Ropp. generalize (Rabs lat1) (Rabs lat2). intros a b.
  unfold Rltb.
  repeat split; try intros H;
    repeat match goal with
           | |- context [Rlt_dec ?x ?y] => destruct (Rlt_dec x y)
           end; lra.
Qed.

Lemma temperature_coefficient_monotone_witness :
  Rabs 10 <= Rabs (-50)
  /\ App.calculate_temperature_coefficient 10
     <= App.calculate_temperature_coefficient (-50).
Proof.
  assert (H : Rabs 10 <= Rabs (-50)).
  { unfold Rabs. destruct (Rcase_abs 10), (Rcase_abs (-50)); lra. }
  split; [exact H|].
  exact (proj2 (proj2 (temperature_coefficient_monotone 10 (-50))) H).
Defined.

End Directions.

(** ** The sun position *)

Section SunPosition.

Lemma valid_time_of_day (ts : datetime) :
  valid_datetime ts = true ->
  0 <= IZR (hour ts) <= 23 /\ 0 <= IZR (minute ts) <= 59.
Proof.
  unfold valid_datetime. intros Hv.
  repeat (apply andb_true_iff in Hv as [Hv ?]).
  repeat match goal with
         | H : (_ <=? _)%Z = true |- _ => apply Z.leb_le in H
         end.
  repeat split; apply IZR_le; assumption.
Qed.

(** X5: For a timestamp a [datetime] can hold, the hour angle lies in
    [-180, 180), 15 degrees per hour, and is 0 at 12:00 only. *)
Theorem hour_angle_range (ts : datetime) :
  valid_datetime ts = true ->
  -180 <= Excel.hour_angle_at ts < 180
  /\ App.hour_angle_at ts = Excel.hour_angle_at ts
  /\ (Excel.hour_angle_at ts = 0 <-> hour ts = 12%Z /\ minute ts = 0%Z).
Proof.
  intros Hv. pose proof (valid_time_of_day ts Hv) as [[Hh0 Hh1] [Hm0 Hm1]].
  unfold App.hour_angle_at, App.day_hour, Excel.hour_angle_at, Excel.day_hour.
  split; [lra|]. split; [reflexivity|]. split.
  - intros H.
    assert (E : IZR (60 * hour ts + minute ts) = IZR 720).
    { rewrite plus_IZR, mult_IZR. lra. }
    apply eq_IZR in E.
    apply le_IZR in Hh0, Hh1, Hm0, Hm1. lia.
  - intros [-> ->]. lra.
Qed.

Lemma hour_angle_range_witness :
  valid_datetime (equinox 12 0) = true
  /\ -180 <= Excel.hour_angle_at (equinox 12 0) < 180.
Proof.
  split; [reflexivity|].
  exact (proj1 (hour_angle_range (equinox 12 0) eq_refl)).
Defined.

Lemma degrees_scale (x : R) :
  - PI < x <= PI -> -180 < degrees x <= 180.
Proof.
  intros [H1 H2]. pose proof PI_RGT_0 as Hpi. unfold degrees.
  assert (Hk : 0 < 180 / PI) by (apply Rdiv_lt_0_compat; lra).
  assert (E : PI * (180 / PI) = 180) by (field; lra).
  assert (U : x * (180 / PI) <= PI * (180 / PI))
    by (apply Rmult_le_compat_r; lra).
  assert (L : - PI * (180 / PI) < x * (180 / PI))
    by (apply Rmult_lt_compat_r; lra).
  lra.
Qed.

(** X6: The declination stays within the axial tilt, and an elevation that is
    returned lies in [-90, 90], whatever sines and cosines went in. *)
Theorem sun_position_ranges (lat : R) (ts : datetime) :
  -23.45 <= @Excel.declination_at real_math ts <= 23.45
  /\ forall (M : MathModule) e,
       Excel.elevation_at lat ts = Some e -> -90 <= e <= 90.
Proof.
  split.
  - unfold Excel.declination_at. cbn [sin real_math].
    match goal with
    | |- context [Rtrigo_def.sin ?x] => pose proof (SIN_bound x)
    end. lra.
  - intros M e. unfold Excel.elevation_at. cbv zeta. unfold Py.asin.
    destruct (_ && _); [|discriminate]. cbn [Py.bind]. intros [= <-].
    match goal with
    | |- context [Ratan.asin ?x] => pose proof (asin_bound x) as [B1 B2]
    end.
    pose proof PI_RGT_0 as Hpi. unfold degrees.
    assert (Hk : 0 < 180 / PI) by (apply Rdiv_lt_0_compat; lra).
    assert (E : PI / 2 * (180 / PI) = 90) by (field; lra).
    match goal with
    | |- _ <= ?v * _ <= _ =>
        assert (U : v * (180 / PI) <= PI / 2 * (180 / PI))
          by (apply Rmult_le_compat_r; lra);
        assert (L : - (PI / 2) * (180 / PI) <= v * (180 / PI))
          by (apply Rmult_le_compat_r; lra)
    end.
    lra.
Qed.

Lemma sun_position_ranges_witness :
  @Excel.elevation_at real_math 0 (equinox 12 0) = Some 90 /\ -90 <= 90 <= 90.
Proof.
  split; [apply elevation_noon|].
  exact (proj2 (sun_position_ranges 0 (equinox 12 0)) real_math 90
           elevation_noon).
Defined.

Lemma real_atan2_range (y x : R) : - PI < real_atan2 y x <= PI.
Proof.
  pose proof PI_RGT_0 as Hpi. unfold real_atan2.
  pose proof (atan_bound (y / x)) as [A1 A2].
  destruct (0 <? x) eqn:E1; [lra|]. apply Rltb_false in E1.
  destruct (x <? 0) eqn:E2.
  - apply Rltb_true in E2.
    assert (Hi : / x < 0) by now apply Rinv_lt_0_compat.
    destruct (0 <=? y) eqn:E3.
    + apply Rleb_true in E3.
      assert (Hq : y / x <= 0) by (unfold Rdiv; nra).
      assert (Ha : atan (y / x) <= 0).
      { destruct Hq as [Hq|Hq].
        - apply Rlt_le. rewrite <- atan_0. now apply atan_increasing.
        - rewrite Hq, atan_0. lra. }
      lra.
    + apply Rleb_false in E3.
      assert (Hq : 0 < y / x) by (unfold Rdiv; nra).
      assert (Ha : 0 < atan (y / x))
        by (rewrite <- atan_0; now apply atan_increasing).
      lra.
  - destruct (0 <? y); [lra|]. destruct (y <? 0); lra.
Qed.

(** X7: With exact trigonometry the solar azimuth that the power functions use
    is normalised into [0, 360). *)
Theorem solar_azimuth_normalised (lat : R) (ts : datetime) :
  0 <= @Excel.solar_azimuth_at real_math lat ts < 360.
Proof.
  unfold Excel.solar_azimuth_at. cbv zeta. cbn [atan2 real_math].
  match goal with
  | |- context [real_atan2 ?y ?x] =>
      pose proof (degrees_scale _ (real_atan2_range y x)) as [D1 D2];
      set (d := degrees (real_atan2 y x)) in *
  end.
  destruct (d <? 0) eqn:E.
  - apply Rltb_true in E. lra.
  - apply Rltb_false in E. lra.
Qed.

(** The script's power function, past the horizon test, is its formula at
    that azimuth. *)
Lemma power_at_solar_azimuth {M : MathModule}
    (lat lon azimuth tilt dn dh gh : R) (ts : datetime) (temp : R) :
  Excel.calculate_power lat lon azimuth tilt dn dh gh ts temp
  = (elevation <- Excel.elevation_at lat ts ;;
     if elevation <=? 0 then Some 0
     else
       angle <- Excel.calculate_angle_of_incidence
                  (Excel.solar_azimuth_at lat ts) elevation azimuth tilt ;;
       Some (Py.max 0
               ((dn * Py.max 0 (cos (radians angle))
                 + dh * (1 + cos (radians tilt)) / 2
                 + gh * 0.2 * (1 - cos (radians tilt)) / 2)
                * (1 + (temp - 25) * (-0.004)) * 0.95))).
Proof. reflexivity. Qed.

End SunPosition.

(** ** The irradiance on the panel *)

Section Irradiance.

Lemma max_0_monotone (x y : R) : x <= y -> Py.max 0 x <= Py.max 0 y.
Proof. intros H. rewrite !max_spec. now apply Rle_max_compat_l. Qed.

Lemma max_0_of_nonneg (x : R) : 0 <= x -> Py.max 0 x = x.
Proof. intros H. rewrite max_spec. now apply Rmax_right. Qed.

Lemma max_0_of_nonpos (x : R) : x <= 0 -> Py.max 0 x = 0.
Proof. intros H. rewrite max_spec. now apply Rmax_left. Qed.

Lemma max_0_zero : Py.max 0 0 = 0.
Proof. apply max_0_of_nonneg. lra. Qed.

Lemma radians_degrees (x : R) : radians (degrees x) = x.
Proof. unfold radians, degrees. field. apply PI_neq0. Qed.

Lemma clamp_identity (c : R) : -1 <= c <= 1 -> Py.max (-1) (Py.min 1 c) = c.
Proof.
  intros [H1 H2]. rewrite max_spec, min_spec. unfold Rmax, Rmin.
  destruct (Rle_dec 1 c), (Rle_dec (-1) 1), (Rle_dec (-1) c); lra.
Qed.

Section ExactIncidence.

Local Existing Instance real_math.

(** X8: With exact trigonometry the incidence cosine already lies in [-1, 1]:
    the clamp changes nothing, and the cosine factor computed back from the
    angle in degrees is the incidence cosine itself. *)
Theorem incidence_cosine_round_trip (sun_azimuth sun_elevation azimuth tilt : R) :
  let c := sin (radians sun_elevation) * cos (radians tilt)
           + cos (radians sun_elevation) * sin (radians tilt)
             * cos (radians sun_azimuth - radians azimuth) in
  -1 <= c <= 1
  /\ exists a,
       Excel.calculate_angle_of_incidence sun_azimuth sun_elevation azimuth tilt
       = Some a
       /\ cos (radians a) = c
       /\ a = degrees (Ratan.acos c).
Proof.
  cbv zeta. cbn [sin cos real_math].
  set (c := Rtrigo_def.sin (radians sun_elevation) * _ + _).
  assert (Hc : -1 <= c <= 1).
  { subst c. apply elevation_sine_bounds.
    - apply (sin2_cos2 (radians sun_elevation)).
    - pose proof (sin2_cos2 (radians tilt)) as H. unfold Rsqr in H. lra.
    - apply COS_bound. }
  split; [exact Hc|].
  unfold Excel.calculate_angle_of_incidence. cbv zeta. cbn [sin cos real_math].
  fold c. rewrite (clamp_identity c Hc), (acos_defined c Hc). cbn [Py.bind].
  eexists. split; [reflexivity|]. split; [|reflexivity].
  rewrite radians_degrees. now apply cos_acos.
Qed.

Lemma flat_incidence (sa se pa pa' : R) :
  Excel.calculate_angle_of_incidence sa se pa 0
  = Excel.calculate_angle_of_incidence sa se pa' 0.
Proof.
  unfold Excel.calculate_angle_of_incidence. cbv zeta. cbn [sin cos real_math].
  rewrite radians_0, sin_0, cos_0.
  replace (Rtrigo_def.sin (radians se) * 1
           + Rtrigo_def.cos (radians se) * 0
             * Rtrigo_def.cos (radians sa - radians pa))
    with (Rtrigo_def.sin (radians se)) by ring.
  replace (Rtrigo_def.sin (radians se) * 1
           + Rtrigo_def.cos (radians se) * 0
             * Rtrigo_def.cos (radians sa - radians pa'))
    with (Rtrigo_def.sin (radians se)) by ring.
  reflexivity.
Qed.

Lemma flat_power (lat lon azimuth azimuth' dn dh gh gh' : R)
    (ts : datetime) (temp coeff : R) :
  App.calculate_solar_power lat lon azimuth 0 dn dh gh ts temp coeff
  = App.calculate_solar_power lat lon azimuth' 0 dn dh gh' ts temp coeff.
Proof.
  unfold App.calculate_solar_power. cbv zeta.
  destruct (App.elevation_at lat ts) as [e|]; [|reflexivity].
  cbn [Py.bind]. destruct (e <=? 0); [reflexivity|].
  change App.incidence_angle with Excel.calculate_angle_of_incidence.
  rewrite (flat_incidence _ e azimuth azimuth').
  destruct (Excel.calculate_angle_of_incidence _ _ _ _) as [a|];
    [|reflexivity].
  cbn [Py.bind cos real_math]. rewrite radians_0, cos_0.
  replace (gh * 0.2 * (1 - 1) / 2) with 0 by lra.
  replace (gh' * 0.2 * (1 - 1) / 2) with 0 by lra.
  reflexivity.
Qed.

(** X9: A flat panel (tilt 0) produces the same power whatever its azimuth and
    whatever the global horizontal irradiance: the ground-reflected term
    vanishes and the incidence is that of the sun's elevation. *)
Theorem flat_panel_ignores_azimuth (lat lon azimuth azimuth' dn dh gh gh' : R)
    (ts : datetime) (temp coeff : R) :
  Excel.calculate_power lat lon azimuth 0 dn dh gh ts temp
  = Excel.calculate_power lat lon azimuth' 0 dn dh gh' ts temp
  /\ App.calculate_solar_power lat lon azimuth 0 dn dh gh ts temp coeff
     = App.calculate_solar_power lat lon azimuth' 0 dn dh gh' ts temp coeff.
Proof.
  split; [|apply flat_power].
  rewrite !script_power_scaled.
  now rewrite (flat_power lat lon azimuth azimuth' dn dh gh gh' ts temp (-0.4)).
Qed.

End ExactIncidence.

End Irradiance.

Section PowerShape.

Context {M : MathModule}.

(** The two ways the dashboard's power function returns. *)
Lemma power_cases (lat lon azimuth tilt dn dh gh : R) (ts : datetime)
    (temp coeff p : R) :
  App.calculate_solar_power lat lon azimuth tilt dn dh gh ts temp coeff
  = Some p ->
  (exists e, Excel.elevation_at lat ts = Some e /\ e <= 0 /\ p = 0)
  \/ (exists e a,
        Excel.elevation_at lat ts = Some e /\ 0 < e
        /\ Excel.calculate_angle_of_incidence
             (Excel.solar_azimuth_at lat ts) e azimuth tilt = Some a
        /\ p = Py.max 0
                 ((dn * Py.max 0 (cos (radians a))
                   + dh * (1 + cos (radians tilt)) / 2
                   + gh * 0.2 * (1 - cos (radians tilt)) / 2)
                  * temp_effect temp coeff)).
Proof.
  unfold App.calculate_solar_power. cbv zeta.
  change (App.elevation_at lat ts) with (Excel.elevation_at lat ts).
  destruct (Excel.elevation_at lat ts) as [e|]; [|discriminate].
  cbn [Py.bind]. destruct (e <=? 0) eqn:E.
  - intros [= <-]. left. exists e. apply Rleb_true in E. auto.
  - apply Rleb_false in E.
    change App.incidence_angle with Excel.calculate_angle_of_incidence.
    change App.hour_angle_at with Excel.hour_angle_at.
    change App.declination_at with Excel.declination_at.
    fold (Excel.solar_azimuth_at lat ts).
    destruct (Excel.calculate_angle_of_incidence _ _ _ _) as [a|] eqn:A;
      [|discriminate].
    cbn [Py.bind]. intros [= <-]. right. exists e, a. auto.
Qed.

(** X10: While the derating factor is not negative, more direct normal
    irradiance never gives less power. *)
Theorem power_monotone_in_direct (lat lon azimuth tilt dn1 dn2 dh gh : R)
    (ts : datetime) (temp coeff p1 p2 : R) :
  0 <= temp_effect temp coeff ->
  dn1 <= dn2 ->
  App.calculate_solar_power lat lon azimuth tilt dn1 dh gh ts temp coeff
  = Some p1 ->
  App.calculate_solar_power lat lon azimuth tilt dn2 dh gh ts temp coeff
  = Some p2 ->
  p1 <= p2.
Proof.
  intros Ht Hd H1 H2.
  apply power_cases in H1, H2.
  destruct H1 as [(e1 & E1 & L1 & ->) | (e1 & a1 & E1 & L1 & A1 & ->)];
    destruct H2 as [(e2 & E2 & L2 & ->) | (e2 & a2 & E2 & L2 & A2 & ->)];
    rewrite E1 in E2; injection E2 as <-; try lra.
  rewrite A1 in A2. injection A2 as <-.
  apply max_0_monotone. apply Rmult_le_compat_r; [exact Ht|].
  pose proof (max_0_nonneg (cos (radians a1))) as Hc.
  assert (dn1 * Py.max 0 (cos (radians a1)) <= dn2 * Py.max 0 (cos (radians a1)))
    by (apply Rmult_le_compat_r; assumption).
  lra.
Qed.

End PowerShape.

Lemma power_monotone_in_direct_witness :
  0 <= temp_effect 35 (-0.45)
  /\ 0 <= 1000
  /\ 0 <= 955.
Proof.
  assert (Ht : 0 <= temp_effect 35 (-0.45)) by (unfold temp_effect; lra).
  assert (Hd : 0 <= 1000) by lra.
  split; [exact Ht|]. split; [exact Hd|].
  apply (@power_monotone_in_direct real_math 0 0 180 0 0 1000 0 0
           (equinox 12 0) 35 (-0.45) 0 955 Ht Hd).
  - rewrite power_zenith_flat. f_equal. unfold Py.max.
    assert (E : (0 * (1 + (35 - 25) * (-0.45 / 100)) >? 0) = false)
      by (apply Rltb_false; lra).
    now rewrite E.
  - rewrite <- coefficient_equator. apply dashboard_power_equator.
Defined.

Section Budget.

Local Existing Instance real_math.

Lemma power_budget (lat lon azimuth tilt dn dh gh : R) (ts : datetime)
    (temp coeff : R) :
  0 <= dn -> 0 <= dh -> 0 <= gh ->
  exists p,
    App.calculate_solar_power lat lon azimuth tilt dn dh gh ts temp coeff
    = Some p
    /\ 0 <= p <= irradiance_budget dn dh gh * Py.max 0 (temp_effect temp coeff).
Proof.
  intros Hdn Hdh Hgh.
  destruct (power_defined lat lon azimuth tilt dn dh gh ts temp coeff)
    as (p & Hp & Hp0).
  exists p. split; [exact Hp|]. split; [exact Hp0|].
  pose proof (max_0_nonneg (temp_effect temp coeff)) as Hm.
  assert (Hb : 0 <= irradiance_budget dn dh gh)
    by (unfold irradiance_budget; lra).
  apply power_cases in Hp
    as [(e & _ & _ & ->) | (e & a & _ & _ & _ & ->)]; [nra|].
  cbn [cos real_math].
  pose proof (COS_bound (radians tilt)) as [Ct1 Ct2].
  pose proof (COS_bound (radians a)) as [Ca1 Ca2].
  pose proof (max_0_nonneg (Rtrigo_def.cos (radians a))) as Cf0.
  assert (Cf1 : Py.max 0 (Rtrigo_def.cos (radians a)) <= 1).
  { rewrite max_spec. apply Rmax_lub; lra. }
  set (cf := Py.max 0 (Rtrigo_def.cos (radians a))) in *.
  set (ct := Rtrigo_def.cos (radians tilt)) in *.
  set (tr := dn * cf + dh * (1 + ct) / 2 + gh * 0.2 * (1 - ct) / 2).
  assert (Htr : 0 <= tr <= irradiance_budget dn dh gh).
  { unfold tr, irradiance_budget. split.
    - assert (0 <= dn * cf) by nra.
      assert (0 <= dh * (1 + ct)) by nra.
      assert (0 <= gh * (1 - ct)) by nra. lra.
    - assert (dn * cf <= dn) by nra.
      assert (dh * (1 + ct) <= dh * 2) by nra.
      assert (gh * (1 - ct) <= gh * 2) by nra. lra. }
  destruct (Rle_dec 0 (temp_effect temp coeff)) as [Ht|Ht].
  - rewrite (max_0_of_nonneg (temp_effect temp coeff)) by assumption.
    rewrite max_0_of_nonneg by nra. nra.
  - rewrite max_0_of_nonpos by nra. nra.
Qed.

(** X11: With exact trigonometry and irradiance components that are not
    negative, the power never exceeds direct + diffuse + 0.2 global times
    the derating factor floored at 0; the script's stays below 0.95 of that
    with the coefficient -0.4. *)
Theorem power_within_budget (lat lon azimuth tilt dn dh gh : R) (ts : datetime)
    (temp coeff : R) :
  0 <= dn -> 0 <= dh -> 0 <= gh ->
  (exists p,
     App.calculate_solar_power lat lon azimuth tilt dn dh gh ts temp coeff
     = Some p
     /\ p <= irradiance_budget dn dh gh * Py.max 0 (temp_effect temp coeff))
  /\ (exists p,
        Excel.calculate_power lat lon azimuth tilt dn dh gh ts temp = Some p
        /\ p <= 0.95 * (irradiance_budget dn dh gh
                        * Py.max 0 (temp_effect temp (-0.4)))).
Proof.
  intros Hdn Hdh Hgh. split.
  - destruct (power_budget lat lon azimuth tilt dn dh gh ts temp coeff
                Hdn Hdh Hgh) as (p & Hp & _ & Hb).
    exists p. auto.
  - rewrite script_power_scaled.
    destruct (power_budget lat lon azimuth tilt dn dh gh ts temp (-0.4)
                Hdn Hdh Hgh) as (p & -> & _ & Hb).
    exists (0.95 * p). split; [reflexivity | lra].
Qed.

Lemma power_within_budget_witness :
  0 <= 1000 /\ 0 <= 0
  /\ exists p,
       App.calculate_solar_power 0 0 180 0 1000 0 0 (equinox 12 0) 35 (-0.45)
       = Some p
       /\ p <= irradiance_budget 1000 0 0 * Py.max 0 (temp_effect 35 (-0.45)).
Proof.
  assert (H1 : 0 <= 1000) by lra.
  assert (H0 : 0 <= 0) by lra.
  split; [exact H1|]. split; [exact H0|].
  exact (proj1 (power_within_budget 0 0 180 0 1000 0 0 (equinox 12 0) 35
                  (-0.45) H1 H0 H0)).
Defined.

(** X12: Without irradiance there is no power, whatever the sun position, the
    orientation, the temperature and the coefficient; an hour whose three
    irradiance fields are missing gives a row of 0 Wh. *)
Theorem no_irradiance_no_power (lat lon azimuth tilt : R) (ts : datetime)
    (temp coeff : R) :
  App.calculate_solar_power lat lon azimuth tilt 0 0 0 ts temp coeff = Some 0
  /\ Excel.calculate_power lat lon azimuth tilt 0 0 0 ts temp = Some 0
  /\ forall size eff h,
       direct_normal_irradiance h = None ->
       diffuse_radiation h = None ->
       shortwave_radiation h = None ->
       option_map Energy_Wh (App.sample_row lat lon size eff h) = Some 0.
Proof.
  assert (D : forall az ti t te c,
             App.calculate_solar_power lat lon az ti 0 0 0 t te c = Some 0).
  { intros az ti t te c.
    destruct (power_budget lat lon az ti 0 0 0 t te c)
      as (p & Hp & H0 & Hb); try lra.
    unfold irradiance_budget in Hb.
    rewrite Hp. f_equal. lra. }
  split; [apply D|]. split.
  - rewrite script_power_scaled, D. cbn. f_equal. lra.
  - intros size eff h H1 H2 H3.
    rewrite sample_row_energy, H1, H2, H3. cbn [or_default].
    rewrite D. cbn. f_equal. lra.
Qed.

Lemma no_irradiance_no_power_witness :
  direct_normal_irradiance (mkhourly (equinox 12 0) (Some 30) None None None)
  = None
  /\ option_map Energy_Wh
       (App.sample_row 0 0 5 95
          (mkhourly (equinox 12 0) (Some 30) None None None)) = Some 0.
Proof.
  split; [reflexivity|].
  exact (proj2 (proj2 (no_irradiance_no_power 0 0 0 0 (equinox 12 0) 0 0))
           5 95 (mkhourly (equinox 12 0) (Some 30) None None None)
           eq_refl eq_refl eq_refl).
Defined.

End Budget.

(** ** The financial figures *)

Section Finance.

Lemma truediv_defined (x y : R) : y <> 0 -> Py.truediv x y = Some (x / y).
Proof. intros H. unfold Py.truediv. destruct (Req_dec_T y 0); tauto. Qed.

Lemma truediv_by_zero (x : R) : Py.truediv x 0 = None.
Proof. unfold Py.truediv. destruct (Req_dec_T 0 0); tauto. Qed.

(** X13: The panel area is defined unless the efficiency is 0 (a division by
    zero); the area times the efficiency, under 1 kW/m2, gives back the
    system size, and a larger efficiency needs a smaller area. *)
Theorem panel_area_round_trip (system_size efficiency : R) :
  App.calculate_panel_area system_size 0 = None
  /\ (efficiency <> 0 ->
      exists area,
        App.calculate_panel_area system_size efficiency = Some area
        /\ area * (efficiency / 100) = system_size
        /\ (0 < system_size -> 0 < efficiency -> 0 < area)
        /\ (forall efficiency' area',
              0 < system_size -> 0 < efficiency <= efficiency' ->
              App.calculate_panel_area system_size efficiency' = Some area' ->
              area' <= area)).
Proof.
  unfold App.calculate_panel_area. split.
  - replace (1000 * (0 / 100)) with 0 by lra. apply truediv_by_zero.
  - intros He. rewrite truediv_defined by lra.
    eexists. split; [reflexivity|]. split; [field; lra|]. split.
    + intros Hs Hp. apply Rdiv_lt_0_compat; lra.
    + intros e' a' Hs [Hp Hle]. rewrite truediv_defined by lra.
      intros [= <-].
      replace (system_size * 1000 / (1000 * (e' / 100)))
        with (system_size * 100 * / e') by (field; lra).
      replace (system_size * 1000 / (1000 * (efficiency / 100)))
        with (system_size * 100 * / efficiency) by (field; lra).
      apply Rmult_le_compat_l; [lra|].
      apply Rinv_le_contravar; lra.
Qed.

Lemma panel_area_round_trip_witness :
  21 <> 0
  /\ exists area,
       App.calculate_panel_area 5 21 = Some area /\ area * (21 / 100) = 5.
Proof.
  assert (H : 21 <> 0) by lra.
  split; [exact H|].
  destruct (proj2 (panel_area_round_trip 5 21) H) as (area & Ha & Hr & _).
  exists area. auto.
Defined.

(** X14: The sidebar's rate is always positive: the bill divided by the usage
    when both are positive, 0.12 otherwise; so a positive production always
    has positive savings and a finite payback. *)
Theorem electricity_rate_positive (last_bill last_kwh : R) :
  0 < App.electricity_rate last_bill last_kwh
  /\ (0 < last_bill -> 0 < last_kwh ->
      App.electricity_rate last_bill last_kwh * last_kwh = last_bill)
  /\ (last_bill <= 0 \/ last_kwh <= 0 ->
      App.electricity_rate last_bill last_kwh = 0.12)
  /\ (forall production cost,
        0 < production ->
        App.payback_years cost
          (App.annual_savings production
             (App.electricity_rate last_bill last_kwh))
        = App.Finite
            (cost / (production * App.electricity_rate last_bill last_kwh))).
Proof.
  assert (P : 0 < App.electricity_rate last_bill last_kwh).
  { unfold App.electricity_rate.
    destruct (last_bill >? 0) eqn:E1; destruct (last_kwh >? 0) eqn:E2;
      cbn [andb]; try lra.
    apply Rltb_true in E1, E2. now apply Rdiv_lt_0_compat. }
  split; [exact P|]. split; [|split].
  - intros Hb Hk. unfold App.electricity_rate.
    apply Rltb_true in Hb, Hk. rewrite Hb, Hk. cbn [andb].
    apply Rltb_true in Hk. field. lra.
  - intros H. unfold App.electricity_rate.
    destruct (last_bill >? 0) eqn:E1; destruct (last_kwh >? 0) eqn:E2;
      cbn [andb]; try reflexivity.
    apply Rltb_true in E1, E2. lra.
  - intros production cost Hp.
    unfold App.payback_years, App.annual_savings.
    assert (E : (production * App.electricity_rate last_bill last_kwh >? 0)
                = true) by (apply Rltb_true; nra).
    now rewrite E.
Qed.

Lemma electricity_rate_positive_witness :
  0 < 120 /\ 0 < 800 /\ App.electricity_rate 120 800 * 800 = 120.
Proof.
  assert (Hb : 0 < 120) by lra.
  assert (Hk : 0 < 800) by lra.
  split; [exact Hb|]. split; [exact Hk|].
  exact (proj1 (proj2 (electricity_rate_positive 120 800)) Hb Hk).
Defined.

(** X15: With positive savings, the 25-year net savings are not negative exactly
    when the payback is at most 25 years; the monthly savings are a twelfth
    of the annual ones. *)
Theorem lifetime_savings_and_payback (annual_savings system_cost : R) :
  0 < annual_savings ->
  exists y,
    App.payback_years system_cost annual_savings = App.Finite y
    /\ (0 <= App.lifetime_savings annual_savings system_cost <-> y <= 25)
    /\ App.monthly_savings annual_savings * 12 = annual_savings.
Proof.
  intros Hs. unfold App.payback_years, App.lifetime_savings,
    App.monthly_savings.
  assert (E : (annual_savings >? 0) = true) by now apply Rltb_true.
  rewrite E. eexists. split; [reflexivity|]. split; [|field].
  assert (Hq : system_cost / annual_savings * annual_savings = system_cost)
    by (field; lra).
  split; intros H.
  - apply Rmult_le_reg_r with annual_savings; [exact Hs|]. lra.
  - assert (system_cost / annual_savings * annual_savings
            <= 25 * annual_savings)
      by (apply Rmult_le_compat_r; lra).
    lra.
Qed.

Lemma lifetime_savings_and_payback_witness :
  0 < 900
  /\ exists y,
       App.payback_years 5000 900 = App.Finite y
       /\ (0 <= App.lifetime_savings 900 5000 <-> y <= 25).
Proof.
  assert (H : 0 < 900) by lra.
  split; [exact H|].
  destruct (lifetime_savings_and_payback 900 5000 H) as (y & Hy & Hl & _).
  exists y. auto.
Defined.

(** X16: The table shows a number of years exactly when the savings are positive
    and the cost is below a hundred years of savings; in every other case it
    shows N/A. *)
Theorem payback_shown_iff (system_cost annual_savings : R) :
  ((exists y,
      App.payback_report (App.payback_years system_cost annual_savings)
      = App.Years y)
   <-> 0 < annual_savings /\ system_cost < 100 * annual_savings)
  /\ (App.payback_report (App.payback_years system_cost annual_savings)
      = App.NotApplicable
      <-> annual_savings <= 0 \/ 100 * annual_savings <= system_cost).
Proof.
  unfold App.payback_years, App.payback_report.
  destruct (annual_savings >? 0) eqn:E; cbn [App.xlt].
  - apply Rltb_true in E.
    assert (Hq : system_cost / annual_savings * annual_savings = system_cost)
      by (field; lra).
    destruct (system_cost / annual_savings <? 100) eqn:E'.
    + apply Rltb_true in E'.
      assert (system_cost / annual_savings * annual_savings
              < 100 * annual_savings)
        by (apply Rmult_lt_compat_r; lra).
      split; split.
      * intros _. split; lra.
      * intros _. eauto.
      * discriminate.
      * intros [H'|H']; lra.
    + apply Rltb_false in E'.
      assert (100 * annual_savings
              <= system_cost / annual_savings * annual_savings)
        by (apply Rmult_le_compat_r; lra).
      split; split.
      * intros [y Hy]. discriminate.
      * intros [_ H']. lra.
      * intros _. right. lra.
      * reflexivity.
  - apply Rltb_false in E. split; split.
    + intros [y Hy]. discriminate.
    + intros [H' _]. lra.
    + intros _. now left.
    + reflexivity.
Qed.

End Finance.

Lemma payback_shown_iff_witness :
  (0 < 900 /\ 5000 < 100 * 900)
  /\ exists y,
       App.payback_report (App.payback_years 5000 900) = App.Years y.
Proof.
  assert (H : 0 < 900 /\ 5000 < 100 * 900) by (split; lra).
  split; [exact H|].
  exact (proj2 (proj1 (payback_shown_iff 5000 900)) H).
Defined.


Section ExactFrames.

Local Existing Instance real_math.

Lemma frame_defined (lat lon size eff : R) (hourly : list hourly_entry) :
  exists df, App.build_frame lat lon size eff hourly = Some df.
Proof.
  induction hourly as [|h hourly [df IH]]; cbn [App.build_frame].
  - eauto.
  - rewrite IH. unfold App.sample_row.
    destruct (App.calculate_optimal_angles lat) as [[[[az ti] he] di] zo].
    cbv zeta.
    match goal with
    | |- context [App.calculate_solar_power ?a ?b ?c ?d ?e ?f ?g ?t ?u ?v] =>
        destruct (power_defined a b c d e f g t u v) as (p & -> & _)
    end.
    cbn [Py.bind]. eauto.
Qed.

(** X17: Both loops build one row per hour, in the order of the hours: the
    timestamp and its date, the weather values with 20 degrees and 0 W/m2
    in place of missing ones, and the power as energy, never negative (the
    dashboard's scaled by a size and an efficiency that are not negative). *)
Theorem frames_follow_hours (lat lon azimuth tilt size eff : R)
    (hourly : list hourly_entry) :
  Forall (fun h => valid_datetime (time h) = true) hourly ->
  0 <= size -> 0 <= eff ->
  (exists st,
     Excel.loop lat lon azimuth tilt hourly Excel.initial = Some st
     /\ Forall2 (fun h r =>
                   exists p,
                     Excel.calculate_power lat lon azimuth tilt
                       (or_default (direct_normal_irradiance h) 0)
                       (or_default (diffuse_radiation h) 0)
                       (or_default (shortwave_radiation h) 0)
                       (time h) (or_default (temperature_2m h) 20) = Some p
                     /\ 0 <= p /\ r = hour_row h p)
                hourly (Excel.excel_data st))
  /\ (exists df,
        App.build_frame lat lon size eff hourly = Some df
        /\ Forall2 (fun h r =>
                      exists q,
                        App.calculate_solar_power lat lon
                          (App.optimal_azimuth lat) (App.optimal_tilt lat)
                          (or_default (direct_normal_irradiance h) 0)
                          (or_default (diffuse_radiation h) 0)
                          (or_default (shortwave_radiation h) 0)
                          (time h) (or_default (temperature_2m h) 20)
                          (App.calculate_temperature_coefficient lat) = Some q
                        /\ 0 <= q * size * (eff / 100)
                        /\ r = hour_row h (q * size * (eff / 100)))
                   hourly df).
Proof.
  intros V Hs He. split.
  - destruct (loop_defined lat lon azimuth tilt hourly Excel.initial V eq_refl)
      as [st H].
    exists st. split; [exact H|].
    apply script_rows in H as (rows & E & F). cbn in E. rewrite E.
    eapply Forall2_impl; [|exact F].
    intros h r (p & Hp & ->). exists p. split; [exact Hp|]. split; [|reflexivity].
    destruct (script_power_defined lat lon azimuth tilt
                (or_default (direct_normal_irradiance h) 0)
                (or_default (diffuse_radiation h) 0)
                (or_default (shortwave_radiation h) 0)
                (time h) (or_default (temperature_2m h) 20))
      as (p' & Hp' & H0).
    congruence.
  - destruct (frame_defined lat lon size eff hourly) as [df H].
    exists df. split; [exact H|].
    apply frame_rows in H.
    eapply Forall2_impl; [|exact H].
    intros h r (q & Hq & ->). exists q. split; [exact Hq|].
    split; [|reflexivity].
    apply returned_power_nonnegative in Hq.
    assert (0 <= eff / 100) by lra.
    assert (0 <= q * size) by nra. nra.
Qed.

Lemma frames_follow_hours_witness :
  Forall (fun h => valid_datetime (time h) = true) sample_hours
  /\ 0 <= 5 /\ 0 <= 95
  /\ exists df,
       App.build_frame 0 0 5 95 sample_hours = Some df
       /\ length df = length sample_hours.
Proof.
  assert (V : Forall (fun h => valid_datetime (time h) = true) sample_hours)
    by (repeat constructor).
  assert (Hs : 0 <= 5) by lra.
  assert (He : 0 <= 95) by lra.
  split; [exact V|]. split; [exact Hs|]. split; [exact He|].
  destruct (proj2 (frames_follow_hours 0 0 180 0 5 95 sample_hours V Hs He))
    as (df & H & F).
  exists df. split; [exact H|].
  symmetry. exact (Forall2_length F).
Defined.

(** X18: without hours the script's loop ends with its initial variables but
    its peak search raises; the dashboard then stores a frame without rows,
    hence without columns, and its total, its daily frame, its peak day and
    its monthly frame all raise.  Whatever the [math] module computes, once
    the script's loop has completed its peak search raises for an empty
    series only. *)
Theorem empty_series_has_no_peak (M : MathModule)
    (lat lon azimuth tilt size eff : R) (hourly : list hourly_entry) :
  @Excel.loop M lat lon azimuth tilt [] Excel.initial = Some Excel.initial
  /\ @Excel.analyze_last_year_production M lat lon azimuth tilt [] = None
  /\ @App.build_frame M lat lon size eff [] = Some []
  /\ App.total_energy [] = None
  /\ App.daily_df [] = None
  /\ App.peak_day [] = None
  /\ App.monthly_summary [] = None
  /\ (forall st,
        @Excel.loop M lat lon azimuth tilt hourly Excel.initial = Some st ->
        (@Excel.analyze_last_year_production M lat lon azimuth tilt hourly
         = None <-> hourly = [])).
Proof.
  repeat (split; [reflexivity|]).
  intros st H. split; [|intros ->; reflexivity].
  intros N. destruct hourly as [|h hourly]; [reflexivity|]. exfalso.
  unfold Excel.analyze_last_year_production in N.
  rewrite H in N. cbn [Py.bind] in N.
  apply loop_extends in H as (rows & E1 & _ & E3 & _ & E5 & _).
  cbn [Excel.initial Excel.excel_data Excel.daily_energy app] in E1, E5.
  pose proof (script_daily_keys rows) as Ks. rewrite <- E5 in Ks.
  assert (Kne : map fst (Excel.daily_energy st) <> []).
  { destruct rows as [|r rows]; [discriminate|].
    intros E. assert (I : In (Date r) (keys (Excel.daily_energy st)))
      by (apply Ks; now left).
    unfold keys in I. rewrite E in I. destruct I. }
  destruct (max_by_defined
              (fun k => dict_get date_eqb k (Excel.daily_energy st) 0)
              _ Kne) as [d Hmax].
  rewrite Hmax in N. cbn [Py.bind] in N.
  apply max_by_split in Hmax as (l1 & l2 & Heq & _).
  destruct (assoc_some_key date_eqb date_eqb_spec d (Excel.daily_energy st))
    as [e He].
  { unfold keys. rewrite Heq. apply in_elt. }
  rewrite He in N. discriminate.
Qed.

Lemma empty_series_has_no_peak_witness :
  exists st,
    @Excel.loop real_math 0 0 180 0 sample_hours Excel.initial = Some st
    /\ @Excel.analyze_last_year_production real_math 0 0 180 0 sample_hours
       <> None.
Proof.
  assert (V : Forall (fun h => valid_datetime (time h) = true) sample_hours)
    by (repeat constructor).
  destruct (loop_defined 0 0 180 0 sample_hours Excel.initial V eq_refl)
    as [st H].
  exists st. split; [exact H|].
  intros N.
  apply (proj2 (proj2 (proj2 (proj2 (proj2 (proj2 (proj2
           (empty_series_has_no_peak real_math 0 0 180 0 5 95
              sample_hours))))))) st H) in N.
  discriminate.
Defined.

End ExactFrames.

(** ** Months and dates *)

Section Months.

Lemma nth_add_at (i n : nat) (v : R) (l : list R) :
  (n < length l)%nat ->
  nth i (add_at n v l) 0 = if Nat.eqb i n then nth i l 0 + v else nth i l 0.
Proof.
  revert i n. induction l as [|x l IH]; intros i n Hn; cbn [length] in Hn;
    [lia|].
  destruct n as [|n], i as [|i]; cbn [add_at nth Nat.eqb]; try reflexivity.
  apply IH. lia.
Qed.

Lemma month_total_cons (r : row) (series : list row) (m : Z) :
  month_total (r :: series) m
  = (if (month (Timestamp r) =? m)%Z then Energy_Wh r else 0)
    + month_total series m.
Proof.
  unfold month_total. cbn [filter].
  destruct (month (Timestamp r) =? m)%Z; cbn [map].
  - now rewrite sum_cons.
  - lra.
Qed.

Lemma month_total_app (s1 s2 : list row) (m : Z) :
  month_total (s1 ++ s2) m = month_total s1 m + month_total s2 m.
Proof.
  induction s1 as [|r s1 IH]; cbn [app].
  - unfold month_total at 2. cbn. rewrite sum_nil. lra.
  - rewrite !month_total_cons, IH. lra.
Qed.

Lemma valid_month (t : datetime) :
  valid_datetime t = true -> (1 <= month t <= 12)%Z.
Proof.
  unfold valid_datetime. intros Hv.
  repeat (apply andb_true_iff in Hv as [Hv ?]).
  repeat match goal with
         | H : (_ <=? _)%Z = true |- _ => apply Z.leb_le in H
         end.
  lia.
Qed.

Lemma loop_months {M : MathModule} (lat lon azimuth tilt : R)
    (hourly : list hourly_entry) (st st' : Excel.analysis) :
  Forall (fun h => valid_datetime (time h) = true) hourly ->
  length (Excel.monthly_energy st) = 12%nat ->
  Excel.loop lat lon azimuth tilt hourly st = Some st' ->
  exists rows,
    Excel.excel_data st' = Excel.excel_data st ++ rows
    /\ forall m, (1 <= m <= 12)%Z ->
         nth (Z.to_nat (m - 1)) (Excel.monthly_energy st') 0
         = nth (Z.to_nat (m - 1)) (Excel.monthly_energy st) 0
           + month_total rows m.
Proof.
  intros V. revert st. induction V as [|h hourly Vh V IH]; intros st L H.
  - cbn in H. injection H as <-. exists []. rewrite app_nil_r.
    split; [reflexivity|]. intros m _. unfold month_total. cbn.
    rewrite sum_nil. lra.
  - cbn [Excel.loop] in H.
    destruct (Excel.loop_body lat lon azimuth tilt h st) as [st1|] eqn:B;
      [|discriminate].
    cbn [Py.bind] in H.
    unfold Excel.loop_body in B. cbv zeta in B.
    destruct (Excel.calculate_power _ _ _ _ _ _ _ _ _) as [power|];
      [|discriminate].
    cbn [Py.bind] in B.
    pose proof (valid_month _ Vh) as Hm.
    unfold list_iadd in B. cbv zeta in B. rewrite L in B.
    assert (E : ((0 <=? month (time h) - 1)
                 && (month (time h) - 1 <? Z.of_nat 12))%Z = true).
    { apply andb_true_iff. split; [apply Z.leb_le | apply Z.ltb_lt]; lia. }
    rewrite E in B. cbn [Py.bind] in B. injection B as <-.
    apply IH in H as (rows & E1 & E2);
      [|cbn [Excel.monthly_energy]; now rewrite add_at_length].
    cbn [Excel.excel_data Excel.monthly_energy] in *.
    exists (hour_row h power :: rows). split.
    + rewrite E1, <- app_assoc. reflexivity.
    + intros m Hr. rewrite (E2 m Hr), nth_add_at by lia.
      rewrite month_total_cons. cbn [hour_row Timestamp Energy_Wh].
      destruct (Nat.eqb_spec (Z.to_nat (m - 1)) (Z.to_nat (month (time h) - 1)))
        as [Q|Q];
        destruct (Z.eqb_spec (month (time h)) m) as [Q'|Q']; try lia; lra.
Qed.

(** X19: The script's twelve slots: slot m - 1 holds the energy of all the
    samples of month m, whatever their year. *)
Theorem monthly_slots_by_month_number (lat lon azimuth tilt : R)
    (hourly : list hourly_entry) :
  Forall (fun h => valid_datetime (time h) = true) hourly ->
  exists st,
    @Excel.loop real_math lat lon azimuth tilt hourly Excel.initial = Some st
    /\ forall m, (1 <= m <= 12)%Z ->
         nth (Z.to_nat (m - 1)) (Excel.monthly_energy st) 0
         = month_total (Excel.excel_data st) m.
Proof.
  intros V.
  destruct (loop_defined lat lon azimuth tilt hourly Excel.initial V eq_refl)
    as [st H].
  exists st. split; [exact H|].
  apply (@loop_months real_math lat lon azimuth tilt hourly Excel.initial st
           V eq_refl) in H as (rows & E1 & E2).
  cbn [Excel.initial Excel.excel_data Excel.monthly_energy app] in *.
  intros m Hm. rewrite E1, (E2 m Hm), nth_repeat. lra.
Qed.

Lemma monthly_slots_by_month_number_witness :
  Forall (fun h => valid_datetime (time h) = true) sample_hours
  /\ exists st,
       @Excel.loop real_math 0 0 180 0 sample_hours Excel.initial = Some st
       /\ nth 2 (Excel.monthly_energy st) 0
          = month_total (Excel.excel_data st) 3.
Proof.
  assert (V : Forall (fun h => valid_datetime (time h) = true) sample_hours)
    by (repeat constructor).
  split; [exact V|].
  destruct (monthly_slots_by_month_number 0 0 180 0 sample_hours V)
    as (st & H & Hm).
  exists st. split; [exact H|].
  apply (Hm 3%Z). lia.
Defined.

End Months.

(** ** The grouped frames of the dashboard *)

Section Grouped.

Lemma by_month_total (series : list row) (p : period) :
  total_for period_eqb p (by_month series) = period_total series p.
Proof.
  unfold total_for, period_total, by_month.
  induction series as [|r series IH]; cbn [map filter fst]; [reflexivity|].
  destruct (period_eqb (period_of (Date r)) p); cbn [map snd]; [|exact IH].
  rewrite !sum_cons, IH. reflexivity.
Qed.

Lemma by_month_keys (series : list row) :
  map fst (by_month series) = map (fun r => period_of (Date r)) series.
Proof. unfold by_month. rewrite map_map. reflexivity. Qed.

Lemma monthly_summary_sorted (df : list row) :
  sorted_keys period_ltb (monthly_groups df).
Proof.
  apply groupby_sorted;
    [apply period_ltb_irrefl | apply period_ltb_trans | apply period_ltb_total].
Qed.

Lemma monthly_summary_get (df : list row) (p : period) :
  dict_get period_eqb p (monthly_groups df) 0 = period_total df p.
Proof.
  unfold monthly_groups.
  change (groupby_sum period_ltb (by_month df))
    with (add_rows (group_add period_ltb) (by_month df) []).
  rewrite (add_rows_get period_eqb period_eqb_spec (group_add period_ltb)
             (sorted_keys period_ltb)).
  - rewrite by_month_total. cbn. lra.
  - intros k v g. apply group_add_sorted;
      [apply period_ltb_irrefl | apply period_ltb_trans
      | apply period_ltb_total].
  - intros x k v g. apply group_add_assoc;
      [apply period_eqb_spec | apply period_ltb_irrefl
      | apply period_ltb_trans | apply period_ltb_total].
  - constructor.
Qed.

Lemma monthly_summary_keys (df : list row) (p : period) :
  In p (keys (monthly_groups df))
  <-> In p (map (fun r => period_of (Date r)) df).
Proof.
  unfold monthly_groups.
  change (groupby_sum period_ltb (by_month df))
    with (add_rows (group_add period_ltb) (by_month df) []).
  rewrite (add_rows_keys period_eqb period_eqb_spec (group_add period_ltb)
             (sorted_keys period_ltb)).
  - rewrite by_month_keys. cbn. tauto.
  - intros k v g. apply group_add_sorted;
      [apply period_ltb_irrefl | apply period_ltb_trans
      | apply period_ltb_total].
  - intros x k v g. apply group_add_assoc;
      [apply period_eqb_spec | apply period_ltb_irrefl
      | apply period_ltb_trans | apply period_ltb_total].
  - constructor.
Qed.

(** X20: on a frame that has rows, the dashboard's monthly frame has one
    row per calendar month (year and month) that occurs in the frame, in
    chronological order, holding the energy of that calendar month. *)
Theorem monthly_summary_by_period (df : list row) :
  df <> [] ->
  exists monthly,
    App.monthly_summary df = Some monthly
    /\ StronglySorted (fun a b => period_ltb a b = true) (map fst monthly)
    /\ (forall p, In p (map fst monthly)
                  <-> In p (map (fun r => period_of (Date r)) df))
    /\ (forall p v, In (p, v) monthly -> v = period_total df p).
Proof.
  intros Hdf. exists (monthly_groups df).
  split; [now apply monthly_summary_defined|].
  split; [apply monthly_summary_sorted|].
  split; [apply monthly_summary_keys|].
  intros p v I. rewrite <- monthly_summary_get. unfold dict_get.
  rewrite (assoc_of_in period_eqb period_eqb_spec p v); [reflexivity| |exact I].
  apply (sorted_nodup period_ltb period_ltb_irrefl), monthly_summary_sorted.
Qed.

Lemma monthly_summary_by_period_witness :
  sample_frame <> []
  /\ exists monthly,
       App.monthly_summary sample_frame = Some monthly
       /\ In (2023, 3)%Z (map fst monthly).
Proof.
  assert (F : sample_frame <> []) by discriminate.
  split; [exact F|].
  destruct (monthly_summary_by_period sample_frame F)
    as (monthly & H & _ & K & _).
  exists monthly. split; [exact H|].
  apply K. cbn. now left.
Defined.

(** X21: on a frame that has rows, the dashboard's daily frame has one row
    per date that occurs in the frame, in chronological order whatever the
    order of the frame's rows, holding the energy of that date. *)
Theorem daily_df_by_date (df : list row) :
  df <> [] ->
  exists daily,
    App.daily_df df = Some daily
    /\ StronglySorted (fun a b => date_ltb a b = true) (map fst daily)
    /\ (forall d, In d (map fst daily) <-> In d (map Date df))
    /\ (forall d v, In (d, v) daily -> v = daily_total df d).
Proof.
  intros Hdf. exists (daily_groups df).
  split; [now apply daily_df_defined|].
  split; [apply daily_df_sorted|]. split; [apply daily_df_keys|].
  intros d v I. rewrite <- daily_df_get. unfold dict_get.
  rewrite (assoc_of_in date_eqb date_eqb_spec d v); [reflexivity| |exact I].
  apply (sorted_nodup date_ltb date_ltb_irrefl), daily_df_sorted.
Qed.

Lemma daily_df_by_date_witness :
  sample_frame <> []
  /\ exists daily,
       App.daily_df sample_frame = Some daily
       /\ In (mkdate 2023 3 22) (map fst daily).
Proof.
  assert (F : sample_frame <> []) by discriminate.
  split; [exact F|].
  destruct (daily_df_by_date sample_frame F) as (daily & H & _ & K & _).
  exists daily. split; [exact H|].
  apply K. cbn. right. now left.
Defined.

End Grouped.

(** ** System size, efficiency and the two entry points *)

Section Scaling.

Lemma capacity_factor_defined (total size : R) :
  size <> 0 ->
  App.capacity_factor total size = NpFinite (total / (size * 8760) * 100).
Proof.
  intros H. unfold App.capacity_factor, Py.np_truediv.
  destruct (Req_dec_T (size * 8760) 0) as [E|E]; [exfalso; lra|].
  reflexivity.
Qed.

Lemma frame_nonempty {M : MathModule} (lat lon size eff : R)
    (hourly : list hourly_entry) (df : list row) :
  hourly <> [] -> App.build_frame lat lon size eff hourly = Some df ->
  df <> [].
Proof.
  intros Hn H. apply frame_rows in H. apply Forall2_length in H.
  destruct hourly; [congruence|]. destruct df; [discriminate|discriminate].
Qed.

Lemma frames_energy_scale {M : MathModule} (lat lon size size' eff : R)
    (hourly : list hourly_entry) (df df' : list row) :
  App.build_frame lat lon size eff hourly = Some df ->
  App.build_frame lat lon size' eff hourly = Some df' ->
  Py.sum (map Energy_Wh df) * size' = Py.sum (map Energy_Wh df') * size.
Proof.
  intros H H'. apply frame_rows in H, H'.
  revert df' H'. induction H as [|h r hourly df (q & Hq & ->) F IH];
    intros df' H'; inversion H' as [|h' r' hs' df'' (q' & Hq' & ->) F']; subst.
  - cbn. rewrite sum_nil. lra.
  - cbn [map hour_row Energy_Wh]. rewrite !sum_cons.
    rewrite Hq in Hq'. injection Hq' as <-.
    specialize (IH _ F'). nra.
Qed.

Local Existing Instance real_math.

(** X22: the energy of the dashboard's frame is proportional to the system
    size, so its capacity factor is a finite number that does not depend
    on the system size; at size 0 the division of the [numpy.float64] total
    does not raise: the card shows an infinity for a positive total and a
    NaN for a total of 0. *)
Theorem capacity_factor_ignores_size (lat lon eff size size' : R)
    (hourly : list hourly_entry) :
  hourly <> [] -> size <> 0 -> size' <> 0 ->
  exists df df' total total',
    App.build_frame lat lon size eff hourly = Some df
    /\ App.build_frame lat lon size' eff hourly = Some df'
    /\ App.total_energy df = Some total
    /\ App.total_energy df' = Some total'
    /\ total * size' = total' * size
    /\ App.capacity_factor total size = App.capacity_factor total' size'
    /\ App.capacity_factor total size
       = NpFinite (total / (size * 8760) * 100)
    /\ (0 < total -> App.capacity_factor total 0 = NpInf)
    /\ App.capacity_factor 0 0 = NpNaN.
Proof.
  intros Hn Hs Hs'.
  destruct (frame_defined lat lon size eff hourly) as [df H].
  destruct (frame_defined lat lon size' eff hourly) as [df' H'].
  pose proof (frame_nonempty _ _ _ _ _ _ Hn H) as Hd.
  pose proof (frame_nonempty _ _ _ _ _ _ Hn H') as Hd'.
  exists df, df', (Py.sum (map Energy_Wh df) / 1000),
    (Py.sum (map Energy_Wh df') / 1000).
  split; [exact H|]. split; [exact H'|].
  split; [now apply total_energy_defined|].
  split; [now apply total_energy_defined|].
  pose proof (frames_energy_scale _ _ _ _ _ _ _ _ H H') as E.
  set (t := Py.sum (map Energy_Wh df) / 1000) in *.
  set (t' := Py.sum (map Energy_Wh df') / 1000) in *.
  assert (T : t * size' = t' * size) by (unfold t, t'; lra).
  split; [exact T|]. split; [|split; [|split]].
  - rewrite !capacity_factor_defined by assumption.
    replace (t / (size * 8760)) with (t * size' / (size * size' * 8760))
      by (field; lra).
    rewrite T. do 2 f_equal. field. lra.
  - now apply capacity_factor_defined.
  - intros Ht. unfold App.capacity_factor, Py.np_truediv.
    destruct (Req_dec_T (0 * 8760) 0) as [_|Q]; [|exfalso; lra].
    assert (E1 : (0 <? t) = true) by now apply Rltb_true.
    rewrite E1. cbn [Py.np_mul].
    assert (E2 : (0 <? 100) = true) by (apply Rltb_true; lra).
    now rewrite E2.
  - unfold App.capacity_factor, Py.np_truediv.
    destruct (Req_dec_T (0 * 8760) 0) as [_|Q]; [|exfalso; lra].
    assert (E1 : (0 <? 0) = false) by (apply Rltb_false; lra).
    rewrite E1. reflexivity.
Qed.

Lemma capacity_factor_ignores_size_witness :
  sample_hours <> [] /\ 5 <> 0 /\ 10 <> 0
  /\ exists df df' total total',
       App.build_frame 0 0 5 95 sample_hours = Some df
       /\ App.build_frame 0 0 10 95 sample_hours = Some df'
       /\ App.total_energy df = Some total
       /\ App.total_energy df' = Some total'
       /\ App.capacity_factor total 5 = App.capacity_factor total' 10.
Proof.
  assert (Hn : sample_hours <> []) by discriminate.
  assert (H5 : 5 <> 0) by lra.
  assert (H10 : 10 <> 0) by lra.
  split; [exact Hn|]. split; [exact H5|]. split; [exact H10|].
  destruct (capacity_factor_ignores_size 0 0 95 5 10 sample_hours Hn H5 H10)
    as (df & df' & t & t' & H & H' & Ht & Ht' & _ & C & _).
  exists df, df', t, t'. auto.
Defined.

End Scaling.

Section EntryPoints.

Local Existing Instance real_math.

Lemma coefficient_temperate (lat : R) :
  30 <= Rabs lat < 45 -> App.calculate_temperature_coefficient lat = -0.4.
Proof.
  intros [H1 H2]. unfold App.calculate_temperature_coefficient, Py.abs.
  cbv zeta.
  assert (E1 : (Rabs lat <? 15) = false) by (apply Rltb_false; lra).
  assert (E2 : (Rabs lat <? 30) = false) by (apply Rltb_false; lra).
  assert (E3 : (Rabs lat <? 45) = true) by (apply Rltb_true; lra).
  rewrite E1, E2, E3. lra.
Qed.

Lemma rows_agree (lat lon : R) (hourly : list hourly_entry)
    (rows df : list row) :
  30 <= Rabs lat < 45 ->
  Forall2 (fun h r =>
             exists p,
               Excel.calculate_power lat lon
                 (App.optimal_azimuth lat) (App.optimal_tilt lat)
                 (or_default (direct_normal_irradiance h) 0)
                 (or_default (diffuse_radiation h) 0)
                 (or_default (shortwave_radiation h) 0)
                 (time h) (or_default (temperature_2m h) 20) = Some p
               /\ r = hour_row h p) hourly rows ->
  Forall2 (fun h r =>
             exists q,
               App.calculate_solar_power lat lon
                 (App.optimal_azimuth lat) (App.optimal_tilt lat)
                 (or_default (direct_normal_irradiance h) 0)
                 (or_default (diffuse_radiation h) 0)
                 (or_default (shortwave_radiation h) 0)
                 (time h) (or_default (temperature_2m h) 20)
                 (App.calculate_temperature_coefficient lat) = Some q
               /\ r = hour_row h (q * 1 * (95 / 100))) hourly df ->
  rows = df.
Proof.
  intros Hb F. revert df.
  induction F as [|h r hourly rows (p & Hp & ->) F IH]; intros df F';
    inversion F' as [|h' r' hs' df' (q & Hq & ->) F'']; subst;
    [reflexivity|].
  rewrite (IH _ F''). f_equal.
  rewrite (coefficient_temperate lat Hb) in Hq.
  rewrite script_power_scaled, Hq in Hp. cbn [option_map] in Hp.
  injection Hp as <-. f_equal; lra.
Qed.

(** X23: Between 30 and 45 degrees of latitude, where the latitude's coefficient
    is the script's -0.4, the dashboard set to 1 kW and 95 % builds the very
    rows that the script builds at the optimizer's orientation. *)
Theorem script_rows_are_dashboard_rows (lat lon : R)
    (hourly : list hourly_entry) :
  Forall (fun h => valid_datetime (time h) = true) hourly ->
  30 <= Rabs lat < 45 ->
  exists st df,
    Excel.loop lat lon (App.optimal_azimuth lat) (App.optimal_tilt lat)
               hourly Excel.initial = Some st
    /\ App.build_frame lat lon 1 95 hourly = Some df
    /\ Excel.excel_data st = df
    /\ (hourly <> [] ->
        App.total_energy df = Some (Excel.total_energy st / 1000)).
Proof.
  intros V Hb.
  destruct (loop_totals lat lon (App.optimal_azimuth lat) (App.optimal_tilt lat)
              hourly V) as (st & H & _ & _ & Ht & _).
  destruct (frame_defined lat lon 1 95 hourly) as [df H'].
  exists st, df. split; [exact H|]. split; [exact H'|].
  apply script_rows in H as (rows & E & F). cbn in E.
  apply frame_rows in H'.
  assert (Q : Excel.excel_data st = df)
    by (rewrite E; now apply (rows_agree lat lon hourly)).
  split; [exact Q|]. intros Hn.
  rewrite total_energy_defined.
  - now rewrite Ht, Q.
  - rewrite <- Q, E. apply Forall2_length in F.
    destruct hourly; [congruence|]. destruct rows; discriminate.
Qed.

Lemma script_rows_are_dashboard_rows_witness :
  Forall (fun h => valid_datetime (time h) = true) sample_hours
  /\ 30 <= Rabs 37.7749 < 45
  /\ exists st df,
       Excel.loop 37.7749 (-122.4194) (App.optimal_azimuth 37.7749)
                  (App.optimal_tilt 37.7749) sample_hours Excel.initial
       = Some st
       /\ App.build_frame 37.7749 (-122.4194) 1 95 sample_hours = Some df
       /\ Excel.excel_data st = df.
Proof.
  assert (V : Forall (fun h => valid_datetime (time h) = true) sample_hours)
    by (repeat constructor).
  assert (B : 30 <= Rabs 37.7749 < 45)
    by (unfold Rabs; destruct (Rcase_abs 37.7749); lra).
  split; [exact V|]. split; [exact B|].
  destruct (script_rows_are_dashboard_rows 37.7749 (-122.4194) sample_hours
              V B) as (st & df & H & H' & Q & _).
  exists st, df. auto.
Defined.

(** X24: In whatever order the hours come, the script's peak day has the
    largest daily total, [peak_energy] is that total, and every date met
    before the peak day has a strictly smaller total. *)
Theorem script_peak_is_first_maximum (lat lon azimuth tilt : R)
    (hourly : list hourly_entry) (st : Excel.analysis) (peak_day : date)
    (peak_energy : R) :
  Forall (fun h => valid_datetime (time h) = true) hourly ->
  Excel.analyze_last_year_production lat lon azimuth tilt hourly
  = Some (st, peak_day, peak_energy) ->
  peak_energy = daily_total (Excel.excel_data st) peak_day
  /\ (forall d, daily_total (Excel.excel_data st) d
                <= daily_total (Excel.excel_data st) peak_day)
  /\ exists before after,
       map fst (Excel.daily_energy st) = before ++ peak_day :: after
       /\ forall d, In d before ->
            daily_total (Excel.excel_data st) d
            < daily_total (Excel.excel_data st) peak_day.
Proof.
  intros V H.
  destruct (loop_totals lat lon azimuth tilt hourly V)
    as (st0 & H0 & _ & Hg & _).
  unfold Excel.analyze_last_year_production in H.
  rewrite H0 in H. cbn [Py.bind] in H.
  destruct (max_by _ _) as [d|] eqn:Hmax; [|discriminate].
  cbn [Py.bind] in H.
  destruct (assoc date_eqb d (Excel.daily_energy st0)) as [e|] eqn:He;
    [|discriminate].
  cbn [Py.bind] in H. injection H as <- <- <-.
  pose proof (script_daily_get (Excel.excel_data st0)) as G.
  pose proof (script_daily_keys (Excel.excel_data st0)) as Ks.
  rewrite <- Hg in G, Ks.
  apply max_by_split in Hmax as (l1 & l2 & Heq & H1 & H2).
  split; [|split].
  - rewrite <- G. unfold dict_get. now rewrite He.
  - intros d'. rewrite <- !G.
    destruct (assoc date_eqb d' (Excel.daily_energy st0)) as [v|] eqn:A.
    + assert (I : In d' (keys (Excel.daily_energy st0))).
      { apply (assoc_in date_eqb date_eqb_spec) in A.
        apply in_map_iff. exists (d', v). auto. }
      unfold keys in I. rewrite Heq in I.
      apply in_app_or in I as [I|[<-|I]].
      * specialize (H1 _ I). lra.
      * lra.
      * apply (H2 _ I).
    + (* a date that does not occur has total 0, and no total is negative *)
      assert (Z : dict_get date_eqb d' (Excel.daily_energy st0) 0 = 0)
        by (unfold dict_get; now rewrite A).
      rewrite Z. rewrite G.
      unfold daily_total.
      assert (N : forall rows,
                 Forall (fun r => 0 <= Energy_Wh r) rows ->
                 0 <= Py.sum (map Energy_Wh rows)).
      { induction 1 as [|r rows Hr _ IH]; cbn [map].
        - rewrite sum_nil. lra.
        - rewrite sum_cons. lra. }
      apply N. apply Forall_forall. intros r Hr.
      apply filter_In in Hr as [Hr _].
      apply script_rows in H0 as (rows & E & F). cbn in E. rewrite E in Hr.
      clear - F Hr.
      induction F as [|h r' hs rows (p & Hp & ->) F IH]; [destruct Hr|].
      destruct Hr as [<-|Hr]; [|auto].
      cbn [hour_row Energy_Wh].
      destruct (script_power_defined lat lon azimuth tilt
                  (or_default (direct_normal_irradiance h) 0)
                  (or_default (diffuse_radiation h) 0)
                  (or_default (shortwave_radiation h) 0)
                  (time h) (or_default (temperature_2m h) 20))
        as (p' & Hp' & H0).
      congruence.
  - exists l1, l2. split; [exact Heq|].
    intros d' I. rewrite <- !G. apply (H1 _ I).
Qed.

Lemma script_peak_is_first_maximum_witness :
  Forall (fun h => valid_datetime (time h) = true) unordered_hours
  /\ exists st e,
       Excel.analyze_last_year_production 0 0 180 0 unordered_hours
       = Some (st, mkdate 2023 3 22, e)
       /\ e = daily_total (Excel.excel_data st) (mkdate 2023 3 22).
Proof.
  assert (V : Forall (fun h => valid_datetime (time h) = true) unordered_hours)
    by (repeat constructor).
  split; [exact V|].
  destruct script_tie_first_met as (st & e & H & _).
  exists st, e. split; [exact H|].
  exact (proj1 (script_peak_is_first_maximum 0 0 180 0 unordered_hours st
                  (mkdate 2023 3 22) e V H)).
Defined.

End EntryPoints.

(** ** The unclamped arcsine of the elevation *)

Section Unclamped.

(** C2: the sine handed to the elevation's arcsine is not clamped, unlike
    the incidence cosine: whenever it lies outside [-1, 1], which the
    rounding of the sines and cosines can cause, both power functions raise
    instead of returning a power. *)
Theorem power_raises_on_sine_overshoot (M : MathModule)
    (lat lon azimuth tilt dn dh gh : R) (ts : datetime) (temp coeff : R) :
  let x := sin (radians (Excel.declination_at ts)) * sin (radians lat)
           + cos (radians (Excel.declination_at ts)) * cos (radians lat)
             * cos (radians (Excel.hour_angle_at ts)) in
  x < -1 \/ 1 < x ->
  Excel.calculate_power lat lon azimuth tilt dn dh gh ts temp = None
  /\ App.calculate_solar_power lat lon azimuth tilt dn dh gh ts temp coeff
     = None.
Proof.
  cbv zeta. intros Hx.
  assert (E : Excel.elevation_at lat ts = None).
  { unfold Excel.elevation_at. cbv zeta. unfold Py.asin.
    match goal with
    | |- context [(-1 <=? ?x) && (?x <=? 1)] =>
        assert (B : (-1 <=? x) && (x <=? 1) = false)
    end.
    { apply andb_false_iff. destruct Hx as [Hx|Hx].
      - left. apply Rleb_false. exact Hx.
      - right. apply Rleb_false. exact Hx. }
    rewrite B. reflexivity. }
  unfold Excel.calculate_power, App.calculate_solar_power. cbv zeta.
  change (App.elevation_at lat ts) with (Excel.elevation_at lat ts).
  rewrite E. split; reflexivity.
Qed.

Lemma power_raises_on_sine_overshoot_witness :
  @Excel.calculate_power rounded_math 0 0 180 0 1000 0 0 (equinox 12 0) 35
  = None
  /\ @App.calculate_solar_power rounded_math 0 0 180 0 1000 0 0 (equinox 12 0)
       35 (-0.45) = None
  /\ @Excel.calculate_power real_math 0 0 180 0 1000 0 0 (equinox 12 0) 35
     = Some 912.
Proof.
  split; [|split; [|apply script_power_equator]];
    apply (power_raises_on_sine_overshoot rounded_math 0 0 180 0 1000 0 0
             (equinox 12 0) 35 (-0.45));
    right;
    change (@Excel.declination_at rounded_math (equinox 12 0))
      with (@Excel.declination_at real_math (equinox 12 0));
    rewrite declination_equinox, hour_angle_noon;
    cbn [sin cos rounded_math];
    rewrite radians_0, sin_0, cos_0;
    assert (He : 0 < / 2 ^ 53) by (apply Rinv_0_lt_compat, pow_lt; lra);
    nra.
Defined.

End Unclamped.
